(** * Transaction categorization core of the finance application

    A shallow embedding of [backend/categorizer.py], [backend/ml_categorizer.py]
    and [backend/api/ml_training.py], followed by the properties of the
    categorization core.

    Conventions of the embedding:
    - Python [str] values are [string]s over 7-bit ASCII; the Unicode part of
      [str.lower], [str.isspace] and of the [re] character classes is outside
      the model.
    - Database ids and priorities are [Z]; Python truthiness of an id
      ([if category_id:]) is [truthy_id], false on [None] and on [0].
    - Exceptions are values of [exn]; code that may raise lives in the
      state-and-exception monad [M].
    - [re.sub] with the fixed patterns of [preprocess_text] is computed by a
      small backtracking matcher over the pattern syntax those patterns use;
      [re.search] on user-written rule patterns and scikit-learn are
      parameters.
    - The model directory is a record of three files; what the file system
      does with each write is read from a script carried by the state. *)

From Stdlib Require Import Bool Arith NArith ZArith QArith Lia List Ascii String DecimalString.
From Stdlib Require Import Sorted Permutation.
Import ListNotations.
Close Scope Q_scope.
Open Scope string_scope.
Open Scope bool_scope.

(* ================================================================= *)
(** ** Python strings *)

Module Text.

Definition code (a : ascii) : N := N_of_ascii a.

Definition in_range (lo hi : N) (a : ascii) : bool :=
  ((lo <=? code a) && (code a <=? hi))%N.

(** [str.isspace] on ASCII: TAB, LF, VT, FF, CR, FS, GS, RS, US and SPACE. *)
Definition is_space (a : ascii) : bool :=
  in_range 9 13 a || in_range 28 32 a.

Definition is_digit (a : ascii) : bool := in_range 48 57 a.
Definition is_upper (a : ascii) : bool := in_range 65 90 a.
Definition is_lower (a : ascii) : bool := in_range 97 122 a.

(** [\w] on ASCII: letters, digits and the underscore. *)
Definition is_word (a : ascii) : bool :=
  is_digit a || is_upper a || is_lower a || (code a =? 95)%N.

Definition lower_char (a : ascii) : ascii :=
  if is_upper a then ascii_of_N (code a + 32) else a.

Definition upper_char (a : ascii) : ascii :=
  if is_lower a then ascii_of_N (code a - 32) else a.

Fixpoint map_chars (f : ascii -> ascii) (s : string) : string :=
  match s with
  | EmptyString => EmptyString
  | String a s' => String (f a) (map_chars f s')
  end.

Fixpoint all_chars (p : ascii -> bool) (s : string) : bool :=
  match s with
  | EmptyString => true
  | String a s' => p a && all_chars p s'
  end.

(** [s.lower()] *)
Definition lower (s : string) : string := map_chars lower_char s.

(** [s.lstrip()], [s.rstrip()], [s.strip()] *)
Fixpoint lstrip (s : string) : string :=
  match s with
  | EmptyString => EmptyString
  | String a s' => if is_space a then lstrip s' else s
  end.

Fixpoint rstrip (s : string) : string :=
  match s with
  | EmptyString => EmptyString
  | String a s' =>
      match rstrip s' with
      | EmptyString => if is_space a then EmptyString else String a EmptyString
      | r => String a r
      end
  end.

Definition strip (s : string) : string := rstrip (lstrip s).

(** [s.split()]: the maximal runs of non-whitespace characters.  [w] is the
    word read so far. *)
Fixpoint split_from (w : string) (s : string) : list string :=
  match s with
  | EmptyString => match w with EmptyString => [] | _ => [w] end
  | String a s' =>
      if is_space a
      then match w with
           | EmptyString => split_from EmptyString s'
           | _ => w :: split_from EmptyString s'
           end
      else split_from (w ++ String a EmptyString) s'
  end.

Definition split (s : string) : list string := split_from EmptyString s.

(** [sep.join(ws)] *)
Definition join (sep : string) (ws : list string) : string := String.concat sep ws.

(** [needle in s] *)
Fixpoint contains (needle s : string) : bool :=
  prefix needle s ||
  match s with
  | EmptyString => false
  | String _ s' => contains needle s'
  end.

(** Truthiness of a string: non-empty. *)
Definition nonempty (s : string) : bool :=
  match s with EmptyString => false | _ => true end.

End Text.

(* ================================================================= *)
(** ** The fragment of [re] used by the fixed patterns of [preprocess_text] *)

Module Re.
Import Text.

(** Members of a character set, which are also classes on their own. *)
Inductive item : Type :=
| IChar (a : ascii)              (* a literal character *)
| IRange (lo hi : ascii)         (* lo-hi inside a set *)
| IDigit                         (* \d *)
| ISpace.                        (* \s *)

(** Character classes. *)
Inductive cclass : Type :=
| CItem (i : item)
| CNonSpace                      (* \S *)
| CDot                           (* .  (no DOTALL: anything but a newline) *)
| CSet (cs : list item)          (* [...]  *)
| CNotSet (cs : list item).      (* [^...] *)

(** [ic] is the [re.IGNORECASE] flag. *)
Definition imatch (ic : bool) (i : item) (a : ascii) : bool :=
  match i with
  | IChar x =>
      if ic then (code (lower_char a) =? code (lower_char x))%N
      else (code a =? code x)%N
  | IRange lo hi =>
      in_range (code lo) (code hi) a ||
      (ic && (in_range (code lo) (code hi) (lower_char a) ||
              in_range (code lo) (code hi) (upper_char a)))
  | IDigit => is_digit a
  | ISpace => is_space a
  end.

Definition cmatch (ic : bool) (c : cclass) (a : ascii) : bool :=
  match c with
  | CItem i => imatch ic i a
  | CNonSpace => negb (is_space a)
  | CDot => negb (code a =? 10)%N
  | CSet cs => existsb (fun i => imatch ic i a) cs
  | CNotSet cs => negb (existsb (fun i => imatch ic i a) cs)
  end.

(** Patterns.  Every repetition in the source patterns is over a single
    character class, and every repetition is greedy. *)
Inductive regex : Type :=
| REps
| RClass (c : cclass)
| RRep (c : cclass) (lo : nat) (hi : option nat)   (* c{lo,hi}; hi = None: unbounded *)
| RBol                                             (* ^  *)
| REol                                             (* $  *)
| RWordB                                           (* \b *)
| RSeq (r1 r2 : regex)
| RAlt (r1 r2 : regex).

Definition RStar (c : cclass) : regex := RRep c 0 None.
Definition RPlus (c : cclass) : regex := RRep c 1 None.
Definition ROpt (c : cclass) : regex := RRep c 0 (Some 1).

Fixpoint RLit (s : string) : regex :=
  match s with
  | EmptyString => REps
  | String a EmptyString => RClass (CItem (IChar a))
  | String a s' => RSeq (RClass (CItem (IChar a))) (RLit s')
  end.

Fixpoint RCat (rs : list regex) : regex :=
  match rs with
  | [] => REps
  | [r] => r
  | r :: rs' => RSeq r (RCat rs')
  end.

Definition word_opt (o : option ascii) : bool :=
  match o with Some a => is_word a | None => false end.

Definition next_char (s : string) : option ascii :=
  match s with String a _ => Some a | EmptyString => None end.

(** A continuation receives the character before the current position and
    the rest of the subject, and returns the rest after the whole match. *)
Definition cont : Type := option ascii -> string -> option string.

Definition dec_hi (hi : option nat) : option nat :=
  match hi with Some n => Some (pred n) | None => None end.

Definition hi_allows (hi : option nat) : bool :=
  match hi with Some 0 => false | _ => true end.

(** Greedy repetition of a class: take one more character when allowed and
    when the rest then matches; otherwise stop here if [lo] is reached. *)
Fixpoint rep_match (ic : bool) (c : cclass) (lo : nat) (hi : option nat)
         (prev : option ascii) (s : string) (k : cont) : option string :=
  let stop := match lo with 0 => k prev s | S _ => None end in
  match s with
  | EmptyString => stop
  | String a s' =>
      if hi_allows hi && cmatch ic c a
      then match rep_match ic c (pred lo) (dec_hi hi) (Some a) s' k with
           | Some r => Some r
           | None => stop
           end
      else stop
  end.

Fixpoint rmatch (ic : bool) (r : regex) (prev : option ascii) (s : string)
         (k : cont) : option string :=
  match r with
  | REps => k prev s
  | RClass c =>
      match s with
      | String a s' => if cmatch ic c a then k (Some a) s' else None
      | EmptyString => None
      end
  | RRep c lo hi => rep_match ic c lo hi prev s k
  | RBol => match prev with None => k prev s | Some _ => None end
  | REol =>
      match s with
      | EmptyString => k prev s
      | String a EmptyString => if (code a =? 10)%N then k prev s else None
      | _ => None
      end
  | RWordB =>
      if xorb (word_opt prev) (word_opt (next_char s)) then k prev s else None
  | RSeq r1 r2 => rmatch ic r1 prev s (fun p s' => rmatch ic r2 p s' k)
  | RAlt r1 r2 =>
      match rmatch ic r1 prev s k with
      | Some r => Some r
      | None => rmatch ic r2 prev s k
      end
  end.

(** The match starting exactly at the current position, as the rest of the
    subject after it. *)
Definition match_here (ic : bool) (r : regex) (prev : option ascii) (s : string)
  : option string :=
  rmatch ic r prev s (fun _ rest => Some rest).

(** [re.sub(r, repl, s)]: leftmost non-overlapping matches are replaced.
    [skip] counts the characters of the current match still to be dropped.
    An empty match is replaced and the character after it copied; none of the
    patterns of [preprocess_text] matches the empty string. *)
Fixpoint sub_from (ic : bool) (r : regex) (repl : string)
         (prev : option ascii) (s : string) (skip : nat) : string :=
  match skip with
  | S n =>
      match s with
      | String a s' => sub_from ic r repl (Some a) s' n
      | EmptyString => EmptyString
      end
  | 0 =>
      match match_here ic r prev s with
      | Some rest =>
          match s with
          | EmptyString => repl
          | String a s' =>
              match String.length s - String.length rest with
              | 0 => repl ++ String a (sub_from ic r repl (Some a) s' 0)
              | S n => repl ++ sub_from ic r repl (Some a) s' n
              end
          end
      | None =>
          match s with
          | EmptyString => EmptyString
          | String a s' => String a (sub_from ic r repl (Some a) s' 0)
          end
      end
  end.

Definition sub (ic : bool) (r : regex) (repl : string) (s : string) : string :=
  sub_from ic r repl None s 0.

(** Whether [r] matches somewhere in [s] ([re.search(r, s) is not None]). *)
Fixpoint search_from (ic : bool) (r : regex) (prev : option ascii) (s : string) : bool :=
  match match_here ic r prev s with
  | Some _ => true
  | None =>
      match s with
      | EmptyString => false
      | String a s' => search_from ic r (Some a) s'
      end
  end.

Definition search (ic : bool) (r : regex) (s : string) : bool :=
  search_from ic r None s.

End Re.

(* ================================================================= *)
(** ** [MLCategorizer.preprocess_text] *)

Module Normalizer.
Import Text Re.

Definition ch (s : string) : cclass :=
  match s with String a _ => CItem (IChar a) | EmptyString => CSet [] end.
Definition ich (s : string) : item :=
  match s with String a _ => IChar a | EmptyString => ISpace end.
Definition az : cclass := CItem (IRange "a" "z").
Definition d : cclass := CItem IDigit.
Definition sp : cclass := CItem ISpace.
Definition dash_or_space : cclass := CSet [ich "-"; ISpace].

(** [prefixes_to_remove] *)
Definition prefixes_to_remove : list regex :=
  [ (* ^withdrawal[-\s]*@?\s* *)
    RCat [RBol; RLit "withdrawal"; RStar dash_or_space; ROpt (ch "@"); RStar sp];
    (* ^deposit[-\s]*@?\s* *)
    RCat [RBol; RLit "deposit"; RStar dash_or_space; ROpt (ch "@"); RStar sp];
    (* ^withdrawal-ach-a-\S*\s* *)
    RCat [RBol; RLit "withdrawal-ach-a-"; RStar CNonSpace; RStar sp];
    (* ^deposit-ach-a-\S*\s* *)
    RCat [RBol; RLit "deposit-ach-a-"; RStar CNonSpace; RStar sp];
    (* ^withdrawal-transfer-\S*\s* *)
    RCat [RBol; RLit "withdrawal-transfer-"; RStar CNonSpace; RStar sp];
    (* ^web *)
    RCat [RBol; RLit "web"] ].

(** [noise_patterns] *)
Definition noise_patterns : list regex :=
  [ (* \d{6,} *)
    RRep d 6 None;
    (* #\d+ *)
    RCat [RLit "#"; RPlus d];
    (* \(\d+\) *)
    RCat [RLit "("; RPlus d; RLit ")"];
    (* \([^)]*\) *)
    RCat [RLit "("; RStar (CNotSet [ich ")"]); RLit ")"];
    (* trace\s*#?\s*\d+ *)
    RCat [RLit "trace"; RStar sp; ROpt (ch "#"); RStar sp; RPlus d];
    (* eff\.?\s*date.* *)
    RCat [RLit "eff"; ROpt (ch "."); RStar sp; RLit "date"; RStar CDot];
    (* \d{1,2}/\d{1,2}/\d{2,4} *)
    RCat [RRep d 1 (Some 2); RLit "/"; RRep d 1 (Some 2); RLit "/"; RRep d 2 (Some 4)];
    (* \d{3}[-\s]?\d{3}[-\s]?\d{4} *)
    RCat [RRep d 3 (Some 3); ROpt dash_or_space; RRep d 3 (Some 3);
          ROpt dash_or_space; RRep d 4 (Some 4)];
    (* \b[a-z]{2}\s+us\b *)
    RCat [RWordB; RRep az 2 (Some 2); RPlus sp; RLit "us"; RWordB];
    (* \bus\b$ *)
    RCat [RWordB; RLit "us"; RWordB; REol];
    (* \bca\b$ *)
    RCat [RWordB; RLit "ca"; RWordB; REol];
    (* online\s*access *)
    RCat [RLit "online"; RStar sp; RLit "access"];
    (* transfer\s*(std|dts) *)
    RCat [RLit "transfer"; RStar sp; RAlt (RLit "std") (RLit "dts")];
    (* from\s+share\s+\d+ *)
    RCat [RLit "from"; RPlus sp; RLit "share"; RPlus sp; RPlus d];
    (* to\s+share\s+\d+ *)
    RCat [RLit "to"; RPlus sp; RLit "share"; RPlus sp; RPlus d];
    (* item\s*#?\d+ *)
    RCat [RLit "item"; RStar sp; ROpt (ch "#"); RPlus d];
    (* ro\s*\d+ *)
    RCat [RLit "ro"; RStar sp; RPlus d];
    (* \d+\s*[a-z]\s+[a-z]+\s+(ave?|st|rd|blvd|dr|way) *)
    RCat [RPlus d; RStar sp; RClass az; RPlus sp; RPlus az; RPlus sp;
          RAlt (RSeq (RLit "av") (ROpt (ch "e")))
            (RAlt (RLit "st")
               (RAlt (RLit "rd")
                  (RAlt (RLit "blvd")
                     (RAlt (RLit "dr") (RLit "way")))))] ].

(** [[^a-z0-9\s]], applied without flags. *)
Definition special_chars : regex :=
  RClass (CNotSet [IRange "a" "z"; IRange "0" "9"; ISpace]).

(** [for pattern in ps: text = re.sub(pattern, repl, text, flags=re.IGNORECASE)] *)
Definition sub_all (ps : list regex) (repl : string) (text : string) : string :=
  fold_left (fun t p => sub true p repl t) ps text.

Definition preprocess_text (text : string) : string :=
  if negb (nonempty text) then ""
  else
    let text := lower text in
    let text := sub_all prefixes_to_remove "" text in
    let text := sub_all noise_patterns " " text in
    let text := sub false special_chars " " text in
    let text := join " " (split text) in
    strip text.

End Normalizer.

(* ================================================================= *)
(** ** Exceptions *)

Inductive exn : Type :=
| ReError            (* re.error *)
| AttributeError
| TypeError
| KeyError
| IndexError
| ValueError
| NotFittedError     (* sklearn.exceptions.NotFittedError *)
| OSError
| UnpicklingError
| OverflowError.

Inductive outcome (A : Type) : Type :=
| Ok (a : A)
| Raise (e : exn).
Arguments Ok {A} a.
Arguments Raise {A} e.

Definition obind {A B : Type} (m : outcome A) (f : A -> outcome B) : outcome B :=
  match m with
  | Ok a => f a
  | Raise e => Raise e
  end.

(** [try: m  except Exception: h] *)
Definition try_except {A : Type} (m : outcome A) (h : exn -> outcome A) : outcome A :=
  match m with
  | Ok a => Ok a
  | Raise e => h e
  end.

Declare Scope outcome_scope.
Delimit Scope outcome_scope with outcome.
Notation "x <- m ;; k" := (obind m (fun x => k))
  (at level 100, m at next level, right associativity) : outcome_scope.

(** Truthiness of an optional id: [None] and [0] are false. *)
Definition truthy_id (o : option Z) : bool :=
  match o with
  | Some z => negb (z =? 0)%Z
  | None => false
  end.

(* ================================================================= *)
(** ** Python dictionaries, in insertion order *)

Module Dict.
Section Dict.
Context {K V : Type} (eqb : K -> K -> bool).

Definition dict : Type := list (K * V).

Fixpoint get (d : dict) (k : K) : option V :=
  match d with
  | [] => None
  | (k', v) :: d' => if eqb k' k then Some v else get d' k
  end.

(** [d[k] = v]: an existing key keeps its place. *)
Fixpoint set (d : dict) (k : K) (v : V) : dict :=
  match d with
  | [] => [(k, v)]
  | (k', v') :: d' => if eqb k' k then (k', v) :: d' else (k', v') :: set d' k v
  end.

(** [{k: v for k, v in kvs}] *)
Definition of_items (kvs : list (K * V)) : dict :=
  fold_left (fun d kv => set d (fst kv) (snd kv)) kvs [].

Definition values (d : dict) : list V := map snd d.
Definition items (d : dict) : list (K * V) := d.
Definition len (d : dict) : nat := List.length d.

End Dict.
End Dict.

(* ================================================================= *)
(** ** The storage layer ([backend/models.py]) *)

Record Category : Type := {
  cat_id : Z;
  cat_name : string
}.

Record CategorizationRule : Type := {
  rule_pattern : string;
  rule_match_type : string;          (* 'contains', 'exact', 'regex' *)
  rule_category_id : Z;
  rule_priority : Z
}.

(** Modelled from the spec: the [deleted_at] column of [Transaction], which
    the queries of [ml_categorizer.py] filter on, is not declared in
    [models.py]; it is the soft-deletion mark of section 6
    ("excludes soft-deleted records"), [true] standing for a non-NULL value. *)
Record Transaction : Type := {
  txn_merchant : option string;
  txn_description : string;
  txn_category_id : option Z;
  txn_deleted : bool
}.

(** Tables are lists in insertion order. *)
Record database : Type := {
  categories : list Category;
  rules : list CategorizationRule;
  transactions : list Transaction
}.

(** [Category.query.filter_by(name=n).first()] *)
Definition category_by_name (db : database) (n : string) : option Category :=
  find (fun c => String.eqb (cat_name c) n) (categories db).

(** [Category.query.get(i)] *)
Definition category_by_id (db : database) (i : Z) : option Category :=
  find (fun c => (cat_id c =? i)%Z) (categories db).

(** [order_by(CategorizationRule.priority.desc())]: rows of equal priority
    stay in insertion order. *)
Fixpoint insert_desc (r : CategorizationRule) (l : list CategorizationRule)
  : list CategorizationRule :=
  match l with
  | [] => [r]
  | x :: l' =>
      if (rule_priority x <=? rule_priority r)%Z then r :: l
      else x :: insert_desc r l'
  end.

Definition order_by_priority_desc (rs : list CategorizationRule)
  : list CategorizationRule :=
  fold_right insert_desc [] rs.

(* ================================================================= *)
(** ** Libraries the code calls *)

(** Python's [re] on patterns written by users: compiling a pattern gives a
    compiled pattern or raises, [re.error] for a malformed pattern and, for
    some patterns, another exception ([OverflowError] for a repeat count
    beyond the limit of the engine); searching a compiled pattern is
    total. *)
Record regex_engine : Type := {
  compiled : Type;
  re_compile_ic : string -> outcome compiled;     (* re.compile(p, re.IGNORECASE) *)
  re_search : compiled -> string -> bool          (* c.search(text) is not None *)
}.

(** A scikit-learn estimator object: as constructed, or after [fit]. *)
Inductive estimator (A : Type) : Type :=
| Unfitted
| Fitted (a : A).
Arguments Unfitted {A}.
Arguments Fitted {A} a.

(** scikit-learn, as far as [MLCategorizer] calls it.  [Vec] and [Clf] are
    the fitted states of [TfidfVectorizer(max_features=2000, ...)] and
    [RandomForestClassifier(n_estimators=200, ...)], [Mat] the feature
    matrices. *)
Record sklearn : Type := {
  Vec : Type;
  Clf : Type;
  Mat : Type;
  Report : Type;
  train_test_split :
    list string -> list nat ->
    outcome (list string * list string * list nat * list nat);
  tfidf_fit_transform : list string -> outcome (Vec * Mat);
  tfidf_transform : Vec -> list string -> outcome Mat;
  rf_fit : Mat -> list nat -> outcome Clf;
  rf_predict : Clf -> Mat -> outcome (list nat);
  rf_predict_proba : Clf -> Mat -> outcome (list (list Q));
  accuracy_score : list nat -> list nat -> outcome Q;
  classification_report : list nat -> list nat -> list string -> outcome Report;
  round4 : Q -> Q                                   (* round(x, 4) *)
}.

(** A file of the model directory. *)
Inductive file (A : Type) : Type :=
| Missing
| Unreadable            (* present, but opening or unpickling it raises *)
| Stored (a : A).
Arguments Missing {A}.
Arguments Unreadable {A}.
Arguments Stored {A} a.

(** What the file system does with one [open(path, 'wb')] + [pickle.dump]. *)
Inductive write_event : Type :=
| WriteOk
| OpenFails             (* the file is left as it was *)
| DumpFails.            (* the file is left truncated *)

(* ================================================================= *)
(** ** Process state *)

Module State.
Section WithSklearn.
Variable sk : sklearn.

Definition mapping : Type := list (nat * Z).          (* label index -> category id *)
Definition rmapping : Type := list (Z * nat).         (* category id -> label index *)

(** The attributes of an [MLCategorizer] instance ([model_dir] is always
    ['models']). *)
Record MLCategorizer : Type := {
  vectorizer : option (estimator (Vec sk));
  classifier : option (estimator (Clf sk));
  category_mapping : option mapping;
  reverse_mapping : option rmapping
}.

(** The three pickles under [model_dir], each holding the pickled value of
    the attribute it was written from, and what the file system answers when
    [__init__] finds none of them and looks for the directory: [makedirs] is
    [Ok] when the directory is there or [os.makedirs] creates it, and the
    exception [os.makedirs] raises otherwise. *)
Record model_dir : Type := {
  vectorizer_pkl : file (option (estimator (Vec sk)));
  classifier_pkl : file (option (estimator (Clf sk)));
  category_mapping_pkl : file (option mapping);
  makedirs : outcome unit
}.

(** Everything the categorization code reads or writes:
    - [db]: the tables;
    - [created]: whether the global [_ml_categorizer] is bound to an
      instance; [self] holds the attributes of that one instance;
    - [files]: the model directory;
    - [writes]: the outcomes of the file writes still to come (none left:
      the write succeeds);
    - [history]: the in-memory states [self] has been through, most recent
      first, one entry per attribute assignment or in-place fit. *)
Record world : Type := {
  db : database;
  created : bool;
  self : MLCategorizer;
  files : model_dir;
  writes : list write_event;
  history : list MLCategorizer
}.

(** State and exceptions: a raise keeps the state reached so far. *)
Definition M (A : Type) : Type := world -> outcome A * world.

Definition ret {A : Type} (a : A) : M A := fun w => (Ok a, w).
Definition bind {A B : Type} (m : M A) (f : A -> M B) : M B :=
  fun w => match m w with
           | (Ok a, w') => f a w'
           | (Raise x, w') => (Raise x, w')
           end.
Definition lift {A : Type} (o : outcome A) : M A := fun w => (o, w).
Definition get_self : M MLCategorizer := fun w => (Ok (self w), w).
Definition get_files : M model_dir := fun w => (Ok (files w), w).

(** [try: m  except Exception: h] *)
Definition try_catch {A : Type} (m : M A) (h : exn -> M A) : M A :=
  fun w => match m w with
           | (Ok a, w') => (Ok a, w')
           | (Raise x, w') => h x w'
           end.

Definition with_self (s : MLCategorizer) (w : world) : world :=
  {| db := db w; created := created w; self := s; files := files w;
     writes := writes w; history := history w |}.

(** An assignment to an attribute of [self], or a fit in place. *)
Definition assign (f : MLCategorizer -> MLCategorizer) : M unit :=
  fun w =>
    let s := f (self w) in
    (Ok tt, {| db := db w; created := created w; self := s; files := files w;
               writes := writes w; history := s :: history w |}).

Definition set_vectorizer (v : option (estimator (Vec sk))) (s : MLCategorizer) :=
  {| vectorizer := v; classifier := classifier s;
     category_mapping := category_mapping s; reverse_mapping := reverse_mapping s |}.
Definition set_classifier (c : option (estimator (Clf sk))) (s : MLCategorizer) :=
  {| vectorizer := vectorizer s; classifier := c;
     category_mapping := category_mapping s; reverse_mapping := reverse_mapping s |}.
Definition set_category_mapping (m : option mapping) (s : MLCategorizer) :=
  {| vectorizer := vectorizer s; classifier := classifier s;
     category_mapping := m; reverse_mapping := reverse_mapping s |}.
Definition set_reverse_mapping (m : option rmapping) (s : MLCategorizer) :=
  {| vectorizer := vectorizer s; classifier := classifier s;
     category_mapping := category_mapping s; reverse_mapping := m |}.

(** The attributes after the first four lines of [__init__]. *)
Definition new_instance : MLCategorizer :=
  {| vectorizer := None; classifier := None;
     category_mapping := None; reverse_mapping := None |}.

End WithSklearn.

Arguments vectorizer {sk} _.
Arguments classifier {sk} _.
Arguments category_mapping {sk} _.
Arguments reverse_mapping {sk} _.
Arguments vectorizer_pkl {sk} _.
Arguments makedirs {sk} _.
Arguments classifier_pkl {sk} _.
Arguments category_mapping_pkl {sk} _.
Arguments db {sk} _.
Arguments created {sk} _.
Arguments self {sk} _.
Arguments files {sk} _.
Arguments writes {sk} _.
Arguments history {sk} _.
Arguments ret {sk A} a _.
Arguments bind {sk A B} m f _.
Arguments lift {sk A} o _.
Arguments get_self {sk} _.
Arguments get_files {sk} _.
Arguments try_catch {sk A} m h _.
Arguments assign {sk} f _.
Arguments with_self {sk} s w.
Arguments set_vectorizer {sk} v s.
Arguments set_classifier {sk} c s.
Arguments set_category_mapping {sk} m s.
Arguments set_reverse_mapping {sk} m s.
Arguments new_instance {sk}.

Declare Scope m_scope.
Delimit Scope m_scope with m.
Notation "x <- m ;; k" := (bind m (fun x => k))
  (at level 100, m at next level, right associativity) : m_scope.
Notation "m ;;; k" := (bind m (fun _ => k))
  (at level 100, right associativity) : m_scope.

End State.

(* ================================================================= *)
(** ** The rule engine and the orchestrator ([backend/categorizer.py]) *)

Module Categorizer.
Import Text State.
Open Scope outcome_scope.

Section WithLibraries.
Variable sk : sklearn.
Variable re : regex_engine.

(** [bool(re.search(pattern, text, re.IGNORECASE))] *)
Definition re_search_ic (pattern text : string) : outcome bool :=
  match re_compile_ic re pattern with
  | Ok c => Ok (re_search re c text)
  | Raise e => Raise e
  end.

(** The body of the loop of [rule_based_categorize] up to [if match:]. *)
Definition rule_match (rule : CategorizationRule) (text : string) : outcome bool :=
  let pattern := lower (rule_pattern rule) in
  if String.eqb (rule_match_type rule) "exact" then Ok (String.eqb pattern text)
  else if String.eqb (rule_match_type rule) "contains" then Ok (contains pattern text)
  else if String.eqb (rule_match_type rule) "regex" then re_search_ic pattern text
  else Ok false.

(** [for rule in rules: ...], with [except re.error: continue]. *)
Fixpoint scan_rules (rs : list CategorizationRule) (text : string)
  : outcome (option Z) :=
  match rs with
  | [] => Ok None
  | rule :: rest =>
      match rule_match rule text with
      | Ok true => Ok (Some (rule_category_id rule))
      | Ok false => scan_rules rest text
      | Raise ReError => scan_rules rest text
      | Raise e => Raise e
      end
  end.

Definition rule_based_categorize (w : world sk) (text : string) : outcome (option Z) :=
  scan_rules (order_by_priority_desc (rules (db w))) text.

(** The stub. *)
Definition classifier_predict (w : world sk) (text : string) : option Z := None.

Definition or_empty (o : option string) : string :=
  match o with Some s => s | None => "" end.

(** [if text: category_id = rule_based_categorize(text)] *)
Definition rules_on (w : world sk) (text : string) : outcome (option Z) :=
  if nonempty text then rule_based_categorize w text else Ok None.

Definition categorize_transaction (w : world sk) (merchant description : option string)
  : outcome (option Z) :=
  let primary_text := strip (lower (or_empty merchant)) in
  let secondary_text := strip (lower (or_empty description)) in
  c1 <- rules_on w primary_text ;;
  if truthy_id c1 then Ok c1 else
  c2 <- rules_on w secondary_text ;;
  if truthy_id c2 then Ok c2 else
  let combined_text := strip (primary_text ++ " " ++ secondary_text) in
  c3 <- rules_on w combined_text ;;
  if truthy_id c3 then Ok c3 else
  let c4 := classifier_predict w combined_text in
  if truthy_id c4 then Ok c4 else
  match category_by_name (db w) "Uncategorized" with
  | Some uncategorized => Ok (Some (cat_id uncategorized))
  | None => Ok None
  end.

End WithLibraries.
End Categorizer.

(* ================================================================= *)
(** ** The classifier model ([backend/ml_categorizer.py]) *)

Module ML.
Import Text Normalizer State.
Open Scope outcome_scope.

(** The built-in merchant lexicon of [get_training_data]: for every block,
    the category names given to [get_cat_id] and the merchants of the block. *)
Definition lexicon : list (list string * list string) :=
  [
    (* AUTO INSURANCE *)
    (["Auto Insurance"; "Insurance"],
     [
      "state farm"; "state farm ro"; "sfpp"; "state farm sfpp"; "allstate"; "geico";
      "progressive"; "farmers insurance"; "liberty mutual"; "nationwide"; "usaa";
      "american family"; "travelers"; "esurance"; "the general"; "root insurance"]);
    (* HEALTH INSURANCE *)
    (["Health Insurance"; "Insurance"; "Medical"],
     [
      "aetna"; "blue cross"; "blue shield"; "united healthcare"; "cigna"; "humana";
      "kaiser"; "anthem"; "health insurance"]);
    (* GROCERIES *)
    (["Groceries"],
     [
      "walmart"; "walmart supercenter"; "target"; "kroger"; "safeway"; "albertsons";
      "publix"; "whole foods"; "trader joes"; "trader joe"; "aldi"; "costco";
      "costco whse"; "costco wholesale"; "sams club"; "food 4 less"; "food4less";
      "food lion"; "heb"; "meijer"; "wegmans"; "sprouts"; "winco"; "grocery";
      "north fresno grocery"; "instacart"; "groceries"; "supermarket"; "market"]);
    (* RESTAURANTS *)
    (["Restaurants"],
     [
      "restaurant"; "olive garden"; "applebees"; "chilis"; "red lobster"; "outback";
      "texas roadhouse"; "buffalo wild wings"; "dennys"; "ihop"; "cheesecake factory";
      "panera"; "chipotle"; "qdoba"; "subway"; "cafe rio"; "papa murphys";
      "papa murphy"; "uber eats"; "doordash"; "grubhub"; "postmates"; "kona ice";
      "dining"; "grill"; "bistro"]);
    (* COFFEE SHOPS *)
    (["Coffee Shops"],
     [
      "starbucks"; "dunkin"; "peets coffee"; "dutch bros"; "coffee"; "cafe";
      "espresso"; "caribou coffee"; "tim hortons"]);
    (* FAST FOOD *)
    (["Fast Food"],
     [
      "mcdonalds"; "burger king"; "wendys"; "taco bell"; "kfc"; "popeyes";
      "chick fil a"; "chickfila"; "five guys"; "in n out"; "jack in the box"; "sonic";
      "arbys"; "carls jr"; "hardees"]);
    (* GAS *)
    (["Gas"],
     [
      "shell"; "exxon"; "chevron"; "bp"; "texaco"; "speedway"; "circle k"; "7 eleven";
      "7eleven"; "gas station"; "fuel"; "valero"; "arco"; "mobil"; "marathon"; "sunoco"]);
    (* UTILITIES *)
    (["Utilities"],
     [
      "pgande"; "pge"; "pg e"; "pge ez pay"; "pacific gas"; "electric";
      "power company"; "water"; "city of clovis"; "city of fresno"; "comcast";
      "xfinity"; "verizon"; "at t"; "att"; "t mobile"; "tmobile"; "spectrum"; "cox";
      "frontier"; "utility"; "utilities"]);
    (* RENT/MORTGAGE *)
    (["Rent/Mortgage"],
     [
      "freedom"; "freedom mortgage"; "freedom mtg"; "mtg pymts"; "mortgage"; "rent";
      "quicken loans"; "rocket mortgage"; "lease"; "housing"]);
    (* TRANSFERS *)
    (["Transfers"],
     [
      "venmo"; "venmo payment"; "venmo cashout"; "tech cu"; "amex epayment";
      "american express"; "target card srvc"; "chase credit crd"; "chase autopay";
      "citi thankyou"; "macys"; "shop your way mc"; "sears payment"; "sears click2pay";
      "atm"; "atmxl"; "withdrawal transfer"; "tsdl"; "transfer std"; "transfer dts";
      "pacific service cu"; "eecu"; "credit card payment"; "payment"]);
    (* SALARY *)
    (["Salary"],
     [
      "gusto"; "rrg operations"; "payroll"; "direct deposit"; "pay"; "ramp reimburse";
      "salary"; "wages"; "employer"]);
    (* INVESTMENTS *)
    (["Investments"],
     [
      "robinhood"; "dividend"; "fidelity"; "vanguard"; "schwab"; "etrade";
      "td ameritrade"; "investment"; "brokerage"]);
    (* MEDICAL *)
    (["Medical"],
     [
      "american benefit"; "claim pmt"; "hospital"; "medical"; "doctor"; "dentist";
      "dental"; "urgent care"; "newsome"; "optometrist"; "frame doctors"; "clinic";
      "physician"; "healthcare"]);
    (* PHARMACY *)
    (["Pharmacy"],
     [
      "cvs"; "walgreens"; "rite aid"; "pharmacy"; "costco rx"; "walmart pharmacy";
      "drugstore"]);
    (* TAXES *)
    (["Taxes"],
     [
      "irs treas"; "irs"; "tax ref"; "tax refund"; "franchise tax bd"; "casttaxrfd";
      "state tax"; "federal tax"; "taxes"]);
    (* STREAMING *)
    (["Streaming Services"],
     [
      "netflix"; "spotify"; "hulu"; "disney plus"; "disney"; "hbo max"; "amazon prime";
      "apple tv"; "youtube premium"; "paramount"; "peacock"; "crunchyroll"]);
    (* SUBSCRIPTIONS *)
    (["Subscriptions"],
     [
      "instacart subscription"; "slidesgo"; "privacycom"; "patreon"; "github";
      "dropbox"; "google one"; "icloud"; "microsoft 365"; "adobe"; "canva";
      "subscription"]);
    (* SHOPPING *)
    (["Shopping"; "Clothing"],
     [
      "amazon"; "amazon com"; "ebay"; "best buy"; "the book nook"; "book nook";
      "macys"; "nordstrom"; "kohls"; "target"]);
    (* HOME GOODS *)
    (["Home Goods"],
     [
      "home depot"; "lowes"; "ikea"; "fresno ag hardware"; "hardware"; "bed bath";
      "williams sonoma"; "pottery barn"]);
    (* PET CARE *)
    (["Pet Care"],
     [
      "petco"; "petsmart"; "aquatic pets"; "veterinarian"; "vet"; "animal hospital";
      "pet grooming"; "pet"]);
    (* ENTERTAINMENT *)
    (["Entertainment"; "Movies"],
     [
      "san joaquin valley"; "library"; "garden bros circus"; "circus"; "amc"; "regal";
      "cinemark"; "movie"; "theater"; "museum"; "zoo"]);
    (* EDUCATION *)
    (["Education"],
     [
      "cusd"; "clovis adult"; "school"; "university"; "college"; "udemy"; "coursera";
      "education"; "tuition"]);
    (* PARKING *)
    (["Parking"],
     [
      "parkmobile"; "cof parcs"; "parking"; "park"]);
    (* CAR MAINTENANCE *)
    (["Car Maintenance"; "Transportation"],
     [
      "jiffy lube"; "valvoline"; "oil change"; "car wash"; "auto repair"; "mechanic";
      "firestone"; "goodyear"; "pep boys"; "autozone"]);
    (* PERSONAL CARE *)
    (["Personal Care"],
     [
      "gym"; "planet fitness"; "la fitness"; "salon"; "hair salon"; "barber";
      "nail salon"; "spa"; "massage"; "great clips"])
  ].

Section WithSklearn.
Variable sk : sklearn.

(** *** Truthiness of the estimators

    [TfidfVectorizer] defines neither [__bool__] nor [__len__]; a random
    forest is an ensemble, whose [__len__] is [len(self.estimators_)]: 200
    once fitted, and an [AttributeError] before. *)
Definition truthy_vectorizer (v : option (estimator (Vec sk))) : bool :=
  match v with Some _ => true | None => false end.

Definition truthy_classifier (c : option (estimator (Clf sk))) : outcome bool :=
  match c with
  | None => Ok false
  | Some (Fitted _) => Ok true
  | Some Unfitted => Raise AttributeError
  end.

(** [not self.vectorizer or not self.classifier] *)
Definition no_model (s : MLCategorizer sk) : outcome bool :=
  if negb (truthy_vectorizer (vectorizer s)) then Ok true
  else b <- truthy_classifier (classifier s) ;; Ok (negb b).

(** *** Calls into the estimators held by [self] *)

Definition vec_transform (v : option (estimator (Vec sk))) (docs : list string)
  : outcome (Mat sk) :=
  match v with
  | Some (Fitted f) => tfidf_transform sk f docs
  | Some Unfitted => Raise NotFittedError
  | None => Raise AttributeError
  end.

Definition clf_predict_proba (c : option (estimator (Clf sk))) (X : Mat sk)
  : outcome (list (list Q)) :=
  match c with
  | Some (Fitted f) => rf_predict_proba sk f X
  | Some Unfitted => Raise NotFittedError
  | None => Raise AttributeError
  end.

Definition clf_predict (c : option (estimator (Clf sk))) (X : Mat sk)
  : outcome (list nat) :=
  match c with
  | Some (Fitted f) => rf_predict sk f X
  | Some Unfitted => Raise NotFittedError
  | None => Raise AttributeError
  end.

(** [rows[0]] *)
Definition first_row {A : Type} (rows : list A) : outcome A :=
  match rows with
  | r :: _ => Ok r
  | [] => Raise IndexError
  end.

(** [a < b] on probabilities. *)
Definition Qlt_bool (a b : Q) : bool := negb (Qle_bool b a).

(** [probabilities.argmax()]: the first index of the largest entry. *)
Fixpoint argmax_from (best_i : nat) (best : Q) (i : nat) (l : list Q) : nat :=
  match l with
  | [] => best_i
  | x :: l' =>
      if Qlt_bool best x then argmax_from i x (S i) l'
      else argmax_from best_i best (S i) l'
  end.

Definition argmax (l : list Q) : outcome nat :=
  match l with
  | [] => Raise ValueError
  | x :: l' => Ok (argmax_from 0 x 1 l')
  end.

(** [self.category_mapping[predicted_idx]] *)
Definition mapping_lookup (m : option mapping) (i : nat) : outcome Z :=
  match m with
  | None => Raise TypeError
  | Some d =>
      match Dict.get Nat.eqb d i with
      | Some c => Ok c
      | None => Raise KeyError
      end
  end.

(** *** [predict] *)

Definition default_threshold : Q := 15 # 100.

Definition predict (s : MLCategorizer sk) (text : string) (confidence_threshold : Q)
  : outcome (option Z * Q) :=
  absent <- no_model s ;;
  if (absent : bool) then Ok (None, 0%Q) else
  let processed := preprocess_text text in
  if negb (nonempty processed) then Ok (None, 0%Q) else
  try_except
    (X <- vec_transform (vectorizer s) [processed] ;;
     rows <- clf_predict_proba (classifier s) X ;;
     probabilities <- first_row rows ;;
     predicted_idx <- argmax probabilities ;;
     let confidence := nth predicted_idx probabilities 0%Q in
     if Qlt_bool confidence confidence_threshold then Ok (None, 0%Q) else
     category_id <- mapping_lookup (category_mapping s) predicted_idx ;;
     Ok (Some category_id, confidence))
    (fun _ => Ok (None, 0%Q)).

(** *** [save_model] and [load_model] *)

Definition next_write (w : world sk) : write_event * list write_event :=
  match writes w with
  | [] => (WriteOk, [])
  | ev :: rest => (ev, rest)
  end.

(** [with open(path, 'wb') as f: pickle.dump(obj, f)], for the file that
    [put] stores into the directory. *)
Definition write_file {A : Type}
           (put : file A -> model_dir sk -> model_dir sk) (obj : A) : M sk unit :=
  fun w =>
    let (ev, rest) := next_write w in
    let leave d := {| db := db w; created := created w; self := self w;
                      files := d; writes := rest; history := history w |} in
    match ev with
    | WriteOk => (Ok tt, leave (put (Stored obj) (files w)))
    | OpenFails => (Raise OSError, leave (files w))
    | DumpFails => (Raise OSError, leave (put Unreadable (files w)))
    end.

Definition put_vectorizer_pkl f (d : model_dir sk) : model_dir sk :=
  {| vectorizer_pkl := f; classifier_pkl := classifier_pkl d;
     category_mapping_pkl := category_mapping_pkl d; makedirs := makedirs d |}.
Definition put_classifier_pkl f (d : model_dir sk) : model_dir sk :=
  {| vectorizer_pkl := vectorizer_pkl d; classifier_pkl := f;
     category_mapping_pkl := category_mapping_pkl d; makedirs := makedirs d |}.
Definition put_category_mapping_pkl f (d : model_dir sk) : model_dir sk :=
  {| vectorizer_pkl := vectorizer_pkl d; classifier_pkl := classifier_pkl d;
     category_mapping_pkl := f; makedirs := makedirs d |}.

Open Scope m_scope.

Definition save_model : M sk bool :=
  s <- get_self ;;
  absent <- lift (no_model s) ;;
  if (absent : bool) then ret false else
  try_catch
    (write_file put_vectorizer_pkl (vectorizer s) ;;;
     write_file put_classifier_pkl (classifier s) ;;;
     write_file put_category_mapping_pkl (category_mapping s) ;;;
     ret true)
    (fun _ => ret false).

(** [os.path.exists(p)] *)
Definition file_exists {A : Type} (f : file A) : bool :=
  match f with Missing => false | _ => true end.

(** [with open(p, 'rb') as f: pickle.load(f)] *)
Definition read_file {A : Type} (f : file A) : outcome A :=
  match f with
  | Stored a => Ok a
  | Unreadable => Raise UnpicklingError
  | Missing => Raise OSError
  end.

(** [{cat_id: i for i, cat_id in m.items()}] *)
Definition reverse_of (m : option mapping) : outcome rmapping :=
  match m with
  | Some d => Ok (Dict.of_items Z.eqb (map (fun p => (snd p, fst p)) (Dict.items d)))
  | None => Raise AttributeError
  end.

Definition load_model : M sk bool :=
  try_catch
    (d <- get_files ;;
     if negb (file_exists (vectorizer_pkl d) && file_exists (classifier_pkl d)
              && file_exists (category_mapping_pkl d))
     then ret false
     else
       v <- lift (read_file (vectorizer_pkl d)) ;;
       assign (set_vectorizer v) ;;;
       c <- lift (read_file (classifier_pkl d)) ;;
       assign (set_classifier c) ;;;
       m <- lift (read_file (category_mapping_pkl d)) ;;
       assign (set_category_mapping m) ;;;
       r <- lift (reverse_of m) ;;
       assign (set_reverse_mapping (Some r)) ;;;
       ret true)
    (fun _ => ret false).

(** *** [get_training_data] *)

(** [{cat.name: cat.id for cat in Category.query.all()}] *)
Definition db_categories (d : database) : list (string * Z) :=
  Dict.of_items String.eqb (map (fun c => (cat_name c, cat_id c)) (categories d)).

(** [get_cat_id]: the id of the first of [names] that is a category name. *)
Fixpoint get_cat_id (dc : list (string * Z)) (names : list string) : option Z :=
  match names with
  | [] => None
  | name :: rest =>
      match Dict.get String.eqb dc name with
      | Some i => Some i
      | None => get_cat_id dc rest
      end
  end.

Definition training_entries (d : database) : list (string * Z) :=
  flat_map
    (fun block =>
       match get_cat_id (db_categories d) (fst block) with
       | Some i => if truthy_id (Some i) then map (fun merchant => (merchant, i)) (snd block)
                   else []
       | None => []
       end)
    lexicon.

(** [processed = self.preprocess_text(t); if processed: texts.append(...)] *)
Definition example_of (t : string) (category_id : Z) : list (string * Z) :=
  let processed := preprocess_text t in
  if nonempty processed then [(processed, category_id)] else [].

Definition transaction_examples (t : Transaction) : list (string * Z) :=
  match txn_category_id t with
  | None => []
  | Some c =>
      (match txn_merchant t with
       | Some m => if nonempty m then example_of m c else []
       | None => []
       end)
      ++ (if nonempty (txn_description t) then example_of (txn_description t) c else [])
  end.

(** [Transaction.query.filter(category_id.isnot(None), deleted_at.is_(None))] *)
Definition categorized_transactions (d : database) : list Transaction :=
  filter (fun t => match txn_category_id t with Some _ => negb (txn_deleted t) | None => false end)
         (transactions d).

Definition training_examples (d : database) : list (string * Z) :=
  flat_map (fun e => example_of (fst e) (snd e)) (training_entries d)
  ++ flat_map transaction_examples (categorized_transactions d).

Definition get_training_data (d : database) : list string * list Z :=
  (map fst (training_examples d), map snd (training_examples d)).

(** *** [train] *)

Inductive train_result : Type :=
| TrainFailure (error : string)                        (* success: False *)
| TrainSuccess (accuracy : Q) (samples categories : nat) (report : Report sk).

(** [sorted(list(set(ls)))] *)
Fixpoint insert_sorted (z : Z) (l : list Z) : list Z :=
  match l with
  | [] => [z]
  | x :: l' =>
      if (z <? x)%Z then z :: l
      else if (z =? x)%Z then l
      else x :: insert_sorted z l'
  end.

Definition sorted_set (ls : list Z) : list Z := fold_right insert_sorted [] ls.

(** [enumerate(l)] *)
Definition enumerate {A : Type} (l : list A) : list (nat * A) :=
  combine (seq 0 (List.length l)) l.

(** [label in valid_labels], for [valid_labels] built from [Counter(labels)] *)
Definition valid_label (labels : list Z) (min_samples : nat) (label : Z) : bool :=
  (min_samples <=? count_occ Z.eq_dec labels label)%nat.

(** The pairs kept by the filtering loop. *)
Definition filtered_examples (texts : list string) (labels : list Z) (min_samples : nat)
  : list (string * Z) :=
  filter (fun tl => valid_label labels min_samples (snd tl) && nonempty (strip (fst tl)))
         (combine texts labels).

Fixpoint map_outcome {A B : Type} (f : A -> outcome B) (l : list A) : outcome (list B) :=
  match l with
  | [] => Ok []
  | a :: l' => (b <- f a ;; bs <- map_outcome f l' ;; Ok (b :: bs))%outcome
  end.

(** [self.reverse_mapping[label]] *)
Definition rmapping_lookup (m : option rmapping) (label : Z) : outcome nat :=
  match m with
  | None => Raise TypeError
  | Some d =>
      match Dict.get Z.eqb d label with
      | Some i => Ok i
      | None => Raise KeyError
      end
  end.

Definition string_of_nat (n : nat) : string := NilEmpty.string_of_uint (Nat.to_uint n).

(** [target_names], from [category_names] *)
Definition target_names (d : database) (m : mapping) : list string :=
  let category_names :=
    fold_left
      (fun names p =>
         match category_by_id d (snd p) with
         | Some cat => Dict.set Nat.eqb names (fst p) (cat_name cat)
         | None => names
         end)
      (Dict.items m) [] in
  map (fun i => match Dict.get Nat.eqb category_names i with
                | Some n => n
                | None => "Unknown_" ++ string_of_nat i
                end)
      (seq 0 (Dict.len m)).

Definition insufficient_data : string :=
  "Insufficient training data. Need at least 10 samples.".
Definition insufficient_samples : string := "Insufficient samples per category.".

Definition get_db : M sk database := fun w => (Ok (db w), w).

Definition train (min_samples_per_category : nat) : M sk train_result :=
  d <- get_db ;;
  let (texts, labels) := get_training_data d in
  if (List.length texts <? 10)%nat then ret (TrainFailure insufficient_data) else
  let filtered := filtered_examples texts labels min_samples_per_category in
  let filtered_texts := map fst filtered in
  let filtered_labels := map snd filtered in
  if (List.length filtered_texts <? 10)%nat then ret (TrainFailure insufficient_samples) else
  (* Create category mapping *)
  let unique_labels := sorted_set filtered_labels in
  assign (set_category_mapping (Some (Dict.of_items Nat.eqb (enumerate unique_labels)))) ;;;
  s <- get_self ;;
  r <- lift (reverse_of (category_mapping s)) ;;
  assign (set_reverse_mapping (Some r)) ;;;
  s <- get_self ;;
  y <- lift (map_outcome (rmapping_lookup (reverse_mapping s)) filtered_labels) ;;
  (* Split data *)
  parts <- lift (train_test_split sk filtered_texts y) ;;
  let '(X_train, X_test, y_train, y_test) := parts in
  (* Train TF-IDF vectorizer *)
  assign (set_vectorizer (Some Unfitted)) ;;;
  fitted <- lift (tfidf_fit_transform sk X_train) ;;
  let (v, X_train_vec) := fitted : Vec sk * Mat sk in
  assign (set_vectorizer (Some (Fitted v))) ;;;
  s <- get_self ;;
  X_test_vec <- lift (vec_transform (vectorizer s) X_test) ;;
  (* Train Random Forest classifier *)
  assign (set_classifier (Some Unfitted)) ;;;
  c <- lift (rf_fit sk X_train_vec y_train) ;;
  assign (set_classifier (Some (Fitted c))) ;;;
  (* Evaluate *)
  s <- get_self ;;
  y_pred <- lift (clf_predict (classifier s) X_test_vec) ;;
  accuracy <- lift (accuracy_score sk y_test y_pred) ;;
  names <- lift (match category_mapping s with
                 | Some m => Ok (target_names d m)
                 | None => Raise AttributeError
                 end) ;;
  report <- lift (classification_report sk y_test y_pred names) ;;
  (* Save model *)
  save_model ;;;
  ret (TrainSuccess (round4 sk accuracy) (List.length filtered_texts)
                    (List.length unique_labels) report).

(** *** The global instance *)

(** One of the three files is there, and the directory with it. *)
Definition dir_holds_file (d : model_dir sk) : bool :=
  file_exists (vectorizer_pkl d) || file_exists (classifier_pkl d)
  || file_exists (category_mapping_pkl d).

(** [if not os.path.exists(model_dir): os.makedirs(model_dir)] *)
Definition ensure_dir : M sk unit :=
  fun w =>
    if dir_holds_file (files w) then (Ok tt, w) else (makedirs (files w), w).

(** [__init__] up to the call of [load_model]. *)
Definition create_instance : M sk unit :=
  (fun w => (Ok tt, with_self new_instance w)) ;;;
  ensure_dir.

Definition bind_global : M sk unit :=
  fun w => (Ok tt, {| db := db w; created := true; self := self w; files := files w;
                      writes := writes w; history := history w |}).

(** [get_ml_categorizer]: an exception of [__init__] leaves the global
    unbound. *)
Definition get_ml_categorizer : M sk unit :=
  fun w =>
    if created w then (Ok tt, w)
    else (create_instance ;;; load_model ;;; bind_global) w.

Definition truthy_str (o : option string) : bool :=
  match o with Some s => nonempty s | None => false end.

Definition or_empty (o : option string) : string :=
  match o with Some s => s | None => "" end.

Close Scope m_scope.

(** The body of [ml_categorize] once [categorizer] is at hand. *)
Definition ml_categorize_with (categorizer : MLCategorizer sk)
           (merchant description : option string) (confidence_threshold : Q)
  : outcome (option Z * Q) :=
  (* Try merchant first *)
  r1 <- (if truthy_str merchant
         then predict categorizer (or_empty merchant) confidence_threshold
         else Ok (None, 0%Q)) ;;
  if truthy_id (fst r1) then Ok r1 else
  (* Then description *)
  r2 <- (if truthy_str description
         then predict categorizer (or_empty description) confidence_threshold
         else Ok (None, 0%Q)) ;;
  if truthy_id (fst r2) then Ok r2 else
  (* Try combined *)
  let combined := strip (or_empty merchant ++ " " ++ or_empty description) in
  r3 <- (if nonempty combined
         then predict categorizer combined confidence_threshold
         else Ok (None, 0%Q)) ;;
  if truthy_id (fst r3) then Ok r3 else
  Ok (None, 0%Q).

Open Scope m_scope.

Definition ml_categorize (merchant description : option string)
           (confidence_threshold : Q) : M sk (option Z * Q) :=
  get_ml_categorizer ;;;
  categorizer <- get_self ;;
  lift (ml_categorize_with categorizer merchant description confidence_threshold).

Definition train_ml_model : M sk train_result :=
  get_ml_categorizer ;;;
  train 2.

Close Scope m_scope.

End WithSklearn.

Arguments TrainFailure {sk} error.
Arguments TrainSuccess {sk} accuracy samples categories report.

End ML.

(* ================================================================= *)
(** ** The web layer ([backend/api/ml_training.py]) *)

(** An integer or a string of a JSON body. *)
Inductive scalar : Type :=
| SInt (z : Z)
| SStr (s : string).

Module Api.
Import Text State ML.
Open Scope m_scope.

Section WithSklearn.
Variable sk : sklearn.

(** The body of the response of [/status]. *)
Record status_body : Type := {
  is_trained : bool;
  num_categories : nat;
  status_categories : list scalar        (* the field 'categories' *)
}.

(** [model_status]; an exception leaves the handler (a 500 of the framework). *)
Definition model_status : M sk (nat * status_body) :=
  get_ml_categorizer sk ;;;
  categorizer <- get_self ;;
  let trained := match classifier categorizer with Some _ => true | None => false end in
  let num := match category_mapping categorizer with
             | Some m => Dict.len m
             | None => 0
             end in
  cats <- lift (if trained
                then match category_mapping categorizer with
                     | Some m => Ok (map SInt (Dict.values m))
                     | None => Raise AttributeError
                     end
                else Ok []) ;;
  ret (200, {| is_trained := trained; num_categories := num; status_categories := cats |}).

(** A JSON object sent to [/predict], as far as the handler reads it; an
    absent key is [None]. *)
Record predict_request : Type := {
  req_merchant : option string;
  req_description : option string;
  req_confidence_threshold : option Q
}.

(** What [request.get_json()] returns. *)
Inductive json_body : Type :=
| Falsy                            (* None, {}, [], 0, false or the empty string *)
| NotAnObject                      (* another value that is no object: [1], 5, true *)
| Object (data : predict_request). (* an object with at least one key *)

Inductive predict_response : Type :=
| BadRequest (error : string)                                (* 400 *)
| ServerError (e : exn)                                      (* 500 *)
| Prediction (category_id : option Z) (category_name : option string)
             (confidence : Q).                               (* 200 *)

(** The default of [data.get('confidence_threshold', 0.3)]. *)
Definition endpoint_default_threshold : Q := 3 # 10.

(** [predict_category]: [data.get] is reached before the [try], and only an
    object has it. *)
Definition predict_category (data : json_body) : M sk predict_response :=
  match data with
  | Falsy => ret (BadRequest "No data provided")
  | NotAnObject => lift (Raise AttributeError)
  | Object data =>
      let merchant := req_merchant data in
      let description := req_description data in
      let threshold := match req_confidence_threshold data with
                       | Some t => t
                       | None => endpoint_default_threshold
                       end in
      if negb (truthy_str merchant) && negb (truthy_str description)
      then ret (BadRequest "Either merchant or description required")
      else
        try_catch
          (r <- ml_categorize sk merchant description threshold ;;
           d <- get_db sk ;;
           let category_name :=
             match fst r with
             | Some c => if truthy_id (Some c)
                         then option_map cat_name (category_by_id d c)
                         else None
             | None => None
             end in
           ret (Prediction (fst r) category_name (round4 sk (snd r))))
          (fun e => ret (ServerError e))
  end.

End WithSklearn.
End Api.

(* ================================================================= *)
(** ** Rule maintenance and re-categorization ([backend/categorizer.py]) *)

Module Maintenance.
Import Text State Categorizer.
Open Scope m_scope.

Section WithLibraries.
Variable sk : sklearn.
Variable re : regex_engine.

Definition with_db (d : database) (w : world sk) : world sk :=
  {| db := d; created := created w; self := self w; files := files w;
     writes := writes w; history := history w |}.

Definition with_rule_table (rs : list CategorizationRule) (d : database) : database :=
  {| categories := categories d; rules := rs; transactions := transactions d |}.

Definition with_transactions (ts : list Transaction) (d : database) : database :=
  {| categories := categories d; rules := rules d; transactions := ts |}.

(** The filter of [filter_by(pattern=pattern, category_id=category_id)] *)
Definition same_rule (pattern : string) (category_id : Z) (r : CategorizationRule) : bool :=
  String.eqb (rule_pattern r) pattern && (rule_category_id r =? category_id)%Z.

(** [existing.match_type = match_type; existing.priority = priority] *)
Definition retarget (match_type : string) (priority : Z) (r : CategorizationRule)
  : CategorizationRule :=
  {| rule_pattern := rule_pattern r; rule_match_type := match_type;
     rule_category_id := rule_category_id r; rule_priority := priority |}.

(** The table after the first row that satisfies [p] is rewritten by [f]. *)
Fixpoint update_first {A : Type} (p : A -> bool) (f : A -> A) (l : list A) : list A :=
  match l with
  | [] => []
  | x :: l' => if p x then f x :: l' else x :: update_first p f l'
  end.

(** [add_categorization_rule(pattern, category_id, match_type, priority)];
    the defaults of the last two arguments are ['contains'] and [0]. *)
Definition add_categorization_rule (pattern : string) (category_id : Z)
           (match_type : string) (priority : Z) : M sk CategorizationRule :=
  fun w =>
    match find (same_rule pattern category_id) (rules (db w)) with
    | Some existing =>
        (Ok (retarget match_type priority existing),
         with_db (with_rule_table
                    (update_first (same_rule pattern category_id)
                                  (retarget match_type priority) (rules (db w)))
                    (db w)) w)
    | None =>
        let rule := {| rule_pattern := pattern; rule_match_type := match_type;
                       rule_category_id := category_id; rule_priority := priority |} in
        (Ok rule, with_db (with_rule_table (rules (db w) ++ [rule])%list (db w)) w)
    end.

(** [get_categorization_rules] *)
Definition get_categorization_rules (w : world sk) : list CategorizationRule :=
  order_by_priority_desc (rules (db w)).

(** Equality of two optional ids ([==] on [int] and [None]). *)
Definition id_eqb (a b : option Z) : bool :=
  match a, b with
  | Some x, Some y => (x =? y)%Z
  | None, None => true
  | _, _ => false
  end.

(** The rows the query of [recategorize_transactions] returns. *)
Definition to_recategorize (d : database) (category_id : option Z) (t : Transaction) : bool :=
  if truthy_id category_id then id_eqb (txn_category_id t) category_id
  else match category_by_name d "Uncategorized" with
       | Some uncategorized =>
           id_eqb (txn_category_id t) None
           || id_eqb (txn_category_id t) (Some (cat_id uncategorized))
       | None => id_eqb (txn_category_id t) None
       end.

(** [txn.category_id = new_category_id] *)
Definition set_txn_category (c : option Z) (t : Transaction) : Transaction :=
  {| txn_merchant := txn_merchant t; txn_description := txn_description t;
     txn_category_id := c; txn_deleted := txn_deleted t |}.

(** The loop of [recategorize_transactions] over the rows of the table:
    [done] are the rows already visited, as the loop left them, and [sel]
    tells which rows the query returned.  The result is the table after the
    loop with the counters [total_processed] and [updated]. *)
Fixpoint recategorize_loop (w : world sk) (sel : Transaction -> bool)
         (done todo : list Transaction) (total updated : nat)
  : outcome (list Transaction * (nat * nat)) :=
  match todo with
  | [] => Ok (done, (total, updated))
  | txn :: rest =>
      if sel txn then
        let now := with_db (with_transactions (done ++ todo)%list (db w)) w in
        match categorize_transaction sk re now (txn_merchant txn)
                                     (Some (txn_description txn)) with
        | Raise e => Raise e
        | Ok new_category_id =>
            if truthy_id new_category_id
               && negb (id_eqb new_category_id (txn_category_id txn))
            then recategorize_loop w sel
                   (done ++ [set_txn_category new_category_id txn])%list rest
                   (S total) (S updated)
            else recategorize_loop w sel (done ++ [txn])%list rest (S total) updated
        end
      else recategorize_loop w sel (done ++ [txn])%list rest total updated
  end.

(** [recategorize_transactions(category_id)]: the pair is
    [(total_processed, updated)]. *)
Definition recategorize_transactions (category_id : option Z) : M sk (nat * nat) :=
  fun w =>
    match recategorize_loop w (to_recategorize (db w) category_id)
                            [] (transactions (db w)) 0 0 with
    | Ok (ts, counts) => (Ok counts, with_db (with_transactions ts (db w)) w)
    | Raise e => (Raise e, w)
    end.

End WithLibraries.
End Maintenance.

(* ================================================================= *)
(** ** The training endpoint ([backend/api/ml_training.py]) *)

Module TrainApi.
Import State ML.
Open Scope m_scope.

Section WithSklearn.
Variable sk : sklearn.

(** The body of the response of [/train]: the result of the training, or
    the exception that left it. *)
Inductive train_body : Type :=
| TrainResult (r : train_result sk)
| TrainException (e : exn).             (* success: False, error: str(e) *)

(** [200 if result.get('success') else 400] *)
Definition train_status (r : train_result sk) : nat :=
  match r with
  | TrainSuccess _ _ _ _ => 200
  | TrainFailure _ => 400
  end.

Definition train_model : M sk (nat * train_body) :=
  try_catch
    (result <- train_ml_model sk ;;
     ret (train_status result, TrainResult result))
    (fun e => ret (500, TrainException e)).

End WithSklearn.
End TrainApi.

(* ================================================================= *)
(** * Vocabulary of the properties *)

Module NormalizerSpec.
Import Text Re Normalizer.

(** A character of a normalized text: a lower-case letter, a digit, or
    white space. *)
Definition plain (a : ascii) : bool := is_lower a || is_digit a || is_space a.

(** A character of a token: a lower-case letter or a digit. *)
Definition tok (a : ascii) : bool := plain a && negb (is_space a).

Definition token (w : string) : bool := nonempty w && all_chars tok w.

(** No prefix pattern and no noise pattern matches anywhere in [y]. *)
Definition no_pattern_matches (y : string) : bool :=
  forallb (fun p => negb (search true p y)) (prefixes_to_remove ++ noise_patterns).

End NormalizerSpec.

Module RuleSpec.
Import Text State Categorizer.

Section WithLibraries.
Variable sk : sklearn.
Variable re : regex_engine.

(** Whether [rule] fires on [text]: its test neither fails nor raises. *)
Definition matches (text : string) (rule : CategorizationRule) : bool :=
  match rule_match re rule text with
  | Ok true => true
  | _ => false
  end.

(** The category of the first rule, in descending priority, that fires. *)
Definition first_match (w : world sk) (text : string) : option Z :=
  option_map rule_category_id
             (find (matches text) (order_by_priority_desc (rules (db w)))).

(** [a] comes before [b] in descending priority. *)
Definition prio_ge (a b : CategorizationRule) : Prop :=
  (rule_priority b <= rule_priority a)%Z.

(** The regex engine raises nothing but [re.error] on the pattern of
    [rule]. *)
Definition tame (rule : CategorizationRule) : Prop :=
  forall e, re_compile_ic re (lower (rule_pattern rule)) = Raise e -> e = ReError.

(** No regex rule of the table makes the regex engine raise anything but
    [re.error]. *)
Definition tame_rules (rs : list CategorizationRule) : Prop :=
  forall rule, In rule rs -> rule_match_type rule = "regex" -> tame rule.

(** The world whose rule table is [rs]. *)
Definition with_rules (rs : list CategorizationRule) (w : world sk) : world sk :=
  {| db := {| categories := categories (db w); rules := rs;
              transactions := transactions (db w) |};
     created := created w; self := self w; files := files w;
     writes := writes w; history := history w |}.

End WithLibraries.

Arguments first_match {sk} re w text.
Arguments with_rules {sk} rs w.

End RuleSpec.

Module OrchestratorSpec.
Import Text State Categorizer ML RuleSpec.

Section WithLibraries.
Variable sk : sklearn.
Variable re : regex_engine.

Definition primary_text (merchant : option string) : string :=
  strip (lower (Categorizer.or_empty merchant)).

Definition combined_text (merchant description : option string) : string :=
  strip (primary_text merchant ++ " " ++ primary_text description).

(** The outcome of one rule step: nothing on an empty text. *)
Definition rule_step (w : world sk) (text : string) : option Z :=
  if nonempty text then first_match re w text else None.

Definition uncategorized_id (w : world sk) : option Z :=
  option_map cat_id (category_by_name (db w) "Uncategorized").

(** The decision order of the specification: the three rule steps, then the
    classifier model on the merchant text, the description text and their
    concatenation, then the fallback. *)
Definition categorize_spec (w : world sk) (merchant description : option string)
  : outcome (option Z) :=
  (c1 <- rules_on sk re w (primary_text merchant) ;;
   if truthy_id c1 then Ok c1 else
   c2 <- rules_on sk re w (primary_text description) ;;
   if truthy_id c2 then Ok c2 else
   c3 <- rules_on sk re w (combined_text merchant description) ;;
   if truthy_id c3 then Ok c3 else
   r <- ml_categorize_with sk (self w) merchant description default_threshold ;;
   if truthy_id (fst r) then Ok (fst r) else
   Ok (uncategorized_id w))%outcome.

End WithLibraries.

Arguments rule_step {sk} re w text.
Arguments uncategorized_id {sk} w.
Arguments categorize_spec {sk} re w merchant description.

End OrchestratorSpec.

Module PredictSpec.
Import Text Normalizer State ML.
Open Scope outcome_scope.

Section WithSklearn.
Variable sk : sklearn.

(** The probabilities of the random forest are probabilities. *)
Definition proba_in_unit_interval : Prop :=
  forall (c : Clf sk) (X : Mat sk) (rows : list (list Q)),
    rf_predict_proba sk c X = Ok rows ->
    Forall (Forall (fun p => 0 <= p /\ p <= 1)%Q) rows.

(** The classifier slot is empty or holds a fitted forest. *)
Definition classifier_settled (s : MLCategorizer sk) : Prop :=
  classifier s <> Some Unfitted.

(** No model is loaded. *)
Definition model_absent (s : MLCategorizer sk) : Prop :=
  vectorizer s = None \/ classifier s = None.

(** The index and the probability of the top class for [text], when the
    estimators produce them. *)
Definition top_class (s : MLCategorizer sk) (text : string) : outcome (nat * Q) :=
  X <- vec_transform sk (vectorizer s) [preprocess_text text] ;;
  rows <- clf_predict_proba sk (classifier s) X ;;
  probabilities <- first_row rows ;;
  predicted_idx <- argmax probabilities ;;
  Ok (predicted_idx, nth predicted_idx probabilities 0%Q).

End WithSklearn.

Arguments classifier_settled {sk} s.
Arguments model_absent {sk} s.
Arguments top_class {sk} s text.

End PredictSpec.

Module ApiSpec.
Import Text State ML Api.

Section WithSklearn.
Variable sk : sklearn.

(** The names of the categories the label mapping covers. *)
Definition covered_category_names (w : world sk) : list scalar :=
  match category_mapping (self w) with
  | Some m =>
      flat_map (fun c => match category_by_id (db w) c with
                         | Some cat => [SStr (cat_name cat)]
                         | None => []
                         end)
               (Dict.values m)
  | None => []
  end.

(** A request to [/predict] with a merchant and nothing else. *)
Definition merchant_only (text : string) : predict_request :=
  {| req_merchant := Some text; req_description := None;
     req_confidence_threshold := None |}.

(** A request to [/predict] with a merchant and a threshold. *)
Definition merchant_with_threshold (text : string) (t : Q) : predict_request :=
  {| req_merchant := Some text; req_description := None;
     req_confidence_threshold := Some t |}.

End WithSklearn.

Arguments covered_category_names {sk} w.

End ApiSpec.

Module TrainSpec.
Import Text State ML.

Section WithSklearn.
Variable sk : sklearn.

(** The examples left after the categories with too few samples are
    discarded. *)
Definition usable_examples (w : world sk) (min_samples : nat) : list (string * Z) :=
  filtered_examples (fst (get_training_data (db w))) (snd (get_training_data (db w)))
                    min_samples.

Definition with_writes (ws : list write_event) (w : world sk) : world sk :=
  {| db := db w; created := created w; self := self w; files := files w;
     writes := ws; history := history w |}.

(** Two worlds with the same tables and the same in-memory model state. *)
Definition mem_eq (w1 w2 : world sk) : Prop :=
  db w1 = db w2 /\ created w1 = created w2 /\ self w1 = self w2
  /\ history w1 = history w2.

(** A computation whose result and in-memory effect do not depend on the
    model directory or on the outcome of the writes. *)
Definition oblivious {A : Type} (m : M sk A) : Prop :=
  forall w1 w2, mem_eq w1 w2 ->
                fst (m w1) = fst (m w2) /\ mem_eq (snd (m w1)) (snd (m w2)).

(** A write that succeeds. *)
Definition write_ok (ev : write_event) : bool :=
  match ev with WriteOk => true | _ => false end.

(** The three files are there and can be unpickled, the last one to a
    dictionary. *)
Definition loadable (d : model_dir sk) : Prop :=
  exists v c m, vectorizer_pkl d = Stored v /\ classifier_pkl d = Stored c
                /\ category_mapping_pkl d = Stored (Some m).

(** [__init__] finds the model directory or can make it. *)
Definition directory_ready (d : model_dir sk) : Prop :=
  dir_holds_file sk d = true \/ makedirs d = Ok tt.

(** The three pickles hold the attributes of [s]. *)
Definition persisted (s : MLCategorizer sk) (d : model_dir sk) : Prop :=
  vectorizer_pkl d = Stored (vectorizer s)
  /\ classifier_pkl d = Stored (classifier s)
  /\ category_mapping_pkl d = Stored (category_mapping s).

(** The in-memory states recorded between [w0] and [w1]. *)
Definition observed (w0 w1 : world sk) : list (MLCategorizer sk) :=
  firstn (List.length (history w1) - List.length (history w0)) (history w1).

(** The replacement discipline of the specification: the in-memory state
    changes only once the three artifacts are written, and every state seen
    on the way is the old one or the new one. *)
Definition atomic_replacement (w0 w1 : world sk) : Prop :=
  (self w1 <> self w0 -> persisted (self w1) (files w1))
  /\ (forall s, In s (observed w0 w1) -> s = self w0 \/ s = self w1).

(** The world in which [train] calls [save_model]: the memory holds the new
    model, reached in six steps, and the directory is untouched. *)
Definition before_save (w : world sk) (m : mapping) (r : rmapping)
           (v : Vec sk) (c : Clf sk) : world sk :=
  let s1 := set_category_mapping (Some m) (self w) in
  let s2 := set_reverse_mapping (Some r) s1 in
  let s3 := set_vectorizer (Some Unfitted) s2 in
  let s4 := set_vectorizer (Some (Fitted v)) s3 in
  let s5 := set_classifier (Some Unfitted) s4 in
  let s6 := set_classifier (Some (Fitted c)) s5 in
  {| db := db w; created := created w; self := s6; files := files w;
     writes := writes w; history := [s6; s5; s4; s3; s2; s1] ++ history w |}.

End WithSklearn.

Arguments usable_examples {sk} w min_samples.
Arguments with_writes {sk} ws w.
Arguments mem_eq {sk} w1 w2.
Arguments oblivious sk {A} m.
Arguments loadable {sk} d.
Arguments directory_ready {sk} d.
Arguments persisted {sk} s d.
Arguments observed {sk} w0 w1.
Arguments atomic_replacement {sk} w0 w1.
Arguments before_save {sk} w m r v c.

End TrainSpec.

(* ================================================================= *)
(** * Example instances *)

Module Examples.
Import Text State.

(** A regex engine for literal patterns: a pattern of letters, digits and
    spaces is searched as it is, ignoring case; a pattern that opens a group
    and never closes it is malformed, and the repeat count 4294967295
    overflows, as it does in Python's [re]. *)
Definition literal_engine : regex_engine :=
  {| compiled := string;
     re_compile_ic := fun p => if contains "(" p && negb (contains ")" p)
                               then Raise ReError
                               else if contains "{4294967295}" p
                                    then Raise OverflowError
                                    else Ok (lower p);
     re_search := fun c text => contains c (lower text) |}.

(** A scikit-learn whose classifiers all answer with the probability row
    [row], whatever the text. *)
Definition constant_sklearn (row : list Q) : sklearn :=
  {| Vec := unit; Clf := unit; Mat := unit; Report := unit;
     train_test_split := fun texts y => Ok (texts, texts, y, y);
     tfidf_fit_transform := fun _ => Ok (tt, tt);
     tfidf_transform := fun _ _ => Ok tt;
     rf_fit := fun _ _ => Ok tt;
     rf_predict := fun _ y => Ok [];
     rf_predict_proba := fun _ _ => Ok [row];
     accuracy_score := fun _ _ => Ok 1%Q;
     classification_report := fun _ _ _ => Ok tt;
     round4 := fun q => q |}.

Definition sure : sklearn := constant_sklearn [9 # 10]%Q.
Definition unsure : sklearn := constant_sklearn [2 # 10; 1 # 10]%Q.

(** A scikit-learn whose forest cannot be fitted: [fit] raises. *)
Definition failing_fit : sklearn :=
  {| Vec := unit; Clf := unit; Mat := unit; Report := unit;
     train_test_split := fun texts y => Ok (texts, texts, y, y);
     tfidf_fit_transform := fun _ => Ok (tt, tt);
     tfidf_transform := fun _ _ => Ok tt;
     rf_fit := fun _ _ => Raise ValueError;
     rf_predict := fun _ y => Ok [];
     rf_predict_proba := fun _ _ => Ok [[9 # 10]%Q];
     accuracy_score := fun _ _ => Ok 1%Q;
     classification_report := fun _ _ _ => Ok tt;
     round4 := fun q => q |}.

Definition empty_dir (sk : sklearn) : model_dir sk :=
  {| vectorizer_pkl := Missing; classifier_pkl := Missing;
     category_mapping_pkl := Missing; makedirs := Ok tt |}.

Definition groceries : Category := {| cat_id := 7; cat_name := "Groceries" |}.

Definition malformed_rule : CategorizationRule :=
  {| rule_pattern := "("; rule_match_type := "regex";
     rule_category_id := 9; rule_priority := 50 |}.

(** A regex rule whose pattern makes [re.search] raise [OverflowError]. *)
Definition overflow_rule : CategorizationRule :=
  {| rule_pattern := "a{4294967295}"; rule_match_type := "regex";
     rule_category_id := 9; rule_priority := 50 |}.

Definition walmart_rule : CategorizationRule :=
  {| rule_pattern := "Walmart"; rule_match_type := "contains";
     rule_category_id := 7; rule_priority := 10 |}.

(** A model trained on one category, label 0 standing for category 7. *)
Definition trained (sk : sklearn) (v : Vec sk) (c : Clf sk) : MLCategorizer sk :=
  {| vectorizer := Some (Fitted v); classifier := Some (Fitted c);
     category_mapping := Some [(0, 7%Z)]; reverse_mapping := Some [(7%Z, 0)] |}.

(** One category, the given rules, no transaction; nothing on disk. *)
Definition shop (sk : sklearn) (rs : list CategorizationRule) (s : MLCategorizer sk)
  : world sk :=
  {| db := {| categories := [groceries]; rules := rs; transactions := [] |};
     created := true; self := s; files := empty_dir sk; writes := []; history := [] |}.

(** A table of categories with a single lexicon block of four merchants. *)
Definition parking_only (sk : sklearn) : world sk :=
  {| db := {| categories := [{| cat_id := 3; cat_name := "Parking" |}];
              rules := []; transactions := [] |};
     created := true; self := new_instance; files := empty_dir sk;
     writes := []; history := [] |}.

Definition restaurants : Category := {| cat_id := 8; cat_name := "Restaurants" |}.

(** Two categories with a lexicon block each (29 and 26 merchants), no rule,
    no transaction; nothing on disk. *)
Definition market (sk : sklearn) (s : MLCategorizer sk) : world sk :=
  {| db := {| categories := [groceries; restaurants]; rules := [];
              transactions := [] |};
     created := true; self := s; files := empty_dir sk; writes := []; history := [] |}.

(** An earlier model, label 0 standing for category 99. *)
Definition earlier_model : MLCategorizer sure :=
  Build_MLCategorizer sure (Some (Fitted tt)) (Some (Fitted tt))
                      (Some [(0, 99%Z)]) (Some [(99%Z, 0)]).

(** The model [train] builds in [market]. *)
Definition market_model : MLCategorizer sure :=
  Build_MLCategorizer sure (Some (Fitted tt)) (Some (Fitted tt))
                      (Some [(0, 7%Z); (1, 8%Z)]) (Some [(7%Z, 0); (8%Z, 1)]).

(** A directory whose mapping file cannot be unpickled. *)
Definition broken_dir : model_dir sure :=
  Build_model_dir sure (Stored (Some (Fitted tt))) (Stored (Some (Fitted tt))) Unreadable
                  (Ok tt).

(** A directory whose first file is left truncated. *)
Definition truncated_dir : model_dir sure :=
  Build_model_dir sure Unreadable Missing Missing (Ok tt).

Definition with_files (d : model_dir sure) (w : world sure) : world sure :=
  {| db := db w; created := created w; self := self w; files := d;
     writes := writes w; history := history w |}.

End Examples.

(* ================================================================= *)
(** * Vocabulary of the further properties *)

Module MaintenanceSpec.
Import Text State Categorizer Maintenance RuleSpec OrchestratorSpec.

Section WithLibraries.
Variable sk : sklearn.
Variable re : regex_engine.

(** What [categorize_transaction] answers for a row of the transaction
    table. *)
Definition decision (w : world sk) (t : Transaction) : outcome (option Z) :=
  categorize_transaction sk re w (txn_merchant t) (Some (txn_description t)).

(** Whether the loop of [recategorize_transactions] rewrites the row. *)
Definition rewritten (w : world sk) (category_id : option Z) (t : Transaction) : bool :=
  to_recategorize (db w) category_id t
  && match decision w t with
     | Ok c => truthy_id c && negb (id_eqb c (txn_category_id t))
     | Raise _ => false
     end.

(** The row after the loop of [recategorize_transactions] has visited it. *)
Definition recategorized (w : world sk) (category_id : option Z) (t : Transaction)
  : Transaction :=
  match decision w t with
  | Ok c => if rewritten w category_id t then set_txn_category c t else t
  | Raise _ => t
  end.

(** Two rows that differ at most in their category. *)
Definition same_row_but_category (t t' : Transaction) : Prop :=
  txn_merchant t' = txn_merchant t
  /\ txn_description t' = txn_description t
  /\ txn_deleted t' = txn_deleted t.

End WithLibraries.

Arguments decision {sk} re w t.
Arguments rewritten {sk} re w category_id t.
Arguments recategorized {sk} re w category_id t.

End MaintenanceSpec.

Module PersistenceSpec.
Import Text State ML.

Section WithSklearn.
Variable sk : sklearn.

(** The world whose model directory is [d]. *)
Definition with_dir (d : model_dir sk) (w : world sk) : world sk :=
  {| db := db w; created := created w; self := self w; files := d;
     writes := writes w; history := history w |}.

(** Every write still to come succeeds. *)
Definition all_writes_succeed (w : world sk) : Prop :=
  forall ev, In ev (writes w) -> ev = WriteOk.

(** A new process on the tables and the model directory of [w]: the global
    instance is not bound yet. *)
Definition restarted (w : world sk) : world sk :=
  {| db := db w; created := false; self := new_instance; files := files w;
     writes := writes w; history := [] |}.

(** One of the three files is not there. *)
Definition incomplete (d : model_dir sk) : Prop :=
  vectorizer_pkl d = Missing \/ classifier_pkl d = Missing
  \/ category_mapping_pkl d = Missing.

End WithSklearn.

Arguments with_dir {sk} d w.
Arguments all_writes_succeed {sk} w.
Arguments restarted {sk} w.
Arguments incomplete {sk} d.

End PersistenceSpec.

Module TrainingSpec.
Import Text State ML TrainSpec.

Section WithSklearn.
Variable sk : sklearn.

(** The category ids the classifier is trained on, in ascending order. *)
Definition label_ids (w : world sk) (min_samples : nat) : list Z :=
  sorted_set (map snd (usable_examples w min_samples)).

(** The label mapping [train] builds: label [i] stands for the [i]-th id. *)
Definition label_mapping (w : world sk) (min_samples : nat) : mapping :=
  enumerate (label_ids w min_samples).

(** The reverse mapping [train] builds. *)
Definition index_mapping (w : world sk) (min_samples : nat) : rmapping :=
  map (fun p => (snd p, fst p)) (label_mapping w min_samples).

(** The instance once [train] has replaced its two mappings. *)
Definition remapped (w : world sk) (min_samples : nat) : MLCategorizer sk :=
  set_reverse_mapping (Some (index_mapping w min_samples))
    (set_category_mapping (Some (label_mapping w min_samples)) (self w)).

End WithSklearn.

Arguments label_ids {sk} w min_samples.
Arguments label_mapping {sk} w min_samples.
Arguments index_mapping {sk} w min_samples.
Arguments remapped {sk} w min_samples.

End TrainingSpec.

(* ================================================================= *)
(** * Further example instances *)

Module MoreExamples.
Import Text State Examples.

Definition market_rule : CategorizationRule :=
  {| rule_pattern := "market"; rule_match_type := "contains";
     rule_category_id := 9; rule_priority := 5 |}.

(** A scikit-learn whose [train_test_split] refuses every input. *)
Definition refusing_split : sklearn :=
  {| Vec := unit; Clf := unit; Mat := unit; Report := unit;
     train_test_split := fun _ _ => Raise ValueError;
     tfidf_fit_transform := fun _ => Ok (tt, tt);
     tfidf_transform := fun _ _ => Ok tt;
     rf_fit := fun _ _ => Ok tt;
     rf_predict := fun _ _ => Ok [];
     rf_predict_proba := fun _ _ => Ok [];
     accuracy_score := fun _ _ => Ok 1%Q;
     classification_report := fun _ _ _ => Ok tt;
     round4 := fun q => q |}.

(** A ledger of three rows over the categories 'Groceries' and
    'Uncategorized', with a malformed regex rule and a rule for Walmart. *)
Definition ledger : world sure :=
  {| db := {| categories := [groceries; {| cat_id := 1; cat_name := "Uncategorized" |}];
              rules := [malformed_rule; walmart_rule];
              transactions :=
                [{| txn_merchant := Some "WALMART #12"; txn_description := "weekly shop";
                    txn_category_id := None; txn_deleted := false |};
                 {| txn_merchant := None; txn_description := "atm withdrawal";
                    txn_category_id := None; txn_deleted := false |};
                 {| txn_merchant := Some "Walmart"; txn_description := "refund";
                    txn_category_id := Some 7%Z; txn_deleted := false |}] |};
     created := true; self := new_instance; files := empty_dir sure;
     writes := []; history := [] |}.

(** A directory without files that cannot be made. *)
Definition locked_dir : model_dir sure :=
  Build_model_dir sure Missing Missing Missing (Raise OSError).

End MoreExamples.

(* ================================================================= *)
(** * Properties *)

(** ** Text normalization *)

Module NormalizerProps.
Import Text Re Normalizer NormalizerSpec.

Ltac each_ascii a :=
  destruct a as [[] [] [] [] [] [] [] []].

Lemma special_chars_class (a : ascii) :
  cmatch false (CNotSet [IRange "a" "z"; IRange "0" "9"; ISpace]) a = negb (plain a).
Proof. each_ascii a; reflexivity. Qed.

Lemma plain_lower_char (a : ascii) : plain a = true -> lower_char a = a.
Proof. each_ascii a; intros H; try discriminate H; reflexivity. Qed.

Lemma tok_plain (a : ascii) : tok a = true -> plain a = true.
Proof. unfold tok; intros H; apply andb_true_iff in H; tauto. Qed.

Lemma tok_not_space (a : ascii) : tok a = true -> is_space a = false.
Proof.
  unfold tok; intros H; apply andb_true_iff in H; destruct H as [_ H].
  now apply negb_true_iff in H.
Qed.

Lemma all_chars_app (p : ascii -> bool) (s t : string) :
  all_chars p (s ++ t) = all_chars p s && all_chars p t.
Proof.
  induction s as [|a s IH]; simpl; [reflexivity|].
  now rewrite IH, andb_assoc.
Qed.

Lemma all_chars_impl (p q : ascii -> bool) (s : string) :
  (forall a, p a = true -> q a = true) ->
  all_chars p s = true -> all_chars q s = true.
Proof.
  intros Hpq; induction s as [|a s IH]; simpl; [reflexivity|].
  intros H; apply andb_true_iff in H; destruct H as [Ha Hs].
  now rewrite (Hpq a Ha), IH.
Qed.

Lemma app_empty_r (s : string) : s ++ "" = s.
Proof. induction s as [|a s IH]; simpl; [reflexivity | now rewrite IH]. Qed.

Lemma app_assoc (s t u : string) : (s ++ t) ++ u = s ++ (t ++ u).
Proof. induction s as [|a s IH]; simpl; [reflexivity | now rewrite IH]. Qed.

(** *** [re.sub] when nothing matches, and on a one-character class *)

Lemma sub_from_no_match ic r repl (s : string) :
  forall prev, search_from ic r prev s = false -> sub_from ic r repl prev s 0 = s.
Proof.
  induction s as [|a s IH]; intros prev H; simpl in *.
  - destruct (match_here ic r prev ""); [discriminate | reflexivity].
  - destruct (match_here ic r prev (String a s)); [discriminate|].
    now rewrite IH.
Qed.

Lemma sub_no_match ic r repl (s : string) :
  search ic r s = false -> sub ic r repl s = s.
Proof. apply sub_from_no_match. Qed.

Lemma sub_all_no_match (ps : list regex) repl (s : string) :
  forallb (fun p => negb (search true p s)) ps = true -> sub_all ps repl s = s.
Proof.
  unfold sub_all; induction ps as [|p ps IH]; simpl; [reflexivity|].
  intros H; apply andb_true_iff in H; destruct H as [Hp Hps].
  apply negb_true_iff in Hp. rewrite (sub_no_match _ _ _ _ Hp). now apply IH.
Qed.

Lemma sub_from_class ic c (s : string) :
  forall prev,
    sub_from ic (RClass c) " " prev s 0 =
    map_chars (fun a => if cmatch ic c a then " "%char else a) s.
Proof.
  induction s as [|a s IH]; intros prev; [reflexivity|].
  cbn [sub_from match_here rmatch map_chars].
  destruct (cmatch ic c a).
  - replace (String.length (String a s) - String.length s) with 1
      by (cbn [String.length]; lia).
    cbn. now rewrite IH.
  - now rewrite IH.
Qed.

Lemma sub_special_chars_plain (s : string) :
  all_chars plain (sub false special_chars " " s) = true.
Proof.
  unfold sub, special_chars. rewrite sub_from_class.
  induction s as [|a s IH]; cbn [map_chars all_chars]; [reflexivity|].
  rewrite IH, andb_true_r.
  rewrite special_chars_class. destruct (plain a) eqn:E; simpl; [exact E | reflexivity].
Qed.

Lemma sub_special_chars_fixed (s : string) :
  all_chars plain s = true -> sub false special_chars " " s = s.
Proof.
  unfold sub, special_chars. rewrite sub_from_class.
  induction s as [|a s IH]; cbn [map_chars all_chars]; [reflexivity|].
  intros H; apply andb_true_iff in H; destruct H as [Ha Hs].
  rewrite special_chars_class, Ha. cbn [negb]. now rewrite IH.
Qed.

Lemma lower_plain (s : string) : all_chars plain s = true -> lower s = s.
Proof.
  unfold lower; induction s as [|a s IH]; simpl; [reflexivity|].
  intros H; apply andb_true_iff in H; destruct H as [Ha Hs].
  now rewrite (plain_lower_char a Ha), IH.
Qed.

(** *** [split] and [join] *)

Lemma nonempty_app_char (w : string) (a : ascii) : nonempty (w ++ String a "") = true.
Proof. destruct w; reflexivity. Qed.

Lemma split_from_tokens (s : string) :
  forall w,
    all_chars plain s = true ->
    all_chars tok w = true ->
    Forall (fun v => token v = true) (split_from w s).
Proof.
  induction s as [|a s IH]; intros w Hs Hw; simpl.
  - destruct w as [|b w]; constructor; [|constructor].
    unfold token; simpl in *. exact Hw.
  - simpl in Hs; apply andb_true_iff in Hs; destruct Hs as [Ha Hs].
    destruct (is_space a) eqn:Ea.
    + destruct w as [|b w].
      * now apply IH.
      * constructor; [unfold token; simpl in *; exact Hw | now apply IH].
    + apply IH; [exact Hs|].
      rewrite all_chars_app, Hw; simpl. unfold tok. now rewrite Ha, Ea.
Qed.

Lemma split_from_word (v : string) :
  forall w s, all_chars tok v = true -> split_from w (v ++ s) = split_from (w ++ v) s.
Proof.
  induction v as [|a v IH]; intros w s Hv; simpl.
  - now rewrite app_empty_r.
  - simpl in Hv; apply andb_true_iff in Hv; destruct Hv as [Ha Hv].
    rewrite (tok_not_space a Ha), IH by exact Hv.
    now rewrite app_assoc.
Qed.

Lemma join_cons (v : string) (ws : list string) :
  join " " (v :: ws) = match ws with [] => v | _ => v ++ " " ++ join " " ws end.
Proof. destruct ws; reflexivity. Qed.

Lemma split_join (ws : list string) :
  Forall (fun v => token v = true) ws -> split (join " " ws) = ws.
Proof.
  unfold split; induction 1 as [|v ws Hv Hws IH]; [reflexivity|].
  unfold token in Hv; apply andb_true_iff in Hv; destruct Hv as [Hne Hv].
  rewrite join_cons. destruct ws as [|v' ws'].
  - rewrite <- (app_empty_r v) at 1. rewrite split_from_word by exact Hv.
    simpl. destruct v; [discriminate | reflexivity].
  - remember (join " " (v' :: ws')) as rest eqn:Erest.
    rewrite split_from_word by exact Hv. simpl.
    destruct v; [discriminate|]. now rewrite IH.
Qed.

Lemma join_tokens_plain (ws : list string) :
  Forall (fun v => token v = true) ws -> all_chars plain (join " " ws) = true.
Proof.
  induction 1 as [|v ws Hv Hws IH]; [reflexivity|].
  unfold token in Hv; apply andb_true_iff in Hv; destruct Hv as [_ Hv].
  pose proof (all_chars_impl tok plain v tok_plain Hv) as Hp.
  rewrite join_cons. destruct ws; [exact Hp|].
  rewrite !all_chars_app, Hp, IH. reflexivity.
Qed.

(** *** [strip] *)

Lemma rstrip_token (v : string) : token v = true -> rstrip v = v.
Proof.
  unfold token; induction v as [|a v IH]; [discriminate|].
  simpl; intros H; apply andb_true_iff in H; destruct H as [Ha Hv].
  destruct v as [|b v].
  - simpl. now rewrite (tok_not_space a Ha).
  - rewrite IH by exact Hv. reflexivity.
Qed.

Lemma rstrip_app_token (s v : string) : token v = true -> rstrip (s ++ v) = s ++ v.
Proof.
  intros Hv; induction s as [|a s IH]; simpl; [now apply rstrip_token|].
  rewrite IH. destruct (s ++ v) eqn:E; [|reflexivity].
  destruct s; simpl in E; [subst v; discriminate Hv | discriminate E].
Qed.

Lemma strip_join (ws : list string) :
  Forall (fun v => token v = true) ws -> strip (join " " ws) = join " " ws.
Proof.
  intros H. unfold strip.
  assert (Hl : lstrip (join " " ws) = join " " ws).
  { destruct H as [|v ws Hv Hws]; [reflexivity|].
    rewrite join_cons. unfold token in Hv.
    destruct v as [|a v]; [discriminate|].
    simpl in Hv; apply andb_true_iff in Hv; destruct Hv as [Ha _].
    destruct ws; simpl; now rewrite (tok_not_space a Ha). }
  rewrite Hl. clear Hl.
  induction H as [|v ws Hv Hws IH]; [reflexivity|].
  rewrite join_cons. destruct ws as [|v' ws'].
  - now apply rstrip_token.
  - remember (join " " (v' :: ws')) as rest.
    (* the text ends with the last token *)
    assert (Hex : exists s u, rest = s ++ u /\ token u = true).
    { subst rest. clear IH Hv. revert v' Hws.
      induction ws' as [|v2 ws2 IH2]; intros v' Hws.
      - exists "", v'. split; [reflexivity | now inversion Hws].
      - inversion Hws as [|? ? Hv' Hrest]; subst.
        destruct (IH2 v2 Hrest) as (s & u & Es & Hu).
        exists (v' ++ " " ++ s), u. split; [|exact Hu].
        rewrite join_cons. rewrite Es. now rewrite !app_assoc. }
    destruct Hex as (s & u & Es & Hu). rewrite Es.
    rewrite <- !app_assoc. now apply rstrip_app_token.
Qed.

(** *** The shape of a normalized text *)

Lemma preprocess_text_tokens (x : string) :
  exists ws, Forall (fun v => token v = true) ws /\ preprocess_text x = join " " ws.
Proof.
  unfold preprocess_text. destruct (nonempty x); cbn [negb].
  - set (t := sub false special_chars " " _).
    exists (split t).
    assert (H : Forall (fun v => token v = true) (split t)).
    { apply split_from_tokens; [apply sub_special_chars_plain | reflexivity]. }
    split; [exact H | now apply strip_join].
  - exists []. split; [constructor | reflexivity].
Qed.

Lemma preprocess_text_fixed (ws : list string) :
  Forall (fun v => token v = true) ws ->
  no_pattern_matches (join " " ws) = true ->
  preprocess_text (join " " ws) = join " " ws.
Proof.
  intros Hws Hno. unfold preprocess_text.
  destruct (nonempty (join " " ws)) eqn:Hne; cbn [negb].
  - pose proof (join_tokens_plain ws Hws) as Hp.
    unfold no_pattern_matches in Hno. rewrite forallb_app in Hno.
    apply andb_true_iff in Hno; destruct Hno as [Hpre Hnoise].
    rewrite (lower_plain _ Hp).
    rewrite (sub_all_no_match _ _ _ Hpre).
    rewrite (sub_all_no_match _ _ _ Hnoise).
    rewrite (sub_special_chars_fixed _ Hp).
    rewrite (split_join _ Hws).
    now apply strip_join.
  - destruct (join " " ws); [reflexivity | discriminate].
Qed.

(** C4, as amended: normalization is idempotent on every input whose
    normalized text no prefix pattern and no noise pattern matches any more. *)
Theorem preprocess_text_idempotent_when_settled (x : string) :
  no_pattern_matches (preprocess_text x) = true ->
  preprocess_text (preprocess_text x) = preprocess_text x.
Proof.
  destruct (preprocess_text_tokens x) as (ws & Hws & E).
  rewrite E. now apply preprocess_text_fixed.
Qed.

Lemma preprocess_text_idempotent_witness :
  no_pattern_matches (preprocess_text "STARBUCKS #1234 SEATTLE WA") = true /\
  preprocess_text (preprocess_text "STARBUCKS #1234 SEATTLE WA")
  = preprocess_text "STARBUCKS #1234 SEATTLE WA".
Proof.
  split; [vm_compute; reflexivity|].
  apply (preprocess_text_idempotent_when_settled "STARBUCKS #1234 SEATTLE WA").
  vm_compute; reflexivity.
Defined.

(** C4, as stated, fails: a second pass strips the prefix that the first
    pass uncovered. *)
Lemma preprocess_text_not_idempotent :
  preprocess_text "webweb" = "web" /\
  preprocess_text (preprocess_text "webweb") = "" /\
  preprocess_text (preprocess_text "webweb") <> preprocess_text "webweb".
Proof.
  repeat split; try (vm_compute; reflexivity).
  vm_compute. discriminate.
Qed.

End NormalizerProps.

(* ================================================================= *)
(** ** The rule engine *)

Module RuleProps.
Import Text State Categorizer RuleSpec.

Section WithLibraries.
Variable sk : sklearn.
Variable re : regex_engine.

Lemma rule_match_raises (rule : CategorizationRule) (text : string) (e : exn) :
  (rule_match_type rule = "regex" -> tame re rule) ->
  rule_match re rule text = Raise e -> e = ReError.
Proof.
  unfold rule_match, re_search_ic. intros Ht.
  destruct (String.eqb _ "exact"); [discriminate|].
  destruct (String.eqb _ "contains"); [discriminate|].
  destruct (String.eqb (rule_match_type rule) "regex") eqn:Er; [|discriminate].
  apply String.eqb_eq in Er.
  destruct (re_compile_ic re _) as [c|e'] eqn:Ec; [discriminate|].
  intros [= <-]. exact (Ht Er e' Ec).
Qed.

Lemma malformed_never_matches (rule : CategorizationRule) (text : string) :
  rule_match_type rule = "regex" ->
  re_compile_ic re (lower (rule_pattern rule)) = Raise ReError ->
  matches re text rule = false.
Proof.
  intros Ht Hc. unfold matches, rule_match, re_search_ic.
  rewrite Ht. cbn. now rewrite Hc.
Qed.

Lemma tame_rules_tail (rule : CategorizationRule) (rs : list CategorizationRule) :
  tame_rules re (rule :: rs) -> tame_rules re rs.
Proof. intros H x Hx. apply H. now right. Qed.

Lemma scan_rules_find (rs : list CategorizationRule) (text : string) :
  tame_rules re rs ->
  scan_rules re rs text = Ok (option_map rule_category_id (find (matches re text) rs)).
Proof.
  induction rs as [|rule rs IH]; intros Ht; [reflexivity|].
  pose proof (IH (tame_rules_tail _ _ Ht)) as IH'.
  cbn [scan_rules find]. unfold matches at 1.
  destruct (rule_match re rule text) as [[|]|e] eqn:E; try exact IH'; [reflexivity|].
  rewrite (rule_match_raises _ _ _ (Ht rule (or_introl eq_refl)) E). exact IH'.
Qed.

(** An answer of the scan is the category of a rule of the list. *)
Lemma scan_rules_from_list (rs : list CategorizationRule) (text : string) (c : Z) :
  scan_rules re rs text = Ok (Some c) ->
  exists rule, In rule rs /\ c = rule_category_id rule.
Proof.
  induction rs as [|rule rs IH]; cbn [scan_rules]; [discriminate|].
  assert (Hrest : scan_rules re rs text = Ok (Some c) ->
                  exists rule0, In rule0 (rule :: rs) /\ c = rule_category_id rule0).
  { intros H. destruct (IH H) as (x & Hx & Ex). exists x. split; [now right | exact Ex]. }
  destruct (rule_match re rule text) as [[|]|e]; try exact Hrest.
  - intros [= <-]. exists rule. split; [now left | reflexivity].
  - destruct e; try discriminate. exact Hrest.
Qed.

(** *** The order of evaluation *)

Lemma insert_desc_perm (r : CategorizationRule) (l : list CategorizationRule) :
  Permutation (r :: l) (insert_desc r l).
Proof.
  induction l as [|x l IH]; cbn [insert_desc]; [reflexivity|].
  destruct (rule_priority x <=? rule_priority r)%Z; [reflexivity|].
  rewrite perm_swap. now constructor.
Qed.

Lemma order_by_priority_desc_perm (rs : list CategorizationRule) :
  Permutation rs (order_by_priority_desc rs).
Proof.
  unfold order_by_priority_desc.
  induction rs as [|r rs IH]; cbn [fold_right]; [reflexivity|].
  rewrite <- insert_desc_perm. now constructor.
Qed.

Lemma insert_desc_sorted (r : CategorizationRule) (l : list CategorizationRule) :
  StronglySorted prio_ge l -> StronglySorted prio_ge (insert_desc r l).
Proof.
  induction 1 as [|x l Hs IH Hx]; cbn [insert_desc].
  - repeat constructor.
  - destruct (rule_priority x <=? rule_priority r)%Z eqn:E.
    + apply Z.leb_le in E. constructor; [now constructor|].
      constructor; [exact E|].
      eapply Forall_impl; [|exact Hx]. unfold prio_ge; intros; lia.
    + apply Z.leb_gt in E. constructor; [exact IH|].
      eapply Permutation_Forall; [apply insert_desc_perm|].
      constructor; [unfold prio_ge; lia | exact Hx].
Qed.

Lemma order_by_priority_desc_sorted (rs : list CategorizationRule) :
  StronglySorted prio_ge (order_by_priority_desc rs).
Proof.
  unfold order_by_priority_desc.
  induction rs as [|r rs IH]; cbn [fold_right]; [constructor|].
  now apply insert_desc_sorted.
Qed.

(** *** Sorting and filtering commute *)

Lemma insert_desc_head (r : CategorizationRule) (l : list CategorizationRule) :
  Forall (prio_ge r) l -> insert_desc r l = r :: l.
Proof.
  destruct 1 as [|x l Hx _]; [reflexivity|].
  cbn [insert_desc]. unfold prio_ge in Hx.
  apply Z.leb_le in Hx. now rewrite Hx.
Qed.

Lemma Forall_filter {A : Type} (P : A -> Prop) (p : A -> bool) (l : list A) :
  Forall P l -> Forall P (filter p l).
Proof.
  induction 1 as [|x l Hx _ IH]; cbn [filter]; [constructor|].
  destruct (p x); [now constructor | exact IH].
Qed.

Lemma filter_insert_desc (p : CategorizationRule -> bool) (r : CategorizationRule)
      (l : list CategorizationRule) :
  StronglySorted prio_ge l ->
  filter p (insert_desc r l) =
  if p r then insert_desc r (filter p l) else filter p l.
Proof.
  induction 1 as [|x l Hs IH Hx]; cbn [insert_desc filter].
  - now destruct (p r).
  - destruct (rule_priority x <=? rule_priority r)%Z eqn:E; cbn [filter].
    + destruct (p r) eqn:Er; [|reflexivity].
      destruct (p x) eqn:Ex.
      * cbn [insert_desc]. now rewrite E.
      * symmetry. apply insert_desc_head. apply Forall_filter.
        apply Z.leb_le in E.
        eapply Forall_impl; [|exact Hx]. unfold prio_ge; intros; lia.
    + rewrite IH. destruct (p x) eqn:Ex, (p r) eqn:Er; try reflexivity.
      cbn [insert_desc]. now rewrite E.
Qed.

Lemma filter_order_by_priority_desc (p : CategorizationRule -> bool)
      (rs : list CategorizationRule) :
  filter p (order_by_priority_desc rs) = order_by_priority_desc (filter p rs).
Proof.
  unfold order_by_priority_desc.
  induction rs as [|r rs IH]; cbn [fold_right filter]; [reflexivity|].
  rewrite filter_insert_desc by apply order_by_priority_desc_sorted.
  rewrite IH. now destruct (p r).
Qed.

Lemma find_filter {A : Type} (p : A -> bool) (l : list A) :
  find p l = hd_error (filter p l).
Proof.
  induction l as [|x l IH]; cbn [find filter]; [reflexivity|].
  now destruct (p x).
Qed.

Lemma find_none {A : Type} (p : A -> bool) (l : list A) :
  (forall x, In x l -> p x = false) -> find p l = None.
Proof.
  induction l as [|x l IH]; cbn [find]; intros H; [reflexivity|].
  rewrite (H x) by now left. apply IH. intros y Hy. apply H. now right.
Qed.

Lemma find_sorted_without (p : CategorizationRule -> bool)
      (l1 l2 : list CategorizationRule) (r : CategorizationRule) :
  p r = false ->
  find p (order_by_priority_desc (l1 ++ r :: l2)) =
  find p (order_by_priority_desc (l1 ++ l2)).
Proof.
  intros Hr. rewrite !find_filter, !filter_order_by_priority_desc.
  rewrite !filter_app. cbn [filter]. now rewrite Hr.
Qed.

Lemma tame_rules_sorted (rs : list CategorizationRule) :
  tame_rules re rs -> tame_rules re (order_by_priority_desc rs).
Proof.
  intros H x Hx. apply H.
  eapply Permutation_in; [symmetry; apply order_by_priority_desc_perm | exact Hx].
Qed.

Lemma tame_rules_without (l1 l2 : list CategorizationRule) (r : CategorizationRule) :
  tame_rules re (l1 ++ r :: l2) -> tame_rules re (l1 ++ l2).
Proof.
  intros H x Hx. apply H. apply in_or_app. apply in_app_or in Hx.
  destruct Hx as [Hx|Hx]; [now left | right; now right].
Qed.

(** C8, as amended: as long as no regex rule of the table makes the regex
    engine raise anything but [re.error], rule matching never raises and
    returns the category of the first rule that fires, the rules taken in
    descending priority; a regex rule whose pattern raises [re.error] can be
    deleted from the table without changing any result; when no rule fires
    the result is [None]. *)
Theorem rule_based_categorize_skips_malformed (w : world sk) (text : string) :
  tame_rules re (rules (db w)) ->
  rule_based_categorize sk re w text = Ok (first_match re w text)
  /\ StronglySorted prio_ge (order_by_priority_desc (rules (db w)))
  /\ Permutation (rules (db w)) (order_by_priority_desc (rules (db w)))
  /\ (forall l1 r l2,
         rules (db w) = (l1 ++ r :: l2)%list ->
         rule_match_type r = "regex" ->
         re_compile_ic re (lower (rule_pattern r)) = Raise ReError ->
         rule_based_categorize sk re (with_rules (l1 ++ l2)%list w) text
         = rule_based_categorize sk re w text)
  /\ ((forall r, In r (rules (db w)) -> matches re text r = false) ->
      rule_based_categorize sk re w text = Ok None).
Proof.
  intros Htame.
  assert (H1 : forall w', tame_rules re (rules (db w')) ->
                          rule_based_categorize sk re w' text = Ok (first_match re w' text)).
  { intros w' Hw'. apply scan_rules_find. now apply tame_rules_sorted. }
  split; [now apply H1|].
  split; [apply order_by_priority_desc_sorted|].
  split; [apply order_by_priority_desc_perm|].
  split.
  - intros l1 r l2 E Ht Hc. rewrite (H1 w Htame).
    rewrite H1
      by (cbn [with_rules db rules]; apply (tame_rules_without l1 l2 r);
          rewrite <- E; exact Htame).
    unfold first_match.
    cbn [with_rules db rules]. rewrite E.
    now rewrite (find_sorted_without _ l1 l2 r (malformed_never_matches r text Ht Hc)).
  - intros Hno. rewrite (H1 w Htame). unfold first_match.
    rewrite find_none; [reflexivity|].
    intros x Hx. apply Hno.
    eapply Permutation_in; [symmetry; apply order_by_priority_desc_perm | exact Hx].
Qed.

End WithLibraries.

Import Examples.

Lemma shop_rules_tame : tame_rules literal_engine [malformed_rule; walmart_rule].
Proof.
  intros rule [<-|[<-|[]]] Ht e.
  - cbn. intros [= <-]. reflexivity.
  - discriminate Ht.
Qed.

Lemma rule_based_categorize_witness :
  rule_based_categorize sure literal_engine
    (with_rules [walmart_rule] (shop sure [malformed_rule; walmart_rule] new_instance))
    "walmart supercenter"
  = rule_based_categorize sure literal_engine
      (shop sure [malformed_rule; walmart_rule] new_instance) "walmart supercenter".
Proof.
  exact (proj1 (proj2 (proj2 (proj2
           (rule_based_categorize_skips_malformed sure literal_engine
              (shop sure [malformed_rule; walmart_rule] new_instance)
              "walmart supercenter" shop_rules_tame))))
           [] malformed_rule [walmart_rule] eq_refl eq_refl eq_refl).
Defined.

(** C8, as stated, fails: a regex rule whose repeat count overflows makes
    the regex engine raise [OverflowError], which the loop does not catch;
    without that rule the same text gets category 7. *)
Lemma rule_based_categorize_overflow :
  rule_based_categorize sure literal_engine
    (shop sure [overflow_rule; walmart_rule] new_instance) "walmart supercenter"
  = Raise OverflowError
  /\ rule_based_categorize sure literal_engine
       (shop sure [walmart_rule] new_instance) "walmart supercenter"
     = Ok (Some 7%Z).
Proof. split; vm_compute; reflexivity. Qed.

End RuleProps.

(* ================================================================= *)
(** ** The orchestrator *)

Module OrchestratorProps.
Import Text State Categorizer ML RuleSpec RuleProps OrchestratorSpec.

Section WithLibraries.
Variable sk : sklearn.
Variable re : regex_engine.

Lemma rules_on_step (w : world sk) (text : string) :
  tame_rules re (rules (db w)) ->
  rules_on sk re w text = Ok (rule_step re w text).
Proof.
  intros Ht. unfold rules_on, rule_step. destruct (nonempty text); [|reflexivity].
  apply scan_rules_find. now apply tame_rules_sorted.
Qed.

Lemma categorize_transaction_steps (w : world sk) (merchant description : option string) :
  tame_rules re (rules (db w)) ->
  categorize_transaction sk re w merchant description =
  Ok (match find truthy_id [rule_step re w (primary_text merchant);
                            rule_step re w (primary_text description);
                            rule_step re w (combined_text merchant description)] with
      | Some c => c
      | None => uncategorized_id w
      end).
Proof.
  intros Ht.
  unfold categorize_transaction, combined_text, primary_text, uncategorized_id.
  rewrite !(rules_on_step w _ Ht). cbn [obind find].
  destruct (truthy_id (rule_step re w _)); [reflexivity|].
  destruct (truthy_id (rule_step re w _)); [reflexivity|].
  destruct (truthy_id (rule_step re w _)); [reflexivity|].
  cbn. now destruct (category_by_name (db w) "Uncategorized").
Qed.

(** The orchestrator reads the rule table and the category named
    'Uncategorized', and nothing else. *)
Lemma categorize_transaction_reads (w w' : world sk) (merchant description : option string) :
  rules (db w') = rules (db w) ->
  category_by_name (db w') "Uncategorized" = category_by_name (db w) "Uncategorized" ->
  categorize_transaction sk re w' merchant description
  = categorize_transaction sk re w merchant description.
Proof.
  intros Er Eu. unfold categorize_transaction, rules_on, rule_based_categorize,
                  classifier_predict.
  now rewrite Er, Eu.
Qed.

Lemma rules_on_from_table (w : world sk) (text : string) (c : option Z) :
  rules_on sk re w text = Ok c -> truthy_id c = true ->
  exists rule, In rule (rules (db w)) /\ c = Some (rule_category_id rule).
Proof.
  unfold rules_on, rule_based_categorize. intros E Hc.
  destruct (nonempty text); [|injection E as <-; discriminate Hc].
  destruct c as [c|]; [|discriminate Hc].
  destruct (scan_rules_from_list re _ _ _ E) as (rule & Hin & Ec).
  exists rule. split; [|now rewrite Ec].
  eapply Permutation_in; [symmetry; apply order_by_priority_desc_perm | exact Hin].
Qed.

(** C1, as amended: as long as no regex rule makes the regex engine raise
    anything but [re.error], the orchestrator takes the first rule step that
    yields a category, in the order merchant text, description text,
    concatenation; when none does, the result is the id of the category named
    'Uncategorized', or nothing: the classifier step is the stub, and the
    state of the classifier model changes no result. *)
Theorem categorize_transaction_order
        (w : world sk) (merchant description : option string) :
  tame_rules re (rules (db w)) ->
  categorize_transaction sk re w merchant description =
  Ok (match find truthy_id [rule_step re w (primary_text merchant);
                            rule_step re w (primary_text description);
                            rule_step re w (combined_text merchant description)] with
      | Some c => c
      | None => uncategorized_id w
      end)
  /\ forall s, categorize_transaction sk re (with_self s w) merchant description
               = categorize_transaction sk re w merchant description.
Proof.
  intros Ht. split; [now apply categorize_transaction_steps|].
  intros s. now apply categorize_transaction_reads.
Qed.

(** C9: the classifier step of the orchestrator is a stub that answers
    [None]; two worlds with the same rule table and the same 'Uncategorized'
    category give the same result, whatever their model state; and a result
    is the category of a rule of the table or the fallback. *)
Theorem classifier_stub_never_decides
        (w w' : world sk) (merchant description : option string) :
  rules (db w') = rules (db w) ->
  category_by_name (db w') "Uncategorized" = category_by_name (db w) "Uncategorized" ->
  (forall text, classifier_predict sk w text = None)
  /\ categorize_transaction sk re w' merchant description
     = categorize_transaction sk re w merchant description
  /\ forall r, categorize_transaction sk re w merchant description = Ok r ->
               r = uncategorized_id w
               \/ exists rule, In rule (rules (db w))
                               /\ r = Some (rule_category_id rule).
Proof.
  intros Er Eu. split; [reflexivity|]. split.
  - now apply categorize_transaction_reads.
  - intros r. unfold categorize_transaction. cbv zeta.
    set (t1 := strip (lower (Categorizer.or_empty merchant))).
    set (t2 := strip (lower (Categorizer.or_empty description))).
    set (t3 := strip (t1 ++ " " ++ t2)).
    destruct (rules_on sk re w t1) as [c1|e1] eqn:E1; cbn [obind]; [|discriminate].
    destruct (truthy_id c1) eqn:T1.
    { intros [= <-]. right. now apply (rules_on_from_table w _ c1 E1). }
    destruct (rules_on sk re w t2) as [c2|e2] eqn:E2; cbn [obind]; [|discriminate].
    destruct (truthy_id c2) eqn:T2.
    { intros [= <-]. right. now apply (rules_on_from_table w _ c2 E2). }
    destruct (rules_on sk re w t3) as [c3|e3] eqn:E3; cbn [obind]; [|discriminate].
    destruct (truthy_id c3) eqn:T3.
    { intros [= <-]. right. now apply (rules_on_from_table w _ c3 E3). }
    cbn [classifier_predict truthy_id]. unfold uncategorized_id.
    destruct (category_by_name (db w) "Uncategorized"); intros [= <-]; now left.
Qed.

End WithLibraries.

Import Examples.

Lemma classifier_stub_witness :
  categorize_transaction sure literal_engine
    (shop sure [walmart_rule] new_instance) (Some "WALMART #12") None
  = categorize_transaction sure literal_engine
      (shop sure [walmart_rule] (trained sure tt tt)) (Some "WALMART #12") None.
Proof.
  exact (proj1 (proj2 (classifier_stub_never_decides sure literal_engine
                         (shop sure [walmart_rule] (trained sure tt tt))
                         (shop sure [walmart_rule] new_instance)
                         (Some "WALMART #12") None eq_refl eq_refl))).
Defined.

Lemma categorize_transaction_order_witness :
  categorize_transaction sure literal_engine
    (shop sure [malformed_rule; walmart_rule] (trained sure tt tt))
    (Some "WALMART #12") None
  = Ok (match find truthy_id
                [rule_step literal_engine
                   (shop sure [malformed_rule; walmart_rule] (trained sure tt tt))
                   (primary_text (Some "WALMART #12"));
                 rule_step literal_engine
                   (shop sure [malformed_rule; walmart_rule] (trained sure tt tt))
                   (primary_text None);
                 rule_step literal_engine
                   (shop sure [malformed_rule; walmart_rule] (trained sure tt tt))
                   (combined_text (Some "WALMART #12") None)] with
        | Some c => c
        | None => uncategorized_id
                    (shop sure [malformed_rule; walmart_rule] (trained sure tt tt))
        end).
Proof.
  exact (proj1 (categorize_transaction_order sure literal_engine
                  (shop sure [malformed_rule; walmart_rule] (trained sure tt tt))
                  (Some "WALMART #12") None shop_rules_tame)).
Defined.

(** C1, as stated, fails: with no rule in the table and a trained model that
    is confident about the merchant, the classifier model would answer
    category 7, and the orchestrator answers nothing. *)
Lemma categorize_transaction_skips_model :
  ml_categorize_with sure (trained sure tt tt) (Some "walmart") None default_threshold
  = Ok (Some 7%Z, (9 # 10)%Q)
  /\ categorize_spec literal_engine (shop sure [] (trained sure tt tt))
       (Some "walmart") None = Ok (Some 7%Z)
  /\ categorize_transaction sure literal_engine (shop sure [] (trained sure tt tt))
       (Some "walmart") None = Ok None.
Proof. repeat split; vm_compute; reflexivity. Qed.

End OrchestratorProps.

(* ================================================================= *)
(** ** Prediction *)

Module PredictProps.
Import Text Normalizer State ML PredictSpec.
Open Scope outcome_scope.

Section WithSklearn.
Variable sk : sklearn.

Lemma argmax_from_bound (l : list Q) :
  forall bi b i, bi < i -> argmax_from bi b i l < i + List.length l.
Proof.
  induction l as [|x l IH]; intros bi b i Hbi; cbn [argmax_from List.length]; [lia|].
  destruct (Qlt_bool b x).
  - specialize (IH i x (S i)). lia.
  - specialize (IH bi b (S i)). lia.
Qed.

Lemma argmax_bound (l : list Q) (i : nat) : argmax l = Ok i -> i < List.length l.
Proof.
  destruct l as [|x l]; [discriminate|]. cbn [argmax List.length].
  intros [= <-]. pose proof (argmax_from_bound l 0 x 1). lia.
Qed.

Lemma top_class_in_unit_interval (s : MLCategorizer sk) (text : string) (i : nat) (p : Q) :
  proba_in_unit_interval sk ->
  top_class s text = Ok (i, p) -> (0 <= p /\ p <= 1)%Q.
Proof.
  intros Hp. unfold top_class, clf_predict_proba.
  destruct (vec_transform sk (vectorizer s) _) as [X|]; [|discriminate]. cbn [obind].
  destruct (classifier s) as [[|c]|]; try discriminate.
  destruct (rf_predict_proba sk c X) as [rows|] eqn:E; [|discriminate]. cbn [obind].
  specialize (Hp c X rows E).
  destruct rows as [|row rows]; [discriminate|]. cbn [first_row obind].
  destruct (argmax row) as [j|] eqn:Ej; [|discriminate]. cbn [obind].
  intros [= <- <-]. inversion Hp as [|? ? Hrow _]; subst.
  rewrite Forall_forall in Hrow. apply Hrow. apply nth_In. now apply argmax_bound.
Qed.

(** [predict] in terms of the top class. *)
Lemma predict_unfold (s : MLCategorizer sk) (text : string) (th : Q) :
  no_model sk s = Ok false ->
  nonempty (preprocess_text text) = true ->
  predict sk s text th =
  match top_class s text with
  | Ok (i, p) =>
      if Qlt_bool p th then Ok (None, 0%Q)
      else match mapping_lookup (category_mapping s) i with
           | Ok c => Ok (Some c, p)
           | Raise _ => Ok (None, 0%Q)
           end
  | Raise _ => Ok (None, 0%Q)
  end.
Proof.
  intros Hm Hne. unfold predict, top_class. rewrite Hm. cbn [obind]. rewrite Hne. cbn [negb].
  destruct (vec_transform sk (vectorizer s) _) as [X|]; [|reflexivity]. cbn [obind].
  destruct (clf_predict_proba sk (classifier s) X) as [rows|]; [|reflexivity]. cbn [obind].
  destruct (first_row rows) as [row|]; [|reflexivity]. cbn [obind].
  destruct (argmax row) as [j|]; [|reflexivity]. cbn [obind try_except].
  destruct (Qlt_bool _ th); [reflexivity|].
  now destruct (mapping_lookup (category_mapping s) j).
Qed.

Lemma no_model_cases (s : MLCategorizer sk) :
  classifier_settled s ->
  (no_model sk s = Ok true /\ model_absent s) \/
  (no_model sk s = Ok false /\ ~ model_absent s).
Proof.
  unfold classifier_settled, no_model, model_absent, truthy_vectorizer, truthy_classifier.
  intros Hs. destruct (vectorizer s) as [v|]; cbn.
  - destruct (classifier s) as [[|c]|]; cbn.
    + now contradiction Hs.
    + right. split; [reflexivity|]. intros [H|H]; discriminate H.
    + left. split; [reflexivity | now right].
  - left. split; [reflexivity | now left].
Qed.

Lemma unit_interval_zero : (0 <= 0 /\ 0 <= 1)%Q.
Proof. split; discriminate. Qed.

(** X22: on an instance whose classifier is fitted or absent, [predict]
    returns for every text and threshold, with a confidence in [0,1] when the
    probabilities of the classifier are; the answer is [(None, 0)] when the
    text normalizes to the empty string, when no model is loaded, and when
    the probability of the top class is below the threshold. *)
Theorem predict_total (s : MLCategorizer sk) (text : string) (th : Q) :
  proba_in_unit_interval sk ->
  classifier_settled s ->
  (exists c conf, predict sk s text th = Ok (c, conf) /\ (0 <= conf /\ conf <= 1)%Q)
  /\ (preprocess_text text = "" -> predict sk s text th = Ok (None, 0%Q))
  /\ (model_absent s -> predict sk s text th = Ok (None, 0%Q))
  /\ (forall i p, top_class s text = Ok (i, p) -> (p < th)%Q ->
                  predict sk s text th = Ok (None, 0%Q)).
Proof.
  intros Hp Hs.
  destruct (no_model_cases s Hs) as [[Hm Ha]|[Hm Ha]].
  - assert (E : predict sk s text th = Ok (None, 0%Q)).
    { unfold predict. now rewrite Hm. }
    rewrite E. repeat split; try reflexivity.
    exists None, 0%Q. split; [reflexivity | exact unit_interval_zero].
  - destruct (nonempty (preprocess_text text)) eqn:Hne.
    + rewrite (predict_unfold s text th Hm Hne).
      split; [|split; [|split]].
      * destruct (top_class s text) as [[i p]|] eqn:Et;
          [|exists None, 0%Q; split; [reflexivity | exact unit_interval_zero]].
        destruct (Qlt_bool p th);
          [exists None, 0%Q; split; [reflexivity | exact unit_interval_zero]|].
        destruct (mapping_lookup (category_mapping s) i) as [c|];
          [|exists None, 0%Q; split; [reflexivity | exact unit_interval_zero]].
        exists (Some c), p. split; [reflexivity|].
        exact (top_class_in_unit_interval s text i p Hp Et).
      * intros E. rewrite E in Hne. discriminate Hne.
      * intros H. now contradiction Ha.
      * intros i p Et Hlt. rewrite Et.
        assert (Hb : Qlt_bool p th = true).
        { unfold Qlt_bool. apply negb_true_iff.
          destruct (Qle_bool th p) eqn:Eb; [|reflexivity].
          apply Qle_bool_iff in Eb. exfalso. exact (Qlt_not_le _ _ Hlt Eb). }
        now rewrite Hb.
    + assert (E : predict sk s text th = Ok (None, 0%Q)).
      { unfold predict. rewrite Hm. cbn [obind]. now rewrite Hne. }
      rewrite E. repeat split; try reflexivity.
      exists None, 0%Q. split; [reflexivity | exact unit_interval_zero].
Qed.

End WithSklearn.

Import Examples.

Lemma sure_proba_in_unit_interval : proba_in_unit_interval sure.
Proof.
  intros c X rows [= <-]. repeat constructor; discriminate.
Defined.

Lemma predict_total_witness :
  exists c conf,
    predict sure (trained sure tt tt) "WALMART #12" default_threshold = Ok (c, conf)
    /\ (0 <= conf /\ conf <= 1)%Q.
Proof.
  refine (proj1 (predict_total sure (trained sure tt tt) "WALMART #12" default_threshold
                   sure_proba_in_unit_interval _)).
  unfold classifier_settled; cbn; discriminate.
Defined.

(** C6 fails on an instance whose classifier is a forest that was never
    fitted, the state [train] leaves behind when [fit] raises: the test
    [not self.classifier] stands before the [try] of [predict] and raises
    [AttributeError], where the claim has [predict] answer [(None, 0)]. *)
Theorem predict_raises_on_unfitted_forest :
  fst (train failing_fit 2 (market failing_fit new_instance)) = Raise ValueError
  /\ vectorizer (self (snd (train failing_fit 2 (market failing_fit new_instance))))
     = Some (Fitted tt)
  /\ classifier (self (snd (train failing_fit 2 (market failing_fit new_instance))))
     = Some Unfitted
  /\ predict failing_fit
             (self (snd (train failing_fit 2 (market failing_fit new_instance))))
             "walmart" default_threshold
     = Raise AttributeError.
Proof. repeat split; vm_compute; reflexivity. Qed.

End PredictProps.

(* ================================================================= *)
(** ** The web layer *)

Module ApiProps.
Import Text Normalizer State ML Api PredictSpec PredictProps ApiSpec.

Section WithSklearn.
Variable sk : sklearn.

Lemma get_ml_categorizer_created (w : world sk) :
  created w = true -> get_ml_categorizer sk w = (Ok tt, w).
Proof. intros H. unfold get_ml_categorizer. now rewrite H. Qed.

Lemma ml_categorize_created (w : world sk) (m d : option string) (th : Q) :
  created w = true ->
  ml_categorize sk m d th w = (ml_categorize_with sk (self w) m d th, w).
Proof.
  intros H. unfold ml_categorize, bind.
  now rewrite (get_ml_categorizer_created w H).
Qed.

Lemma Qlt_bool_true (p th : Q) : (p < th)%Q -> Qlt_bool p th = true.
Proof.
  intros Hlt. unfold Qlt_bool. apply negb_true_iff.
  destruct (Qle_bool th p) eqn:Eb; [|reflexivity].
  apply Qle_bool_iff in Eb. exfalso. exact (Qlt_not_le _ _ Hlt Eb).
Qed.

Lemma Qlt_bool_false (p th : Q) : (th <= p)%Q -> Qlt_bool p th = false.
Proof.
  intros Hle. unfold Qlt_bool. apply negb_false_iff. now apply Qle_bool_iff.
Qed.

(** What [ml_categorize] answers for a merchant alone whose top class [i]
    has probability [p] and stands for the category [c]. *)
Lemma ml_categorize_with_merchant_only
      (s : MLCategorizer sk) (text : string) (i : nat) (p : Q) (c : Z) (th : Q) :
  no_model sk s = Ok false ->
  nonempty text = true ->
  strip (text ++ " " ++ "") = text ->
  nonempty (preprocess_text text) = true ->
  top_class s text = Ok (i, p) ->
  mapping_lookup (category_mapping s) i = Ok c ->
  c <> 0%Z ->
  predict sk s text th = (if Qlt_bool p th then Ok (None, 0%Q) else Ok (Some c, p))
  /\ ml_categorize_with sk s (Some text) None th
     = (if Qlt_bool p th then Ok (None, 0%Q) else Ok (Some c, p)).
Proof.
  intros Hm Ht Hs Hne Htop Hmap Hc0.
  assert (P : predict sk s text th
              = (if Qlt_bool p th then Ok (None, 0%Q) else Ok (Some c, p))).
  { rewrite (predict_unfold sk _ _ _ Hm Hne), Htop.
    destruct (Qlt_bool p th); [reflexivity | now rewrite Hmap]. }
  split; [exact P|].
  assert (T : truthy_id (Some c) = true).
  { cbn. apply negb_true_iff. now apply Z.eqb_neq. }
  unfold ml_categorize_with. cbn [truthy_str ML.or_empty]. rewrite Ht, Hs, Ht, P.
  destruct (Qlt_bool p th); cbn [obind fst]; [reflexivity | now rewrite T].
Qed.

(** What the endpoint answers for a merchant alone, from what
    [ml_categorize] answers under the threshold of the request. *)
Lemma predict_category_merchant
      (w : world sk) (text : string) (t : option Q) (r : option Z * Q) :
  created w = true ->
  nonempty text = true ->
  ml_categorize_with sk (self w) (Some text) None
    (match t with Some x => x | None => endpoint_default_threshold end) = Ok r ->
  fst (predict_category sk
         (Object {| req_merchant := Some text; req_description := None;
                    req_confidence_threshold := t |}) w)
  = Ok (Prediction (fst r)
          (match fst r with
           | Some c => if truthy_id (Some c)
                       then option_map cat_name (category_by_id (db w) c)
                       else None
           | None => None
           end)
          (round4 sk (snd r))).
Proof.
  intros Hc Ht E. unfold predict_category.
  cbn [req_merchant req_description req_confidence_threshold truthy_str].
  rewrite Ht. cbn [negb andb]. unfold try_catch, bind.
  rewrite (ml_categorize_created w _ _ _ Hc), E. reflexivity.
Qed.

(** C10: the default threshold of the endpoint is 0.3 and the one of the core
    is 0.15.  A merchant whose top class has a probability of at least 0.15
    gets that class from the core default; from the endpoint, when the
    request names no threshold, it gets [(None, 0)] when the probability is
    below 0.3 and that class when it is not; a request that names a threshold
    gets the class as soon as the probability reaches that threshold. *)
Theorem endpoint_default_threshold_is_higher
        (w : world sk) (text : string) (i : nat) (p : Q) (c : Z) :
  created w = true ->
  no_model sk (self w) = Ok false ->
  nonempty text = true ->
  strip (text ++ " " ++ "") = text ->
  nonempty (preprocess_text text) = true ->
  top_class (self w) text = Ok (i, p) ->
  mapping_lookup (category_mapping (self w)) i = Ok c ->
  c <> 0%Z ->
  (15 # 100 <= p)%Q ->
  predict sk (self w) text default_threshold = Ok (Some c, p)
  /\ fst (ml_categorize sk (Some text) None default_threshold w) = Ok (Some c, p)
  /\ ((p < 3 # 10)%Q ->
      predict sk (self w) text endpoint_default_threshold = Ok (None, 0%Q)
      /\ fst (predict_category sk (Object (merchant_only text)) w)
         = Ok (Prediction None None (round4 sk 0%Q)))
  /\ ((3 # 10 <= p)%Q ->
      predict sk (self w) text endpoint_default_threshold = Ok (Some c, p)
      /\ fst (predict_category sk (Object (merchant_only text)) w)
         = Ok (Prediction (Some c) (option_map cat_name (category_by_id (db w) c))
                          (round4 sk p)))
  /\ (forall t, (t <= p)%Q ->
                fst (predict_category sk (Object (merchant_with_threshold text t)) w)
                = Ok (Prediction (Some c) (option_map cat_name (category_by_id (db w) c))
                                 (round4 sk p))).
Proof.
  intros Hc Hm Ht Hs Hne Htop Hmap Hc0 Hlo.
  pose proof (fun th => ml_categorize_with_merchant_only (self w) text i p c th
                          Hm Ht Hs Hne Htop Hmap Hc0) as A.
  assert (T : truthy_id (Some c) = true).
  { cbn. apply negb_true_iff. now apply Z.eqb_neq. }
  assert (Above : forall t th,
             match t with Some x => x | None => endpoint_default_threshold end = th ->
             (th <= p)%Q ->
             fst (predict_category sk
                    (Object {| req_merchant := Some text; req_description := None;
                               req_confidence_threshold := t |}) w)
             = Ok (Prediction (Some c) (option_map cat_name (category_by_id (db w) c))
                              (round4 sk p))).
  { intros t th Et Hle. destruct (A th) as [_ E]. rewrite (Qlt_bool_false _ _ Hle) in E.
    rewrite <- Et in E.
    rewrite (predict_category_merchant w text t _ Hc Ht E). cbn [fst snd].
    now rewrite T. }
  split.
  { destruct (A default_threshold) as [E _]. unfold default_threshold in *.
    now rewrite (Qlt_bool_false _ _ Hlo) in E. }
  split.
  { rewrite (ml_categorize_created w _ _ _ Hc). cbn [fst].
    destruct (A default_threshold) as [_ E]. unfold default_threshold in *.
    now rewrite (Qlt_bool_false _ _ Hlo) in E. }
  split.
  { intros Hhi. destruct (A endpoint_default_threshold) as [E1 E2].
    unfold endpoint_default_threshold in E1, E2.
    rewrite (Qlt_bool_true _ _ Hhi) in E1, E2. split; [exact E1|].
    unfold merchant_only.
    now rewrite (predict_category_merchant w text None _ Hc Ht E2). }
  split.
  { intros Hle. destruct (A endpoint_default_threshold) as [E1 _].
    unfold endpoint_default_threshold in E1.
    rewrite (Qlt_bool_false _ _ Hle) in E1. split; [exact E1|].
    unfold merchant_only. now apply (Above None (3 # 10)%Q). }
  intros t Hle. unfold merchant_with_threshold. now apply (Above (Some t) t).
Qed.


End WithSklearn.

Import Examples.

Lemma endpoint_default_threshold_witness :
  predict unsure (trained unsure tt tt) "walmart" default_threshold
  = Ok (Some 7%Z, (2 # 10)%Q)
  /\ predict unsure (trained unsure tt tt) "walmart" endpoint_default_threshold
     = Ok (None, 0%Q)
  /\ fst (predict_category unsure (Object (merchant_only "walmart"))
            (shop unsure [] (trained unsure tt tt)))
     = Ok (Prediction None None 0%Q)
  /\ fst (predict_category unsure (Object (merchant_with_threshold "walmart" (15 # 100)))
            (shop unsure [] (trained unsure tt tt)))
     = Ok (Prediction (Some 7%Z) (Some "Groceries") (2 # 10)%Q).
Proof.
  destruct (endpoint_default_threshold_is_higher unsure
              (shop unsure [] (trained unsure tt tt)) "walmart" 0 (2 # 10)%Q 7%Z)
    as (P & _ & Below & _ & Named); try reflexivity; try discriminate.
  destruct (Below eq_refl) as [P2 E2].
  split; [exact P|]. split; [exact P2|]. split; [exact E2|].
  apply Named. discriminate.
Defined.



End ApiProps.

(* ================================================================= *)
(** ** Training and persistence *)

Module TrainProps.
Import Text Normalizer State ML PredictSpec PredictProps TrainSpec.

Section WithSklearn.
Variable sk : sklearn.

(** *** Insufficient data *)

(** C5: with fewer than 10 usable examples [train] returns a failure and
    leaves the world as it was: the in-memory model, the model directory and
    the history are unchanged. *)
Theorem train_insufficient_data (w : world sk) (min_samples : nat) :
  List.length (usable_examples w min_samples) < 10 ->
  exists error, train sk min_samples w = (Ok (TrainFailure error), w).
Proof.
  unfold usable_examples, train, bind, get_db, get_training_data.
  cbn [fst snd]. intros H.
  destruct (List.length (map fst (training_examples (db w))) <? 10)%nat.
  - now eexists.
  - rewrite length_map. apply Nat.ltb_lt in H. rewrite H. now eexists.
Qed.

(** *** [save_model] and [load_model] *)

Lemma write_file_memory {A : Type} put (obj : A) (w : world sk) :
  db (snd (write_file sk put obj w)) = db w
  /\ created (snd (write_file sk put obj w)) = created w
  /\ self (snd (write_file sk put obj w)) = self w
  /\ history (snd (write_file sk put obj w)) = history w.
Proof.
  unfold write_file. destruct (next_write sk w) as [[| |] rest]; cbn; auto.
Qed.

Lemma save_model_cases (w : world sk) :
  (exists e, no_model sk (self w) = Raise e /\ save_model sk w = (Raise e, w))
  \/ (exists b w', save_model sk w = (Ok b, w')
                   /\ db w' = db w /\ created w' = created w
                   /\ self w' = self w /\ history w' = history w).
Proof.
  unfold save_model, bind, get_self, lift. cbn [fst snd].
  destruct (no_model sk (self w)) as [[|]|e].
  - right. exists false, w. now cbn.
  - right. unfold try_catch, ret.
    destruct (write_file_memory (put_vectorizer_pkl sk) (vectorizer (self w)) w)
      as (D1 & C1 & S1 & H1).
    destruct (write_file sk (put_vectorizer_pkl sk) (vectorizer (self w)) w) as [[[]|e1] w1];
      cbn [fst snd] in *; [|exists false, w1; auto].
    destruct (write_file_memory (put_classifier_pkl sk) (classifier (self w)) w1)
      as (D2 & C2 & S2 & H2).
    destruct (write_file sk (put_classifier_pkl sk) (classifier (self w)) w1) as [[[]|e2] w2];
      cbn [fst snd] in *;
      [|exists false, w2; repeat split; congruence].
    destruct (write_file_memory (put_category_mapping_pkl sk) (category_mapping (self w)) w2)
      as (D3 & C3 & S3 & H3).
    destruct (write_file sk (put_category_mapping_pkl sk) (category_mapping (self w)) w2)
      as [[[]|e3] w3];
      cbn [fst snd] in *;
      [exists true, w3 | exists false, w3]; repeat split; congruence.
  - left. exists e. now split.
Qed.

(** *** Independence from the outcome of the writes *)

Lemma mem_eq_refl (w : world sk) : mem_eq w w.
Proof. repeat split. Qed.

Lemma oblivious_ret {A : Type} (a : A) : oblivious sk (ret a).
Proof. intros w1 w2 H. now split. Qed.

Lemma oblivious_lift {A : Type} (o : outcome A) : oblivious sk (lift o).
Proof. intros w1 w2 H. now split. Qed.

Lemma oblivious_get_self : oblivious sk (@get_self sk).
Proof. intros w1 w2 H. split; [|exact H]. cbn. f_equal. apply H. Qed.

Lemma oblivious_get_db : oblivious sk (get_db sk).
Proof. intros w1 w2 H. split; [|exact H]. cbn. f_equal. apply H. Qed.

Lemma oblivious_assign f : oblivious sk (@assign sk f).
Proof.
  intros w1 w2 (D & C & S & H). split; [reflexivity|].
  unfold assign, mem_eq; cbn. now rewrite D, C, S, H.
Qed.

Lemma oblivious_bind {A B : Type} (m : M sk A) (f : A -> M sk B) :
  oblivious sk m -> (forall a, oblivious sk (f a)) -> oblivious sk (bind m f).
Proof.
  intros Hm Hf w1 w2 H. unfold bind.
  destruct (Hm w1 w2 H) as [E1 E2].
  destruct (m w1) as [[a1|e1] w1'], (m w2) as [[a2|e2] w2']; cbn [fst snd] in *;
    try discriminate E1.
  - injection E1 as <-. now apply Hf.
  - cbn [fst snd]. injection E1 as <-. split; [reflexivity | exact E2].
Qed.

Lemma save_model_result (w : world sk) :
  match no_model sk (self w) with
  | Raise e => save_model sk w = (Raise e, w)
  | Ok _ => exists b w', save_model sk w = (Ok b, w') /\ mem_eq w' w
  end.
Proof.
  destruct (save_model_cases w) as [(e & N & E)|(b & w' & E & D & C & S & H)].
  - now rewrite N.
  - destruct (no_model sk (self w)) as [a|e] eqn:N.
    + exists b, w'. now repeat split.
    + unfold save_model, bind, get_self, lift in E. cbn [fst snd] in E.
      rewrite N in E. discriminate E.
Qed.

Lemma oblivious_after_save {A : Type} (k : M sk A) :
  oblivious sk k -> oblivious sk (bind (save_model sk) (fun _ => k)).
Proof.
  intros Hk w1 w2 H. unfold bind.
  assert (Hs : self w1 = self w2) by apply H.
  pose proof (save_model_result w1) as R1. pose proof (save_model_result w2) as R2.
  rewrite Hs in R1.
  destruct (no_model sk (self w2)) as [a|e].
  - destruct R1 as (b1 & w1' & E1 & D1 & C1 & S1 & H1).
    destruct R2 as (b2 & w2' & E2 & D2 & C2 & S2 & H2).
    rewrite E1, E2. apply Hk. destruct H as (D & C & S & Hh).
    repeat split; congruence.
  - rewrite R1, R2. now split.
Qed.

Ltac oblivious_step :=
  first
    [ apply oblivious_ret
    | apply oblivious_lift
    | apply oblivious_assign
    | apply oblivious_get_self
    | apply oblivious_get_db
    | apply oblivious_after_save
    | apply oblivious_bind; [|intros ?]
    | match goal with
      | |- oblivious _ (if ?b then _ else _) => destruct b
      | |- oblivious _ (match ?p with _ => _ end) => destruct p
      end ].

Lemma train_oblivious (min_samples : nat) : oblivious sk (train sk min_samples).
Proof. unfold train. repeat oblivious_step. Qed.

Lemma save_model_memory (w : world sk) : mem_eq (snd (save_model sk w)) w.
Proof.
  destruct (save_model_cases w) as [(e & N & E)|(b & w' & E & D & C & S & H)];
    rewrite E; cbn [snd]; [apply mem_eq_refl | now repeat split].
Qed.

(** *** What a completed run of [train] does *)

Ltac run_step :=
  cbn [fst snd db created self files writes history
       vectorizer classifier category_mapping reverse_mapping
       set_vectorizer set_classifier set_category_mapping set_reverse_mapping
       reverse_of vec_transform clf_predict].

(** C2, as amended: a run of [train] that returns a success result has
    replaced the in-memory state attribute by attribute (label mapping,
    reverse mapping, vectorizer, classifier) before [save_model] is called;
    the world it leaves is the one [save_model] leaves when started with
    the new model in memory and the model directory untouched, and the
    in-memory state stays the new one whatever the writes do. *)
Theorem train_replaces_then_saves
        (w : world sk) (min_samples : nat) (acc : Q) (n k : nat) (rep : Report sk) :
  fst (train sk min_samples w) = Ok (TrainSuccess acc n k rep) ->
  exists m r v c,
    snd (train sk min_samples w) = snd (save_model sk (before_save w m r v c))
    /\ self (snd (train sk min_samples w)) = self (before_save w m r v c)
    /\ history (snd (train sk min_samples w)) = history (before_save w m r v c).
Proof.
  assert (G : fst (train sk min_samples w) = Ok (TrainSuccess acc n k rep) ->
              exists m r v c,
                snd (train sk min_samples w) = snd (save_model sk (before_save w m r v c))).
  { unfold train, bind, get_db, get_self, lift, assign, ret.
    run_step.
    destruct (get_training_data (db w)) as [texts labels].
    destruct (_ <? 10)%nat; [discriminate|].
    destruct (_ <? 10)%nat; [discriminate|].
    run_step.
    destruct (map_outcome _ _) as [y|]; [|discriminate].
    destruct (train_test_split sk _ y) as [[[[X_train X_test] y_train] y_test]|];
      [|discriminate].
    destruct (tfidf_fit_transform sk X_train) as [[v X_train_vec]|]; [|discriminate].
    run_step.
    destruct (tfidf_transform sk v X_test) as [X_test_vec|]; [|discriminate].
    destruct (rf_fit sk X_train_vec y_train) as [c|]; [|discriminate].
    run_step.
    destruct (rf_predict sk c X_test_vec) as [y_pred|]; [|discriminate].
    destruct (accuracy_score sk y_test y_pred) as [accuracy|]; [|discriminate].
    run_step.
    destruct (classification_report sk y_test y_pred _) as [report|]; [|discriminate].
    intros _.
    match goal with
    | |- context [set_reverse_mapping (Some ?r) (set_category_mapping (Some ?m) (self w))] =>
        exists m, r, v, c
    end.
    unfold before_save. cbn [app].
    destruct (save_model sk _) as [[b|e] w']; reflexivity. }
  intros H. destruct (G H) as (m & r & v & c & E).
  exists m, r, v, c. split; [exact E|].
  rewrite E. destruct (save_model_memory (before_save w m r v c)) as (_ & _ & S & Hh).
  now split.
Qed.

(** *** Loading *)

Lemma load_model_returns (w : world sk) : exists b, fst (load_model sk w) = Ok b.
Proof.
  unfold load_model, try_catch.
  match goal with |- context [match ?m w with _ => _ end] =>
    destruct (m w) as [[b|e] w'] end; eexists; reflexivity.
Qed.

Lemma load_model_true (w : world sk) :
  fst (load_model sk w) = Ok true <-> loadable (files w).
Proof.
  unfold load_model, try_catch, bind, get_files, lift, assign, ret, loadable.
  cbn [fst snd].
  destruct (vectorizer_pkl (files w)) as [| |v];
    destruct (classifier_pkl (files w)) as [| |c];
    destruct (category_mapping_pkl (files w)) as [| |[m|]];
    cbn; (split; [intros H; try discriminate H
                 | intros (v' & c' & m' & Ev & Ec & Em);
                   try discriminate Ev; try discriminate Ec; try discriminate Em]).
  - now exists v, c, m.
  - reflexivity.
Qed.

Lemma save_model_writes (w : world sk) :
  no_model sk (self w) = Ok false ->
  fst (save_model sk w) = Ok (forallb write_ok (firstn 3 (writes w))).
Proof.
  destruct w as [d c s f ws h]. cbn [self writes]. intros Hm.
  unfold save_model, bind, get_self, lift, try_catch, ret, write_file, next_write.
  cbn [fst snd self writes files]. rewrite Hm.
  destruct ws as [|[| |] [|[| |] [|[| |] rest]]]; reflexivity.
Qed.

Lemma create_instance_ready (w : world sk) :
  directory_ready (files w) ->
  create_instance sk w = (Ok tt, with_self new_instance w).
Proof.
  unfold create_instance, bind, ensure_dir. cbn [files with_self].
  intros [H|H]; [now rewrite H|].
  destruct (dir_holds_file sk (files w)); [reflexivity|].
  now rewrite H.
Qed.

Lemma get_ml_categorizer_returns (w : world sk) :
  created w = true \/ directory_ready (files w) ->
  fst (get_ml_categorizer sk w) = Ok tt.
Proof.
  unfold get_ml_categorizer. destruct (created w); [reflexivity|].
  intros [H|H]; [discriminate H|].
  unfold bind at 1. rewrite (create_instance_ready w H).
  unfold bind, bind_global.
  destruct (load_model_returns (with_self new_instance w)) as [b E].
  destruct (load_model sk (with_self new_instance w)) as [[b'|e] w'];
    cbn [fst] in E; [reflexivity | discriminate E].
Qed.

Lemma load_model_failed (w : world sk) :
  self w = new_instance ->
  fst (load_model sk w) = Ok false ->
  category_mapping (self (snd (load_model sk w))) = None
  /\ (classifier (self (snd (load_model sk w))) = None
      \/ classifier_pkl (files w) = Stored (classifier (self (snd (load_model sk w))))).
Proof.
  intros Hs. unfold load_model, try_catch, bind, get_files, lift, assign, ret.
  cbn [fst snd].
  destruct (vectorizer_pkl (files w)) as [| |v];
    destruct (classifier_pkl (files w)) as [| |c];
    destruct (category_mapping_pkl (files w)) as [| |[m|]];
    cbn; rewrite ?Hs; cbn; intros H; try discriminate H; auto.
Qed.

Lemma predict_without_mapping (s : MLCategorizer sk) (text : string) (th : Q) :
  category_mapping s = None ->
  classifier_settled s ->
  predict sk s text th = Ok (None, 0%Q).
Proof.
  intros Hm Hs.
  destruct (no_model_cases sk s Hs) as [[Hn _]|[Hn _]].
  - unfold predict. now rewrite Hn.
  - destruct (nonempty (preprocess_text text)) eqn:Hne.
    + rewrite (predict_unfold sk s text th Hn Hne).
      destruct (top_class s text) as [[i p]|]; [|reflexivity].
      destruct (Qlt_bool p th); [reflexivity|]. now rewrite Hm.
    + unfold predict. rewrite Hn. cbn [obind]. now rewrite Hne.
Qed.

(** C3, as amended: [save_model] returns [True] exactly when the three
    writes succeed, and what [train] returns, and the in-memory state it
    leaves, do not depend on the outcome of the writes, so a failure to
    persist the artifacts is not reported; [load_model] never raises, and
    returns [True] exactly when the three files are there and can be
    unpickled, the last one to a dictionary; after a load of a new instance
    that returned [False] every prediction is [(None, 0)], as long as the
    classifier file does not hold an unfitted forest. *)
Theorem persistence_failures_are_swallowed
        (w : world sk) (ws : list write_event) (min_samples : nat)
        (text : string) (th : Q) :
  fst (train sk min_samples (with_writes ws w)) = fst (train sk min_samples w)
  /\ mem_eq (snd (train sk min_samples (with_writes ws w))) (snd (train sk min_samples w))
  /\ (no_model sk (self w) = Ok false ->
      fst (save_model sk w) = Ok (forallb write_ok (firstn 3 (writes w))))
  /\ (fst (load_model sk w) = Ok true \/ fst (load_model sk w) = Ok false)
  /\ (fst (load_model sk w) = Ok true <-> loadable (files w))
  /\ (fst (load_model sk (with_self new_instance w)) = Ok false ->
      classifier_pkl (files w) <> Stored (Some Unfitted) ->
      predict sk (self (snd (load_model sk (with_self new_instance w)))) text th
      = Ok (None, 0%Q)).
Proof.
  assert (H : mem_eq (with_writes ws w) w) by (repeat split).
  destruct (train_oblivious min_samples _ _ H) as [E1 E2].
  split; [exact E1|]. split; [exact E2|].
  split; [apply save_model_writes|].
  split; [destruct (load_model_returns w) as [[|] E]; auto|].
  split; [apply load_model_true|].
  intros Hf Hc.
  destruct (load_model_failed (with_self new_instance w) eq_refl Hf) as [Hm Hcl].
  apply predict_without_mapping; [exact Hm|].
  unfold classifier_settled. destruct Hcl as [Hcl|Hcl].
  - rewrite Hcl. discriminate.
  - intros Hu. apply Hc. cbn [with_self files] in Hcl. now rewrite Hcl, Hu.
Qed.

End WithSklearn.

Import Examples.

Lemma train_insufficient_data_witness :
  exists error, train sure 2 (parking_only sure)
                = (Ok (TrainFailure error), parking_only sure).
Proof.
  apply (train_insufficient_data sure (parking_only sure) 2).
  vm_compute. lia.
Defined.

Lemma train_replaces_then_saves_witness :
  exists m r v c,
    snd (train sure 2 (with_writes [OpenFails] (market sure earlier_model)))
    = snd (save_model sure
             (before_save (with_writes [OpenFails] (market sure earlier_model))
                          m r v c))
    /\ self (snd (train sure 2 (with_writes [OpenFails] (market sure earlier_model))))
       = self (before_save (with_writes [OpenFails] (market sure earlier_model))
                           m r v c)
    /\ history (snd (train sure 2 (with_writes [OpenFails] (market sure earlier_model))))
       = history (before_save (with_writes [OpenFails] (market sure earlier_model))
                              m r v c).
Proof.
  apply (train_replaces_then_saves sure
           (with_writes [OpenFails] (market sure earlier_model)) 2 1%Q 55 2 tt).
  vm_compute. reflexivity.
Defined.

Lemma persistence_failures_witness :
  predict sure
    (self (snd (load_model sure
                  (with_self new_instance
                     (with_files broken_dir (shop sure [] new_instance))))))
    "walmart" default_threshold
  = Ok (None, 0%Q).
Proof.
  refine (proj2 (proj2 (proj2 (proj2 (proj2
            (persistence_failures_are_swallowed sure
               (with_files broken_dir (shop sure [] new_instance)) [] 2
               "walmart" default_threshold))))) _ _).
  - vm_compute. reflexivity.
  - cbn. discriminate.
Defined.

(** C3, as stated, fails: the first write fails, nothing usable reaches the
    directory, and [train] returns a success result. *)
Lemma train_succeeds_when_save_fails :
  fst (train sure 2 (with_writes [DumpFails] (market sure new_instance)))
  = Ok (@TrainSuccess sure 1%Q 55 2 tt)
  /\ files (snd (train sure 2 (with_writes [DumpFails] (market sure new_instance))))
     = truncated_dir
  /\ fst (save_model sure
            (with_writes [DumpFails] (market sure market_model)))
     = Ok false.
Proof. repeat split; vm_compute; reflexivity. Qed.

(** C2, as stated, fails: the write of the first artifact fails, so nothing
    is serialized, and the in-memory state is the new model all the same; on
    the way the instance held the new label mapping next to the old reverse
    mapping. *)
Lemma train_swaps_before_saving :
  self (snd (train sure 2 (with_writes [OpenFails] (market sure earlier_model))))
  = market_model
  /\ files (snd (train sure 2 (with_writes [OpenFails] (market sure earlier_model))))
     = empty_dir sure
  /\ In (set_category_mapping (Some [(0, 7%Z); (1, 8%Z)]) earlier_model)
        (observed (with_writes [OpenFails] (market sure earlier_model))
           (snd (train sure 2 (with_writes [OpenFails] (market sure earlier_model)))))
  /\ ~ atomic_replacement
         (with_writes [OpenFails] (market sure earlier_model))
         (snd (train sure 2 (with_writes [OpenFails] (market sure earlier_model)))).
Proof.
  assert (E : snd (train sure 2 (with_writes [OpenFails] (market sure earlier_model)))
              = {| db := db (market sure earlier_model); created := true;
                   self := market_model; files := empty_dir sure; writes := [];
                   history :=
                     [market_model;
                      set_classifier (Some Unfitted) market_model;
                      set_reverse_mapping (Some [(7%Z, 0); (8%Z, 1)])
                        (set_category_mapping (Some [(0, 7%Z); (1, 8%Z)]) earlier_model);
                      set_vectorizer (Some Unfitted)
                        (set_reverse_mapping (Some [(7%Z, 0); (8%Z, 1)])
                           (set_category_mapping (Some [(0, 7%Z); (1, 8%Z)]) earlier_model));
                      set_reverse_mapping (Some [(7%Z, 0); (8%Z, 1)])
                        (set_category_mapping (Some [(0, 7%Z); (1, 8%Z)]) earlier_model);
                      set_category_mapping (Some [(0, 7%Z); (1, 8%Z)]) earlier_model] |}).
  { vm_compute. reflexivity. }
  rewrite E. split; [reflexivity|]. split; [reflexivity|]. split.
  - cbn. do 5 right. left. reflexivity.
  - intros [Hp _]. cbn [self files with_writes shop] in Hp.
    assert (Hne : market_model <> earlier_model) by discriminate.
    destruct (Hp Hne) as [Hv _]. discriminate Hv.
Qed.

End TrainProps.

(* ================================================================= *)
(** * Further properties *)

(** ** The shape of a normalized text *)

Module ShapeProps.
Import Text Re Normalizer NormalizerSpec NormalizerProps.

(** X1: a normalized text is a sequence of tokens of lower-case letters and
    digits separated by single spaces; it is left as it is by [strip], by
    [lower] and by splitting and joining again. *)
Theorem preprocess_text_shape (x : string) :
  (exists ws, Forall (fun v => token v = true) ws /\ preprocess_text x = join " " ws)
  /\ all_chars plain (preprocess_text x) = true
  /\ strip (preprocess_text x) = preprocess_text x
  /\ lower (preprocess_text x) = preprocess_text x
  /\ join " " (split (preprocess_text x)) = preprocess_text x.
Proof.
  destruct (preprocess_text_tokens x) as (ws & Hws & E).
  split; [now exists ws|]. rewrite E.
  split; [now apply join_tokens_plain|].
  split; [now apply strip_join|].
  split; [apply lower_plain; now apply join_tokens_plain|].
  now rewrite split_join.
Qed.

End ShapeProps.

(* ================================================================= *)
(** ** Which rule wins *)

Module PrecedenceProps.
Import Text State Categorizer RuleSpec RuleProps.

Section WithLibraries.
Variable sk : sklearn.
Variable re : regex_engine.

Lemma sorted_head (f1 f2 : list CategorizationRule) (r : CategorizationRule) :
  Forall (fun x => (rule_priority x < rule_priority r)%Z) f1 ->
  Forall (fun x => (rule_priority x <= rule_priority r)%Z) f2 ->
  exists rest, order_by_priority_desc (f1 ++ r :: f2) = r :: rest.
Proof.
  intros H1 H2. induction H1 as [|a f1 Ha _ IH].
  - exists (order_by_priority_desc f2).
    change (order_by_priority_desc ([] ++ r :: f2))
      with (insert_desc r (order_by_priority_desc f2)).
    apply insert_desc_head.
    eapply Permutation_Forall; [apply order_by_priority_desc_perm | exact H2].
  - destruct IH as [rest E].
    change (order_by_priority_desc ((a :: f1) ++ r :: f2))
      with (insert_desc a (order_by_priority_desc (f1 ++ r :: f2))).
    rewrite E. cbn [insert_desc].
    assert (Hlt : (rule_priority r <=? rule_priority a)%Z = false)
      by (apply Z.leb_gt; exact Ha).
    rewrite Hlt. now eexists.
Qed.

(** X2: as long as no regex rule makes the regex engine raise anything but
    [re.error], a rule that fires decides as soon as every other rule that
    fires has a strictly lower priority or names the same category, wherever
    the rules stand in the table. *)
Theorem highest_priority_rule_decides
        (w : world sk) (text : string) (r : CategorizationRule) :
  tame_rules re (rules (db w)) ->
  In r (rules (db w)) ->
  matches re text r = true ->
  (forall x, In x (rules (db w)) -> matches re text x = true ->
             rule_category_id x = rule_category_id r
             \/ (rule_priority x < rule_priority r)%Z) ->
  rule_based_categorize sk re w text = Ok (Some (rule_category_id r)).
Proof.
  intros Htame Hin Hr Hall. unfold rule_based_categorize.
  rewrite scan_rules_find by (now apply tame_rules_sorted).
  rewrite find_filter, filter_order_by_priority_desc.
  pose proof (order_by_priority_desc_sorted (filter (matches re text) (rules (db w))))
    as Hs.
  pose proof (order_by_priority_desc_perm (filter (matches re text) (rules (db w))))
    as Hp.
  assert (HrS : In r (order_by_priority_desc (filter (matches re text) (rules (db w))))).
  { eapply Permutation_in; [exact Hp|]. apply filter_In. now split. }
  destruct (order_by_priority_desc (filter (matches re text) (rules (db w))))
    as [|h t]; [destruct HrS|].
  cbn [hd_error option_map].
  assert (Hh : In h (filter (matches re text) (rules (db w)))).
  { eapply Permutation_in; [symmetry; exact Hp | now left]. }
  apply filter_In in Hh. destruct Hh as [Hh Hm].
  destruct (Hall h Hh Hm) as [E|Hlt]; [now rewrite E|].
  exfalso. destruct HrS as [->|Ht]; [lia|].
  inversion Hs as [|? ? _ Hf]; subst.
  rewrite Forall_forall in Hf. specialize (Hf r Ht). unfold prio_ge in Hf. lia.
Qed.

End WithLibraries.

Import Examples MoreExamples.

Lemma highest_priority_rule_decides_witness :
  rule_based_categorize sure literal_engine
    (shop sure [market_rule; walmart_rule] new_instance) "walmart market"
  = Ok (Some 7%Z).
Proof.
  apply (highest_priority_rule_decides sure literal_engine
           (shop sure [market_rule; walmart_rule] new_instance) "walmart market"
           walmart_rule).
  - intros rule [<-|[<-|[]]] Ht; discriminate Ht.
  - right. now left.
  - reflexivity.
  - intros x [<-|[<-|[]]] _; [right; reflexivity | left; reflexivity].
Defined.

End PrecedenceProps.

(* ================================================================= *)
(** ** Rule maintenance *)

Module MaintenanceProps.
Import Text State Categorizer Maintenance RuleSpec RuleProps MaintenanceSpec.

Section WithLibraries.
Variable sk : sklearn.
Variable re : regex_engine.

Lemma find_split {A : Type} (p : A -> bool) (l : list A) (e : A) :
  find p l = Some e ->
  exists l1 l2, l = (l1 ++ e :: l2)%list
                /\ (forall x, In x l1 -> p x = false) /\ p e = true.
Proof.
  induction l as [|x l IH]; cbn [find]; [discriminate|].
  destruct (p x) eqn:Ex.
  - intros [= <-]. exists [], l. repeat split; [intros y []| exact Ex].
  - intros H. destruct (IH H) as (l1 & l2 & -> & Hl1 & He).
    exists (x :: l1), l2. repeat split; [|exact He].
    intros y [<-|Hy]; [exact Ex | now apply Hl1].
Qed.

Lemma find_skip {A : Type} (p : A -> bool) (l1 l : list A) :
  (forall x, In x l1 -> p x = false) -> find p (l1 ++ l) = find p l.
Proof.
  induction l1 as [|x l1 IH]; intros H; [reflexivity|].
  cbn [app find]. rewrite (H x) by now left.
  apply IH. intros y Hy. apply H. now right.
Qed.

Lemma update_first_skip {A : Type} (p : A -> bool) (f : A -> A) (l1 l : list A) :
  (forall x, In x l1 -> p x = false) ->
  update_first p f (l1 ++ l) = (l1 ++ update_first p f l)%list.
Proof.
  induction l1 as [|x l1 IH]; intros H; [reflexivity|].
  cbn [app update_first]. rewrite (H x) by now left.
  rewrite IH; [reflexivity|]. intros y Hy. apply H. now right.
Qed.

Lemma find_none_all {A : Type} (p : A -> bool) (l : list A) :
  find p l = None -> forall x, In x l -> p x = false.
Proof.
  induction l as [|y l IH]; cbn [find]; intros H x Hx; [destruct Hx|].
  destruct (p y) eqn:Ey; [discriminate|].
  destruct Hx as [<-|Hx]; [exact Ey | now apply IH].
Qed.

Lemma same_rule_key (pattern : string) (c : Z) (r : CategorizationRule) :
  same_rule pattern c r = true -> rule_pattern r = pattern /\ rule_category_id r = c.
Proof.
  unfold same_rule. intros H. apply andb_true_iff in H. destruct H as [Hp Hc].
  split; [now apply String.eqb_eq | now apply Z.eqb_eq].
Qed.

Lemma same_rule_refl (pattern : string) (c : Z) (mt : string) (pr : Z) :
  same_rule pattern c {| rule_pattern := pattern; rule_match_type := mt;
                         rule_category_id := c; rule_priority := pr |} = true.
Proof. unfold same_rule. cbn. now rewrite String.eqb_refl, Z.eqb_refl. Qed.

(** The rule table after [add_categorization_rule]: the new or rewritten row
    [r] carries the given key, match type and priority, and stands where the
    first row with that key stood, or at the end. *)
Lemma add_categorization_rule_table
      (pattern : string) (c : Z) (mt : string) (pr : Z) (w : world sk) :
  exists l1 l2 r,
    rules (db (snd (add_categorization_rule sk pattern c mt pr w))) = (l1 ++ r :: l2)%list
    /\ fst (add_categorization_rule sk pattern c mt pr w) = Ok r
    /\ r = {| rule_pattern := pattern; rule_match_type := mt;
              rule_category_id := c; rule_priority := pr |}
    /\ (forall x, In x l1 -> same_rule pattern c x = false)
    /\ (forall x, In x (l1 ++ l2) -> In x (rules (db w))).
Proof.
  unfold add_categorization_rule.
  destruct (find (same_rule pattern c) (rules (db w))) as [e|] eqn:F.
  - destruct (find_split _ _ _ F) as (l1 & l2 & E & Hl1 & He).
    destruct (same_rule_key _ _ _ He) as [Kp Kc].
    exists l1, l2, (retarget mt pr e). cbn [fst snd db rules with_db with_rule_table].
    rewrite E, update_first_skip by exact Hl1. cbn [update_first]. rewrite He.
    split; [reflexivity|]. split; [reflexivity|].
    split; [unfold retarget; now rewrite Kp, Kc|].
    split; [exact Hl1|].
    intros x Hx. apply in_app_or in Hx. apply in_or_app.
    destruct Hx as [Hx|Hx]; [now left | right; now right].
  - exists (rules (db w)), [], {| rule_pattern := pattern; rule_match_type := mt;
                                  rule_category_id := c; rule_priority := pr |}.
    cbn [fst snd db rules with_db with_rule_table].
    split; [reflexivity|]. split; [reflexivity|]. split; [reflexivity|].
    split; [now apply find_none_all|].
    rewrite app_nil_r. now intros x Hx.
Qed.

(** X3: after a 'contains' rule is added with a priority above every
    priority of the table, every text that contains the lower-cased pattern
    is given the category of the rule. *)
Theorem added_rule_decides
        (pattern : string) (c : Z) (pr : Z) (w : world sk) (text : string) :
  (forall x, In x (rules (db w)) -> (rule_priority x < pr)%Z) ->
  contains (lower pattern) text = true ->
  rule_based_categorize sk re
    (snd (add_categorization_rule sk pattern c "contains" pr w)) text
  = Ok (Some c).
Proof.
  intros Hpr Hin.
  destruct (add_categorization_rule_table pattern c "contains" pr w)
    as (l1 & l2 & r & E & _ & Er & _ & Hold).
  assert (Hm : matches re text r = true).
  { subst r. unfold matches, rule_match. cbn [rule_match_type rule_pattern].
    change (String.eqb "contains" "exact") with false.
    change (String.eqb "contains" "contains") with true.
    cbn iota. now rewrite Hin. }
  unfold rule_based_categorize. rewrite E.
  assert (Hlow : forall l, (forall x, In x l -> In x (l1 ++ l2)) ->
                           Forall (fun x => (rule_priority x < rule_priority r)%Z) l).
  { intros l Hl. apply Forall_forall. intros x Hx.
    subst r. cbn. apply Hpr, Hold, Hl, Hx. }
  destruct (PrecedenceProps.sorted_head l1 l2 r) as [rest Es].
  - apply Hlow. intros x Hx. apply in_or_app. now left.
  - eapply Forall_impl; [|apply (Hlow l2)].
    + cbn. intros x Hx. lia.
    + intros x Hx. apply in_or_app. now right.
  - rewrite Es. cbn [scan_rules]. unfold matches in Hm.
    destruct (rule_match re r text) as [[|]|e]; try discriminate Hm.
    now subst r.
Qed.

(** X4: [add_categorization_rule] is an upsert on the key (pattern,
    category): it changes nothing but the rule table, which keeps its length
    when a row with the key exists and gains one row otherwise, and calling
    it again with the same arguments changes nothing more. *)
Theorem add_categorization_rule_upsert
        (pattern : string) (c : Z) (mt : string) (pr : Z) (w : world sk) :
  categories (db (snd (add_categorization_rule sk pattern c mt pr w))) = categories (db w)
  /\ transactions (db (snd (add_categorization_rule sk pattern c mt pr w)))
     = transactions (db w)
  /\ self (snd (add_categorization_rule sk pattern c mt pr w)) = self w
  /\ files (snd (add_categorization_rule sk pattern c mt pr w)) = files w
  /\ List.length (rules (db (snd (add_categorization_rule sk pattern c mt pr w))))
     = (if existsb (same_rule pattern c) (rules (db w))
        then List.length (rules (db w))
        else S (List.length (rules (db w))))
  /\ add_categorization_rule sk pattern c mt pr
       (snd (add_categorization_rule sk pattern c mt pr w))
     = add_categorization_rule sk pattern c mt pr w.
Proof.
  unfold add_categorization_rule at 1 2 3 4 5.
  destruct (find (same_rule pattern c) (rules (db w))) as [e|] eqn:F;
    cbn [fst snd db rules categories transactions self files with_db with_rule_table].
  - destruct (find_split _ _ _ F) as (l1 & l2 & E & Hl1 & He).
    repeat (split; [reflexivity|]). split.
    + assert (Hex : existsb (same_rule pattern c) (rules (db w)) = true).
      { apply existsb_exists. exists e. split; [|exact He].
        rewrite E. apply in_or_app. right. now left. }
      rewrite Hex, E, update_first_skip by exact Hl1.
      cbn [update_first]. rewrite He. rewrite !length_app. reflexivity.
    + unfold add_categorization_rule. rewrite F.
      cbn [fst snd db rules with_db with_rule_table].
      rewrite E, update_first_skip by exact Hl1. cbn [update_first]. rewrite He.
      assert (He' : same_rule pattern c (retarget mt pr e) = true) by exact He.
      rewrite find_skip by exact Hl1. cbn [find]. rewrite He'.
      rewrite update_first_skip by exact Hl1. cbn [update_first]. rewrite He'.
      reflexivity.
  - repeat (split; [reflexivity|]). split.
    + assert (Hex : existsb (same_rule pattern c) (rules (db w)) = false).
      { apply not_true_is_false. intros H. apply existsb_exists in H.
        destruct H as (x & Hx & Hp). rewrite (find_none_all _ _ F x Hx) in Hp.
        discriminate Hp. }
      rewrite Hex, length_app. cbn [List.length]. lia.
    + unfold add_categorization_rule. rewrite F.
      cbn [fst snd db rules with_db with_rule_table].
      rewrite find_skip by (now apply find_none_all). cbn [find].
      rewrite same_rule_refl.
      rewrite update_first_skip by (now apply find_none_all). cbn [update_first].
      rewrite same_rule_refl. reflexivity.
Qed.

(** *** Re-categorization *)

Lemma id_eqb_refl (a : option Z) : id_eqb a a = true.
Proof. destruct a; cbn; [apply Z.eqb_refl | reflexivity]. Qed.

Lemma decision_value (w : world sk) (t : Transaction) :
  tame_rules re (rules (db w)) ->
  exists c, decision re w t = Ok c
            /\ forall ts t',
                txn_merchant t' = txn_merchant t ->
                txn_description t' = txn_description t ->
                decision re (with_db sk (with_transactions ts (db w)) w) t' = Ok c.
Proof.
  intros Ht. unfold decision.
  rewrite (OrchestratorProps.categorize_transaction_steps sk re w _ _ Ht).
  eexists. split; [reflexivity|].
  intros ts t' Em Ed.
  rewrite (OrchestratorProps.categorize_transaction_reads sk re w
             (with_db sk (with_transactions ts (db w)) w)) by reflexivity.
  rewrite Em, Ed. now apply OrchestratorProps.categorize_transaction_steps.
Qed.

Lemma recategorize_loop_map (w : world sk) (cid : option Z) (todo : list Transaction) :
  tame_rules re (rules (db w)) ->
  forall done total updated,
    recategorize_loop sk re w (to_recategorize (db w) cid) done todo total updated
    = Ok ((done ++ map (recategorized re w cid) todo)%list,
          (total + List.length (filter (to_recategorize (db w) cid) todo),
           updated + List.length (filter (rewritten re w cid) todo))).
Proof.
  intros Ht.
  induction todo as [|t todo IH]; intros done total updated.
  - cbn. now rewrite app_nil_r, !Nat.add_0_r.
  - cbn [recategorize_loop map filter]. unfold recategorized, rewritten.
    destruct (decision_value w t Ht) as (c & Ec & Hc).
    destruct (to_recategorize (db w) cid t) eqn:Es; cbn [andb].
    + fold (decision re (with_db sk (with_transactions (done ++ t :: todo) (db w)) w) t).
      rewrite (Hc _ t eq_refl eq_refl), Ec.
      destruct (truthy_id c && negb (id_eqb c (txn_category_id t))).
      * rewrite IH, <- app_assoc. cbn [List.length app].
        now rewrite !Nat.add_succ_r.
      * rewrite IH, <- app_assoc. cbn [List.length app].
        now rewrite !Nat.add_succ_r.
    + rewrite Ec, IH, <- app_assoc. reflexivity.
Qed.

Lemma recategorize_run (w : world sk) (cid : option Z) :
  tame_rules re (rules (db w)) ->
  recategorize_transactions sk re cid w
  = (Ok (List.length (filter (to_recategorize (db w) cid) (transactions (db w))),
         List.length (filter (rewritten re w cid) (transactions (db w)))),
     with_db sk (with_transactions (map (recategorized re w cid) (transactions (db w)))
                                   (db w)) w).
Proof.
  intros Ht. unfold recategorize_transactions. now rewrite recategorize_loop_map.
Qed.

Lemma filter_length_sub {A : Type} (p q : A -> bool) (l : list A) :
  (forall x, q x = true -> p x = true) ->
  List.length (filter q l) <= List.length (filter p l).
Proof.
  intros H. induction l as [|x l IH]; [constructor|].
  cbn [filter]. destruct (q x) eqn:Eq.
  - rewrite (H x Eq). cbn [List.length]. lia.
  - destruct (p x); cbn [List.length]; lia.
Qed.

(** X5: as long as no regex rule makes the regex engine raise anything but
    [re.error], [recategorize_transactions] returns; it visits the rows of
    the requested category (or, without one, the rows without category or in
    'Uncategorized'), counts them, and counts as updated exactly the rows it
    rewrites; a rewritten row gets the category [categorize_transaction]
    answers, which is never empty; every other row, the order of the table,
    the rules, the categories and the model are as before. *)
Theorem recategorize_transactions_effect (w : world sk) (cid : option Z) :
  tame_rules re (rules (db w)) ->
  fst (recategorize_transactions sk re cid w)
  = Ok (List.length (filter (to_recategorize (db w) cid) (transactions (db w))),
        List.length (filter (rewritten re w cid) (transactions (db w))))
  /\ List.length (filter (rewritten re w cid) (transactions (db w)))
     <= List.length (filter (to_recategorize (db w) cid) (transactions (db w)))
  /\ transactions (db (snd (recategorize_transactions sk re cid w)))
     = map (recategorized re w cid) (transactions (db w))
  /\ rules (db (snd (recategorize_transactions sk re cid w))) = rules (db w)
  /\ categories (db (snd (recategorize_transactions sk re cid w))) = categories (db w)
  /\ self (snd (recategorize_transactions sk re cid w)) = self w
  /\ (forall t,
         same_row_but_category t (recategorized re w cid t)
         /\ (rewritten re w cid t = false -> recategorized re w cid t = t)
         /\ (to_recategorize (db w) cid t = false -> recategorized re w cid t = t)
         /\ (rewritten re w cid t = true ->
             truthy_id (txn_category_id (recategorized re w cid t)) = true
             /\ txn_category_id (recategorized re w cid t) <> txn_category_id t
             /\ decision re w t = Ok (txn_category_id (recategorized re w cid t)))).
Proof.
  intros Htame.
  rewrite (recategorize_run w cid Htame).
  cbn [fst snd db with_db with_transactions transactions rules categories self].
  split; [reflexivity|].
  split; [apply filter_length_sub; unfold rewritten; intros x Hx;
          now apply andb_true_iff in Hx|].
  repeat (split; [reflexivity|]).
  intros t. unfold recategorized.
  destruct (decision_value w t Htame) as (c & Ec & _). rewrite Ec.
  destruct (rewritten re w cid t) eqn:Er.
  - split; [now repeat split|]. split; [discriminate|]. split.
    + intros Hs. unfold rewritten in Er. rewrite Hs in Er. discriminate Er.
    + intros _. unfold rewritten in Er. rewrite Ec in Er.
      apply andb_true_iff in Er. destruct Er as [_ Er].
      apply andb_true_iff in Er. destruct Er as [Ht Hn].
      cbn [set_txn_category txn_category_id].
      split; [exact Ht|]. split; [|reflexivity].
      intros E. rewrite E, id_eqb_refl in Hn. discriminate Hn.
  - split; [now repeat split|]. split; [reflexivity|].
    split; [reflexivity | discriminate].
Qed.

(** X6: as long as no regex rule makes the regex engine raise anything but
    [re.error], running [recategorize_transactions] a second time with the
    same argument updates no row and leaves the world as the first run left
    it. *)
Theorem recategorize_transactions_settles (w : world sk) (cid : option Z) :
  tame_rules re (rules (db w)) ->
  exists total,
    recategorize_transactions sk re cid (snd (recategorize_transactions sk re cid w))
    = (Ok (total, 0), snd (recategorize_transactions sk re cid w)).
Proof.
  intros Htame.
  rewrite (recategorize_run w cid Htame). cbn [snd].
  set (w' := with_db sk (with_transactions
                           (map (recategorized re w cid) (transactions (db w))) (db w)) w).
  rewrite (recategorize_run w' cid Htame).
  assert (Hrow : forall t, rewritten re w' cid (recategorized re w cid t) = false).
  { intros t. unfold recategorized.
    destruct (decision_value w t Htame) as (c & Ec & Hc). rewrite Ec.
    destruct (rewritten re w cid t) eqn:Er.
    - unfold rewritten. unfold w' at 2.
      rewrite (Hc _ (set_txn_category c t) eq_refl eq_refl).
      cbn [set_txn_category txn_category_id].
      rewrite id_eqb_refl. cbn [negb]. now rewrite !andb_false_r.
    - unfold rewritten in *. unfold w' at 2.
      rewrite (Hc _ t eq_refl eq_refl). rewrite Ec in Er. exact Er. }
  assert (Hnone : forall l, filter (rewritten re w' cid)
                                   (map (recategorized re w cid) l) = []).
  { induction l as [|t ts IH]; [reflexivity|].
    cbn [map filter]. now rewrite Hrow. }
  assert (Hsame : forall l, map (recategorized re w' cid)
                                (map (recategorized re w cid) l)
                            = map (recategorized re w cid) l).
  { induction l as [|t ts IH]; [reflexivity|].
    cbn [map]. rewrite IH. f_equal.
    unfold recategorized at 1. rewrite Hrow.
    now destruct (decision re w' (recategorized re w cid t)). }
  change (transactions (db w')) with (map (recategorized re w cid) (transactions (db w))).
  rewrite Hnone, Hsame. eexists. reflexivity.
Qed.

(** X18: [get_categorization_rules] lists every rule of the table exactly
    once, in non-increasing priority; after [add_categorization_rule] the
    list holds the rule the call returned, with the given pattern, category,
    match type and priority. *)
Theorem get_categorization_rules_after_add
        (pattern : string) (c : Z) (mt : string) (pr : Z) (w : world sk) :
  Permutation (rules (db w)) (get_categorization_rules sk w)
  /\ StronglySorted prio_ge (get_categorization_rules sk w)
  /\ fst (add_categorization_rule sk pattern c mt pr w)
     = Ok {| rule_pattern := pattern; rule_match_type := mt;
             rule_category_id := c; rule_priority := pr |}
  /\ In {| rule_pattern := pattern; rule_match_type := mt;
           rule_category_id := c; rule_priority := pr |}
        (get_categorization_rules sk (snd (add_categorization_rule sk pattern c mt pr w))).
Proof.
  unfold get_categorization_rules.
  split; [apply order_by_priority_desc_perm|].
  split; [apply order_by_priority_desc_sorted|].
  destruct (add_categorization_rule_table pattern c mt pr w)
    as (l1 & l2 & r & E & Er & Ev & _).
  rewrite <- Ev. split; [exact Er|].
  eapply Permutation_in; [apply order_by_priority_desc_perm|].
  rewrite E. apply in_or_app. right. now left.
Qed.

End WithLibraries.

Import Examples MoreExamples.

Lemma ledger_rules_tame : tame_rules literal_engine (rules (db ledger)).
Proof.
  intros rule [<-|[<-|[]]] Ht e.
  - cbn. intros [= <-]. reflexivity.
  - discriminate Ht.
Qed.

Lemma recategorize_transactions_effect_witness :
  fst (recategorize_transactions sure literal_engine None ledger) = Ok (2, 2)
  /\ map txn_category_id
         (transactions (db (snd (recategorize_transactions sure literal_engine None ledger))))
     = [Some 7%Z; Some 1%Z; Some 7%Z].
Proof.
  destruct (recategorize_transactions_effect sure literal_engine ledger None
              ledger_rules_tame) as (E & _ & T & _).
  rewrite E, T. split; vm_compute; reflexivity.
Defined.

Lemma recategorize_transactions_settles_witness :
  exists total,
    recategorize_transactions sure literal_engine None
      (snd (recategorize_transactions sure literal_engine None ledger))
    = (Ok (total, 0), snd (recategorize_transactions sure literal_engine None ledger)).
Proof.
  exact (recategorize_transactions_settles sure literal_engine ledger None
           ledger_rules_tame).
Defined.

Lemma added_rule_decides_witness :
  rule_based_categorize sure literal_engine
    (snd (add_categorization_rule sure "Costco" 7 "contains" 20
            (shop sure [market_rule; walmart_rule] new_instance)))
    "costco market"
  = Ok (Some 7%Z).
Proof.
  apply (added_rule_decides sure literal_engine "Costco" 7 20
           (shop sure [market_rule; walmart_rule] new_instance) "costco market");
    [|reflexivity].
  intros x [<-|[<-|[]]]; reflexivity.
Defined.

End MaintenanceProps.

(* ================================================================= *)
(** ** Saving and loading *)

Module PersistenceProps.
Import Text Normalizer State ML Api PredictSpec PredictProps TrainSpec TrainProps
       PersistenceSpec.

Section WithSklearn.
Variable sk : sklearn.

Lemma write_file_ok {A : Type} put (obj : A) (w : world sk) :
  all_writes_succeed w ->
  write_file sk put obj w
  = (Ok tt, {| db := db w; created := created w; self := self w;
               files := put (Stored obj) (files w);
               writes := tl (writes w); history := history w |})
  /\ all_writes_succeed (snd (write_file sk put obj w)).
Proof.
  intros H. unfold write_file, next_write.
  destruct (writes w) as [|ev rest] eqn:E.
  - split; [reflexivity|]. intros ev []. 
  - assert (ev = WriteOk) as -> by (apply H; rewrite E; now left).
    split; [reflexivity|]. intros ev Hev. apply H. rewrite E. now right.
Qed.

Lemma save_model_ok (w : world sk) :
  no_model sk (self w) = Ok false ->
  all_writes_succeed w ->
  fst (save_model sk w) = Ok true
  /\ persisted (self w) (files (snd (save_model sk w)))
  /\ db (snd (save_model sk w)) = db w
  /\ self (snd (save_model sk w)) = self w
  /\ all_writes_succeed (snd (save_model sk w)).
Proof.
  intros Hm Hw. unfold save_model, bind, get_self, lift, try_catch, ret.
  cbn [fst snd]. rewrite Hm.
  destruct (write_file_ok (put_vectorizer_pkl sk) (vectorizer (self w)) w Hw) as [E1 H1].
  rewrite E1 in *. cbn [snd] in H1.
  destruct (write_file_ok (put_classifier_pkl sk) (classifier (self w)) _ H1) as [E2 H2].
  rewrite E2 in *. cbn [snd] in H2.
  destruct (write_file_ok (put_category_mapping_pkl sk) (category_mapping (self w)) _ H2)
    as [E3 H3].
  rewrite E3 in *. cbn [snd] in H3.
  cbn [fst snd files db self]. repeat split; try reflexivity. exact H3.
Qed.

Lemma load_model_ok (w : world sk) v c m :
  vectorizer_pkl (files w) = Stored v ->
  classifier_pkl (files w) = Stored c ->
  category_mapping_pkl (files w) = Stored (Some m) ->
  fst (load_model sk w) = Ok true
  /\ self (snd (load_model sk w))
     = {| vectorizer := v; classifier := c; category_mapping := Some m;
          reverse_mapping :=
            Some (Dict.of_items Z.eqb (map (fun p => (snd p, fst p)) (Dict.items m))) |}.
Proof.
  intros Ev Ec Em.
  unfold load_model, try_catch, bind, get_files, lift, assign, ret.
  cbn [fst snd]. rewrite Ev, Ec, Em. cbn. split; reflexivity.
Qed.

Lemma stored_ready (d : model_dir sk) v :
  vectorizer_pkl d = Stored v -> directory_ready d.
Proof. intros E. left. unfold dir_holds_file. now rewrite E. Qed.

(** When the directory cannot be made, [__init__] raises and the global
    stays unbound. *)
Lemma get_ml_categorizer_fails (w : world sk) (e : exn) :
  created w = false ->
  dir_holds_file sk (files w) = false ->
  makedirs (files w) = Raise e ->
  get_ml_categorizer sk w = (Raise e, with_self new_instance w).
Proof.
  intros Hc Hf Hm. unfold get_ml_categorizer. rewrite Hc.
  unfold create_instance, bind, ensure_dir. cbn [files with_self].
  now rewrite Hf, Hm.
Qed.

Lemma get_ml_categorizer_loads (w : world sk) :
  created w = false ->
  directory_ready (files w) ->
  self (snd (get_ml_categorizer sk w))
  = self (snd (load_model sk (with_self new_instance w)))
  /\ created (snd (get_ml_categorizer sk w)) = true.
Proof.
  intros Hc Hd.
  assert (G : get_ml_categorizer sk w
              = bind (load_model sk) (fun _ => bind_global sk) (with_self new_instance w)).
  { unfold get_ml_categorizer. rewrite Hc.
    unfold bind at 1. now rewrite (create_instance_ready sk w Hd). }
  rewrite G. unfold bind, bind_global.
  destruct (load_model_returns sk (with_self new_instance w)) as [b E].
  destruct (load_model sk (with_self new_instance w)) as [[b'|e] w'];
    cbn [fst] in E; [|discriminate E].
  cbn. now split.
Qed.

Lemma predict_same_model (s s' : MLCategorizer sk) (text : string) (th : Q) :
  vectorizer s' = vectorizer s ->
  classifier s' = classifier s ->
  category_mapping s' = category_mapping s ->
  predict sk s' text th = predict sk s text th.
Proof.
  intros Ev Ec Em. unfold predict, no_model. now rewrite Ev, Ec, Em.
Qed.

(** X7: when a model is in memory, its label mapping is a dictionary and
    the writes succeed, [save_model] returns [True] and stores the three
    attributes; a new process on that directory loads the same vectorizer,
    classifier and label mapping, rebuilds the reverse mapping from the label
    mapping, and predicts as the saving process does. *)
Theorem save_then_load (w : world sk) (m : mapping) :
  no_model sk (self w) = Ok false ->
  category_mapping (self w) = Some m ->
  all_writes_succeed w ->
  fst (save_model sk w) = Ok true
  /\ persisted (self w) (files (snd (save_model sk w)))
  /\ created (snd (get_ml_categorizer sk (restarted (snd (save_model sk w))))) = true
  /\ self (snd (get_ml_categorizer sk (restarted (snd (save_model sk w)))))
     = {| vectorizer := vectorizer (self w); classifier := classifier (self w);
          category_mapping := Some m;
          reverse_mapping :=
            Some (Dict.of_items Z.eqb (map (fun p => (snd p, fst p)) (Dict.items m))) |}
  /\ forall text th,
       predict sk (self (snd (get_ml_categorizer sk (restarted (snd (save_model sk w))))))
               text th
       = predict sk (self w) text th.
Proof.
  intros Hm Em Hw.
  destruct (save_model_ok w Hm Hw) as (Eb & (Pv & Pc & Pm) & _ & _ & _).
  set (w1 := snd (save_model sk w)) in *.
  destruct (get_ml_categorizer_loads (restarted w1) eq_refl (stored_ready _ _ Pv))
    as [Es Ec].
  rewrite Em in Pm.
  destruct (load_model_ok (with_self new_instance (restarted w1)) _ _ m Pv Pc Pm)
    as [_ El].
  rewrite El in Es.
  split; [exact Eb|]. split; [repeat split; [exact Pv | exact Pc | now rewrite Em]|].
  split; [exact Ec|]. split; [exact Es|].
  intros text th. apply predict_same_model; rewrite Es; cbn; congruence.
Qed.

(** X8: [load_model] returns [True] exactly when the three files are there
    and can be unpickled, the last one to a dictionary, and the instance then
    holds what the files hold; when one of the files is not there it returns
    [False] and the instance is as before. *)
Theorem load_model_all_or_nothing (w : world sk) :
  (fst (load_model sk w) = Ok true <-> loadable (files w))
  /\ (forall v c m,
         vectorizer_pkl (files w) = Stored v ->
         classifier_pkl (files w) = Stored c ->
         category_mapping_pkl (files w) = Stored (Some m) ->
         vectorizer (self (snd (load_model sk w))) = v
         /\ classifier (self (snd (load_model sk w))) = c
         /\ category_mapping (self (snd (load_model sk w))) = Some m)
  /\ (incomplete (files w) -> load_model sk w = (Ok false, w)).
Proof.
  split; [|split].
  - split.
    + unfold load_model, try_catch, bind, get_files, lift, assign, ret, loadable.
      cbn [fst snd].
      destruct (vectorizer_pkl (files w)) as [| |v];
        destruct (classifier_pkl (files w)) as [| |c];
        destruct (category_mapping_pkl (files w)) as [| |[m|]];
        cbn; intros H; try discriminate H.
      now exists v, c, m.
    + intros (v & c & m & Ev & Ec & Em). now apply (load_model_ok w v c m).
  - intros v c m Ev Ec Em.
    destruct (load_model_ok w v c m Ev Ec Em) as [_ E]. rewrite E. now cbn.
  - unfold load_model, try_catch, bind, get_files, lift, assign, ret, incomplete.
    intros [H|[H|H]]; rewrite H;
      destruct (vectorizer_pkl (files w)), (classifier_pkl (files w)),
               (category_mapping_pkl (files w)); try discriminate H; reflexivity.
Qed.

(** X9: when the mapping file cannot be unpickled, or holds no dictionary,
    while the two other files are in order, a new process is left with a
    classifier and no label mapping, and [model_status] raises
    [AttributeError]. *)
Theorem model_status_after_partial_load (w : world sk) v c :
  created w = false ->
  vectorizer_pkl (files w) = Stored v ->
  classifier_pkl (files w) = Stored (Some c) ->
  category_mapping_pkl (files w) = Unreadable
  \/ category_mapping_pkl (files w) = Stored None ->
  fst (model_status sk w) = Raise AttributeError
  /\ classifier (self (snd (model_status sk w))) = Some c
  /\ category_mapping (self (snd (model_status sk w))) = None.
Proof.
  intros Hc Ev Ec Em.
  assert (L : self (snd (load_model sk (with_self new_instance w)))
              = {| vectorizer := v; classifier := Some c;
                   category_mapping := None; reverse_mapping := None |}).
  { unfold load_model, try_catch, bind, get_files, lift, assign, ret.
    cbn [fst snd files with_self]. rewrite Ev, Ec.
    destruct Em as [Em|Em]; rewrite Em; reflexivity. }
  destruct (get_ml_categorizer_loads w Hc (stored_ready _ _ Ev)) as [Es _].
  pose proof (get_ml_categorizer_returns sk w (or_intror (stored_ready _ _ Ev))) as Er.
  destruct (get_ml_categorizer sk w) as [[[]|e] w0] eqn:G; cbn [fst snd] in Es, Er;
    [|discriminate Er].
  assert (R : model_status sk w = (Raise AttributeError, w0)).
  { unfold model_status, bind. rewrite G. unfold get_self, lift, ret.
    cbn [fst snd]. now rewrite Es, L. }
  rewrite R. cbn [fst snd]. rewrite Es, L. now repeat split.
Qed.

(** X10: [get_ml_categorizer] raises only when the global instance is not
    bound, none of the three files is there and the directory cannot be
    made: it raises what [os.makedirs] raises and leaves the global unbound,
    so that the next call fails in the same way.  Otherwise it returns with
    the global bound, to what [load_model] makes of a new instance when it
    was not bound before; once the global is bound, a later call returns the
    instance as it is, whatever the model directory has become. *)
Theorem get_ml_categorizer_loads_once (w : world sk) (d : model_dir sk) :
  (forall e,
      created w = false ->
      dir_holds_file sk (files w) = false ->
      makedirs (files w) = Raise e ->
      fst (get_ml_categorizer sk w) = Raise e
      /\ created (snd (get_ml_categorizer sk w)) = false
      /\ files (snd (get_ml_categorizer sk w)) = files w
      /\ fst (get_ml_categorizer sk (snd (get_ml_categorizer sk w))) = Raise e)
  /\ (created w = true \/ directory_ready (files w) ->
      fst (get_ml_categorizer sk w) = Ok tt
      /\ created (snd (get_ml_categorizer sk w)) = true
      /\ (created w = false ->
          self (snd (get_ml_categorizer sk w))
          = self (snd (load_model sk (with_self new_instance w))))
      /\ get_ml_categorizer sk (with_dir d (snd (get_ml_categorizer sk w)))
         = (Ok tt, with_dir d (snd (get_ml_categorizer sk w))))
  /\ (fst (get_ml_categorizer sk w) = Ok tt
      \/ exists e, makedirs (files w) = Raise e
                   /\ fst (get_ml_categorizer sk w) = Raise e).
Proof.
  split; [|split].
  - intros e Hc Hf Hm. rewrite (get_ml_categorizer_fails w e Hc Hf Hm).
    cbn [fst snd created files with_self].
    repeat split; try assumption.
    now rewrite (get_ml_categorizer_fails (with_self new_instance w) e Hc Hf Hm).
  - intros Hr.
    assert (Hc : created (snd (get_ml_categorizer sk w)) = true).
    { destruct (created w) eqn:E.
      - unfold get_ml_categorizer. now rewrite E.
      - destruct Hr as [Hr|Hr]; [discriminate Hr|].
        now apply get_ml_categorizer_loads. }
    split; [now apply get_ml_categorizer_returns|]. split; [exact Hc|]. split.
    + intros E. destruct Hr as [Hr|Hr]; [congruence|].
      now apply get_ml_categorizer_loads.
    + unfold get_ml_categorizer at 1. cbn [created with_dir]. now rewrite Hc.
  - destruct (created w) eqn:Hc.
    { left. apply get_ml_categorizer_returns. now left. }
    destruct (dir_holds_file sk (files w)) eqn:Hf.
    { left. apply get_ml_categorizer_returns. right. now left. }
    destruct (makedirs (files w)) as [[]|e] eqn:Hm.
    { left. apply get_ml_categorizer_returns. right. now right. }
    right. exists e. split; [reflexivity|].
    now rewrite (get_ml_categorizer_fails w e Hc Hf Hm).
Qed.

End WithSklearn.

Import Examples MoreExamples.

Lemma save_then_load_witness :
  fst (save_model sure (shop sure [] (trained sure tt tt))) = Ok true
  /\ forall text th,
       predict sure
         (self (snd (get_ml_categorizer sure
                       (restarted (snd (save_model sure (shop sure [] (trained sure tt tt)))))))) 
         text th
       = predict sure (trained sure tt tt) text th.
Proof.
  destruct (save_then_load sure (shop sure [] (trained sure tt tt)) [(0, 7%Z)])
    as (E & _ & _ & _ & P); try reflexivity.
  - intros ev [].
  - split; [exact E | exact P].
Defined.

Lemma get_ml_categorizer_loads_once_witness :
  fst (get_ml_categorizer sure
         (restarted (with_files locked_dir (shop sure [] new_instance))))
  = Raise OSError
  /\ created (snd (get_ml_categorizer sure
                     (restarted (with_files locked_dir (shop sure [] new_instance)))))
     = false.
Proof.
  destruct (proj1 (get_ml_categorizer_loads_once sure
                     (restarted (with_files locked_dir (shop sure [] new_instance)))
                     locked_dir)
              OSError eq_refl eq_refl eq_refl) as (E & C & _).
  split; [exact E | exact C].
Defined.

Lemma model_status_after_partial_load_witness :
  fst (model_status sure (restarted (with_files broken_dir (shop sure [] new_instance))))
  = Raise AttributeError.
Proof.
  refine (proj1 (model_status_after_partial_load sure
                   (restarted (with_files broken_dir (shop sure [] new_instance)))
                   (Some (Fitted tt)) (Fitted tt) eq_refl eq_refl eq_refl _)).
  left. reflexivity.
Defined.

End PersistenceProps.

(* ================================================================= *)
(** ** Training *)

Module TrainingProps.
Import Text Normalizer NormalizerSpec State ML Api PredictSpec PredictProps
       TrainSpec TrainProps PersistenceSpec TrainingSpec.

(** *** Dictionaries built from distinct keys *)

Section DictFacts.
Context {K V : Type} (eqb : K -> K -> bool).
Hypothesis eqb_eq : forall a b, eqb a b = true <-> a = b.

Lemma set_fresh (d : list (K * V)) (k : K) (v : V) :
  ~ In k (map fst d) -> Dict.set eqb d k v = (d ++ [(k, v)])%list.
Proof.
  induction d as [|[k' v'] d IH]; intros H; [reflexivity|].
  cbn [Dict.set app]. destruct (eqb k' k) eqn:E.
  - apply eqb_eq in E. exfalso. apply H. now left.
  - rewrite IH; [reflexivity|]. intros Hin. apply H. now right.
Qed.

Lemma fold_set_distinct (kvs d : list (K * V)) :
  NoDup (map fst (d ++ kvs)) ->
  fold_left (fun d kv => Dict.set eqb d (fst kv) (snd kv)) kvs d = (d ++ kvs)%list.
Proof.
  revert d. induction kvs as [|[k v] kvs IH]; intros d H.
  - now rewrite app_nil_r.
  - cbn [fold_left fst snd]. rewrite set_fresh.
    + rewrite IH; rewrite <- app_assoc; [reflexivity | exact H].
    + rewrite map_app in H. cbn [map fst] in H.
      apply NoDup_remove_2 in H. intros Hin. apply H. apply in_or_app. now left.
Qed.

Lemma of_items_distinct (kvs : list (K * V)) :
  NoDup (map fst kvs) -> Dict.of_items eqb kvs = kvs.
Proof. intros H. unfold Dict.of_items. now rewrite fold_set_distinct. Qed.

Lemma get_of_key (kvs : list (K * V)) (k : K) :
  In k (map fst kvs) -> exists v, Dict.get eqb kvs k = Some v /\ In (k, v) kvs.
Proof.
  induction kvs as [|[k' v'] kvs IH]; intros H; [destruct H|].
  cbn [Dict.get]. destruct (eqb k' k) eqn:E.
  - apply eqb_eq in E. subst k'. exists v'. split; [reflexivity | now left].
  - destruct H as [H|H]; [cbn in H; subst k'; 
                          assert (eqb k k = true) by (now apply eqb_eq); congruence|].
    destruct (IH H) as (v & Ev & Hv). exists v. split; [exact Ev | now right].
Qed.

End DictFacts.

Lemma combine_fst {A B : Type} (l : list A) (l' : list B) :
  List.length l = List.length l' -> map fst (combine l l') = l.
Proof.
  revert l'. induction l as [|a l IH]; intros [|b l'] H; try discriminate H;
    [reflexivity|]. cbn. f_equal. apply IH. now injection H.
Qed.

Lemma combine_snd {A B : Type} (l : list A) (l' : list B) :
  List.length l = List.length l' -> map snd (combine l l') = l'.
Proof.
  revert l'. induction l as [|a l IH]; intros [|b l'] H; try discriminate H;
    [reflexivity|]. cbn. f_equal. apply IH. now injection H.
Qed.

Lemma enumerate_keys {A : Type} (l : list A) :
  map fst (enumerate l) = seq 0 (List.length l).
Proof. unfold enumerate. apply combine_fst. now rewrite length_seq. Qed.

Lemma enumerate_values {A : Type} (l : list A) : map snd (enumerate l) = l.
Proof. unfold enumerate. apply combine_snd. now rewrite length_seq. Qed.

Lemma of_items_enumerate {A : Type} (l : list A) :
  Dict.of_items Nat.eqb (enumerate l) = enumerate l.
Proof.
  apply of_items_distinct; [apply Nat.eqb_eq|].
  rewrite enumerate_keys. apply seq_NoDup.
Qed.

(** *** [sorted(set(...))] *)

Lemma insert_sorted_in (z : Z) (l : list Z) (x : Z) :
  In x (insert_sorted z l) <-> x = z \/ In x l.
Proof.
  induction l as [|y l IH]; cbn [insert_sorted].
  - cbn. intuition.
  - destruct (z <? y)%Z eqn:E1; [cbn; intuition|].
    destruct (z =? y)%Z eqn:E2.
    + apply Z.eqb_eq in E2. subst y. cbn. intuition.
    + cbn [In]. rewrite IH. intuition.
Qed.

Lemma insert_sorted_sorted (z : Z) (l : list Z) :
  StronglySorted Z.lt l -> StronglySorted Z.lt (insert_sorted z l).
Proof.
  induction 1 as [|y l Hs IH Hy]; cbn [insert_sorted].
  - repeat constructor.
  - destruct (z <? y)%Z eqn:E1.
    + apply Z.ltb_lt in E1. constructor; [now constructor|].
      constructor; [exact E1|]. eapply Forall_impl; [|exact Hy]. intros; lia.
    + destruct (z =? y)%Z eqn:E2; [now constructor|].
      apply Z.ltb_ge in E1. apply Z.eqb_neq in E2.
      constructor; [exact IH|]. apply Forall_forall. intros x Hx.
      apply insert_sorted_in in Hx. destruct Hx as [->|Hx]; [lia|].
      rewrite Forall_forall in Hy. now apply Hy.
Qed.

Lemma sorted_set_sorted (l : list Z) : StronglySorted Z.lt (sorted_set l).
Proof.
  unfold sorted_set. induction l as [|z l IH]; cbn [fold_right]; [constructor|].
  now apply insert_sorted_sorted.
Qed.

Lemma sorted_set_in (l : list Z) (x : Z) : In x (sorted_set l) <-> In x l.
Proof.
  unfold sorted_set. induction l as [|z l IH]; cbn [fold_right]; [reflexivity|].
  rewrite insert_sorted_in, IH. cbn. intuition.
Qed.

Lemma strictly_sorted_nodup (l : list Z) : StronglySorted Z.lt l -> NoDup l.
Proof.
  induction 1 as [|y l Hs IH Hy]; constructor; [|exact IH].
  intros Hin. rewrite Forall_forall in Hy. specialize (Hy y Hin). lia.
Qed.

Section WithSklearn.
Variable sk : sklearn.

Lemma index_mapping_keys (w : world sk) (min_samples : nat) :
  map fst (index_mapping w min_samples) = label_ids w min_samples.
Proof.
  unfold index_mapping, label_mapping. rewrite map_map. cbn [fst].
  apply enumerate_values.
Qed.

Lemma of_items_index_mapping (w : world sk) (min_samples : nat) :
  Dict.of_items Z.eqb
    (map (fun p => (snd p, fst p)) (Dict.items (label_mapping w min_samples)))
  = index_mapping w min_samples.
Proof.
  apply of_items_distinct; [apply Z.eqb_eq|].
  change (map fst (index_mapping w min_samples)) with (map fst (index_mapping w min_samples)).
  unfold Dict.items. fold (index_mapping w min_samples).
  rewrite index_mapping_keys. apply strictly_sorted_nodup, sorted_set_sorted.
Qed.

Lemma map_outcome_ok {A B : Type} (f : A -> outcome B) (l : list A) :
  (forall a, In a l -> exists b, f a = Ok b) -> exists bs, map_outcome f l = Ok bs.
Proof.
  induction l as [|a l IH]; intros H; [now exists []|].
  destruct (H a (or_introl eq_refl)) as [b Eb].
  destruct IH as [bs Ebs]; [intros x Hx; apply H; now right|].
  exists (b :: bs). cbn [map_outcome]. now rewrite Eb, Ebs.
Qed.

(** The conversion of the labels to indices in [train] does not raise. *)
Lemma labels_convert (w : world sk) (min_samples : nat) :
  exists y,
    map_outcome (rmapping_lookup (Some (index_mapping w min_samples)))
                (map snd (usable_examples w min_samples)) = Ok y.
Proof.
  apply map_outcome_ok. intros l Hl. unfold rmapping_lookup.
  destruct (get_of_key Z.eqb Z.eqb_eq (index_mapping w min_samples) l) as (i & Ei & _).
  - rewrite index_mapping_keys. unfold label_ids. now apply sorted_set_in.
  - rewrite Ei. now eexists.
Qed.

(** The start of [train] on enough data: the two mappings are replaced and
    the labels converted. *)
Lemma train_enough_data (w : world sk) (min_samples : nat) :
  10 <= List.length (usable_examples w min_samples) ->
  (List.length (map fst (training_examples (db w))) <? 10)%nat = false
  /\ (List.length (map fst (filtered_examples (map fst (training_examples (db w)))
                                               (map snd (training_examples (db w)))
                                               min_samples)) <? 10)%nat = false.
Proof.
  unfold usable_examples, get_training_data. cbn [fst snd]. intros H.
  split; apply Nat.ltb_ge; rewrite length_map; [|exact H].
  unfold filtered_examples in H.
  pose proof (filter_length_le
                (fun tl => valid_label (map snd (training_examples (db w))) min_samples (snd tl)
                           && nonempty (strip (fst tl)))
                (combine (map fst (training_examples (db w)))
                         (map snd (training_examples (db w))))) as Hf.
  rewrite length_combine, !length_map, Nat.min_id in Hf. lia.
Qed.

Ltac run_step :=
  cbn [fst snd db created self files writes history
       vectorizer classifier category_mapping reverse_mapping
       set_vectorizer set_classifier set_category_mapping set_reverse_mapping
       reverse_of vec_transform clf_predict].

(** [train] up to the split, on enough data. *)
Ltac enter_train w min_samples H :=
  destruct (train_enough_data w min_samples H) as [Hlen1 Hlen2];
  unfold train, bind, get_db, get_self, lift, assign, ret, get_training_data;
  run_step; rewrite Hlen1, Hlen2; run_step;
  change (filtered_examples (map fst (training_examples (db w)))
                            (map snd (training_examples (db w))) min_samples)
    with (usable_examples w min_samples);
  fold (label_ids w min_samples);
  rewrite (of_items_enumerate (label_ids w min_samples));
  fold (label_mapping w min_samples);
  rewrite (of_items_index_mapping w min_samples).

Lemma train_too_few (w : world sk) (min_samples : nat) :
  List.length (usable_examples w min_samples) < 10 ->
  exists error, train sk min_samples w = (Ok (TrainFailure error), w).
Proof.
  unfold usable_examples, train, bind, get_db, get_training_data.
  cbn [fst snd]. intros H.
  destruct (List.length (map fst (training_examples (db w))) <? 10)%nat;
    [now eexists|].
  rewrite length_map. apply Nat.ltb_lt in H. rewrite H. now eexists.
Qed.

(** A run of [train] that returns a success result. *)
Lemma train_success_run
      (w : world sk) (min_samples : nat) (acc : Q) (n k : nat) (rep : Report sk) :
  fst (train sk min_samples w) = Ok (TrainSuccess acc n k rep) ->
  exists v c,
    snd (train sk min_samples w)
    = snd (save_model sk (before_save w (label_mapping w min_samples)
                                      (index_mapping w min_samples) v c))
    /\ n = List.length (usable_examples w min_samples)
    /\ k = List.length (label_ids w min_samples)
    /\ 10 <= n.
Proof.
  destruct (le_lt_dec 10 (List.length (usable_examples w min_samples))) as [H|H].
  - enter_train w min_samples H.
    destruct (map_outcome _ _) as [y|]; [|discriminate].
    destruct (train_test_split sk _ y) as [[[[X_train X_test] y_train] y_test]|];
      [|discriminate].
    destruct (tfidf_fit_transform sk X_train) as [[v X_train_vec]|]; [|discriminate].
    run_step.
    destruct (tfidf_transform sk v X_test) as [X_test_vec|]; [|discriminate].
    destruct (rf_fit sk X_train_vec y_train) as [c|]; [|discriminate].
    run_step.
    destruct (rf_predict sk c X_test_vec) as [y_pred|]; [|discriminate].
    destruct (accuracy_score sk y_test y_pred) as [accuracy|]; [|discriminate].
    run_step.
    destruct (classification_report sk y_test y_pred _) as [report|]; [|discriminate].
    exists v, c. unfold before_save. cbn [app].
    match goal with Hr : fst _ = Ok (TrainSuccess acc n k rep) |- _ => revert Hr end.
    destruct (save_model sk _) as [[b|e] w'] eqn:Es; cbn [fst snd];
      [|discriminate].
    intros Hres. injection Hres as _ <- <- _. rewrite !length_map.
    repeat split; try reflexivity. exact H.
  - destruct (train_too_few w min_samples H) as [err E].
    rewrite E. discriminate.
Qed.

Lemma before_save_ready (w : world sk) (m : mapping) (r : rmapping) v c :
  no_model sk (self (before_save w m r v c)) = Ok false
  /\ category_mapping (self (before_save w m r v c)) = Some m
  /\ reverse_mapping (self (before_save w m r v c)) = Some r
  /\ writes (before_save w m r v c) = writes w
  /\ files (before_save w m r v c) = files w
  /\ created (before_save w m r v c) = created w
  /\ db (before_save w m r v c) = db w.
Proof. repeat split. Qed.

(** X11: after a run of [train] that returns a success result while the
    writes succeed, the model directory holds the three attributes of the
    in-memory model, and a new process on that directory predicts as the
    training process does. *)
Theorem train_then_restart
        (w : world sk) (min_samples : nat) (acc : Q) (n k : nat) (rep : Report sk) :
  fst (train sk min_samples w) = Ok (TrainSuccess acc n k rep) ->
  all_writes_succeed w ->
  persisted (self (snd (train sk min_samples w))) (files (snd (train sk min_samples w)))
  /\ fst (load_model sk (with_self new_instance (restarted (snd (train sk min_samples w)))))
     = Ok true
  /\ forall text th,
       predict sk (self (snd (get_ml_categorizer sk
                                (restarted (snd (train sk min_samples w)))))) text th
       = predict sk (self (snd (train sk min_samples w))) text th.
Proof.
  intros Hres Hw.
  destruct (train_success_run w min_samples acc n k rep Hres) as (v & c & E & _).
  rewrite E.
  set (B := before_save w (label_mapping w min_samples) (index_mapping w min_samples) v c).
  destruct (before_save_ready w (label_mapping w min_samples)
                              (index_mapping w min_samples) v c)
    as (Hm & Em & _ & Ew & _).
  fold B in Hm, Em, Ew.
  assert (HwB : all_writes_succeed B) by (unfold all_writes_succeed; now rewrite Ew).
  destruct (PersistenceProps.save_model_ok sk B Hm HwB) as (_ & P & _ & Es & _).
  rewrite Es. split; [exact P|].
  destruct P as (Pv & Pc & Pm). rewrite Em in Pm.
  set (w1 := snd (save_model sk B)) in *.
  destruct (PersistenceProps.load_model_ok sk (with_self new_instance (restarted w1))
              _ _ _ Pv Pc Pm) as [Eb El].
  split; [exact Eb|].
  destruct (PersistenceProps.get_ml_categorizer_loads sk (restarted w1) eq_refl
              (PersistenceProps.stored_ready sk _ _ Pv)) as [Eg _].
  intros text th. apply PersistenceProps.predict_same_model;
    rewrite Eg, El; cbn; congruence.
Qed.

Lemma get_distinct {K V : Type} (eqb : K -> K -> bool)
      (eqb_eq : forall a b, eqb a b = true <-> a = b)
      (kvs : list (K * V)) (k : K) (v : V) :
  NoDup (map fst kvs) -> In (k, v) kvs -> Dict.get eqb kvs k = Some v.
Proof.
  induction kvs as [|[k' v'] kvs IH]; intros Hn Hin; [destruct Hin|].
  cbn [Dict.get]. inversion Hn as [|? ? Hk Hn']; subst.
  destruct Hin as [Hin|Hin].
  - injection Hin as -> ->.
    assert (E : eqb k k = true) by (now apply eqb_eq). now rewrite E.
  - destruct (eqb k' k) eqn:E.
    + apply eqb_eq in E. subst k'. exfalso. apply Hk.
      change k with (fst (k, v)). now apply in_map.
    + now apply IH.
Qed.

(** X12: after a run of [train] that returns a success result, the label
    mapping numbers the category ids of the usable examples in strictly
    ascending order, the reverse mapping is its inverse, the result counts
    these ids and the usable examples, of which there are at least 10, and
    [model_status] reports a trained model with these ids. *)
Theorem train_label_mapping
        (w : world sk) (min_samples : nat) (acc : Q) (n k : nat) (rep : Report sk) :
  fst (train sk min_samples w) = Ok (TrainSuccess acc n k rep) ->
  created w = true ->
  category_mapping (self (snd (train sk min_samples w)))
  = Some (enumerate (label_ids w min_samples))
  /\ reverse_mapping (self (snd (train sk min_samples w)))
     = Some (map (fun p => (snd p, fst p)) (enumerate (label_ids w min_samples)))
  /\ StronglySorted Z.lt (label_ids w min_samples)
  /\ (forall c, In c (label_ids w min_samples)
                <-> In c (map snd (usable_examples w min_samples)))
  /\ (forall i c,
         In (i, c) (enumerate (label_ids w min_samples)) ->
         mapping_lookup (category_mapping (self (snd (train sk min_samples w)))) i = Ok c
         /\ rmapping_lookup (reverse_mapping (self (snd (train sk min_samples w)))) c
            = Ok i)
  /\ n = List.length (usable_examples w min_samples)
  /\ k = List.length (label_ids w min_samples)
  /\ 10 <= n
  /\ fst (model_status sk (snd (train sk min_samples w)))
     = Ok (200, {| is_trained := true; num_categories := k;
                   status_categories := map SInt (label_ids w min_samples) |}).
Proof.
  intros Hres Hc.
  destruct (train_success_run w min_samples acc n k rep Hres)
    as (v & c & E & En & Ek & Hn).
  set (B := before_save w (label_mapping w min_samples) (index_mapping w min_samples) v c)
    in *.
  destruct (save_model_cases sk B) as [(e & N & _)|(b & w' & Es & _ & Ec & Eself & _)];
    [discriminate N|].
  rewrite Es in E. cbn [snd] in E. rewrite E, Eself.
  assert (Em : category_mapping (self B) = Some (enumerate (label_ids w min_samples)))
    by reflexivity.
  assert (Er : reverse_mapping (self B)
               = Some (map (fun p => (snd p, fst p)) (enumerate (label_ids w min_samples))))
    by reflexivity.
  rewrite Em, Er.
  split; [reflexivity|]. split; [reflexivity|].
  split; [apply sorted_set_sorted|].
  split; [intros x; apply sorted_set_in|].
  split.
  { intros i x Hin. unfold mapping_lookup, rmapping_lookup. split.
    - rewrite (get_distinct Nat.eqb Nat.eqb_eq _ i x); [reflexivity| |exact Hin].
      rewrite enumerate_keys. apply seq_NoDup.
    - rewrite (get_distinct Z.eqb Z.eqb_eq _ x i); [reflexivity| |].
      + fold (label_mapping w min_samples). fold (index_mapping w min_samples).
        rewrite index_mapping_keys. apply strictly_sorted_nodup, sorted_set_sorted.
      + change (x, i) with ((fun p : nat * Z => (snd p, fst p)) (i, x)).
        now apply in_map. }
  split; [exact En|]. split; [exact Ek|]. split; [exact Hn|].
  unfold model_status, bind.
  assert (Hc' : created w' = true) by (rewrite Ec; exact Hc).
  rewrite (ApiProps.get_ml_categorizer_created sk w' Hc'). cbn [get_self].
  rewrite Eself.
  assert (Ecl : classifier (self B) = Some (Fitted c)) by reflexivity.
  rewrite Ecl, Em. cbn [lift ret fst]. unfold Dict.len, Dict.values.
  rewrite enumerate_values. unfold enumerate at 1.
  rewrite length_combine, length_seq, Nat.min_id, <- Ek. reflexivity.
Qed.

(** *** The training data *)

Lemma example_of_in (x : string) (c : Z) (t : string) (l : Z) :
  In (t, l) (example_of x c) ->
  l = c /\ t = preprocess_text x /\ nonempty t = true.
Proof.
  unfold example_of. destruct (nonempty (preprocess_text x)) eqn:E; [|intros []].
  intros [H|[]]. injection H as <- <-. now repeat split.
Qed.

Lemma training_examples_in (d : database) (t : string) (l : Z) :
  In (t, l) (training_examples d) ->
  (exists x, t = preprocess_text x) /\ nonempty t = true.
Proof.
  unfold training_examples. intros H. apply in_app_or in H. destruct H as [H|H].
  - apply in_flat_map in H. destruct H as ([x c] & _ & H).
    destruct (example_of_in _ _ _ _ H) as (_ & E & Hn). split; [now exists x | exact Hn].
  - apply in_flat_map in H. destruct H as (txn & _ & H).
    unfold transaction_examples in H.
    destruct (txn_category_id txn) as [c|]; [|destruct H].
    apply in_app_or in H. destruct H as [H|H].
    + destruct (txn_merchant txn) as [m|]; [|destruct H].
      destruct (nonempty m); [|destruct H].
      destruct (example_of_in _ _ _ _ H) as (_ & E & Hn). split; [now exists m | exact Hn].
    + destruct (nonempty (txn_description txn)); [|destruct H].
      destruct (example_of_in _ _ _ _ H) as (_ & E & Hn).
      split; [now exists (txn_description txn) | exact Hn].
Qed.

Lemma combine_fst_snd {A B : Type} (l : list (A * B)) :
  combine (map fst l) (map snd l) = l.
Proof. induction l as [|[a b] l IH]; cbn; [reflexivity | now rewrite IH]. Qed.

Lemma usable_examples_filter (w : world sk) (min_samples : nat) :
  usable_examples w min_samples
  = filter (fun tl => valid_label (map snd (training_examples (db w))) min_samples (snd tl))
           (training_examples (db w)).
Proof.
  unfold usable_examples, get_training_data, filtered_examples. cbn [fst snd].
  rewrite combine_fst_snd. apply filter_ext_in. intros [t l] Hin.
  destruct (training_examples_in _ _ _ Hin) as ((x & E) & Hn).
  destruct (NormalizerProps.preprocess_text_tokens x) as (ws & Hws & Ex).
  cbn [fst snd]. rewrite E, Ex, (NormalizerProps.strip_join ws Hws), <- Ex, <- E, Hn.
  apply andb_true_r.
Qed.

Lemma count_occ_filter_label (p : Z -> bool) (l : list (string * Z)) (x : Z) :
  p x = true ->
  count_occ Z.eq_dec (map snd (filter (fun tl => p (snd tl)) l)) x
  = count_occ Z.eq_dec (map snd l) x.
Proof.
  intros Hp. induction l as [|[t y] l IH]; [reflexivity|].
  cbn [filter snd map]. destruct (p y) eqn:Ey.
  - cbn [map snd count_occ]. now rewrite IH.
  - cbn [count_occ]. destruct (Z.eq_dec y x) as [->|_]; [congruence | exact IH].
Qed.

(** X13: the examples [train] keeps are those of the training data whose
    category has at least [min_samples] examples (the test on the stripped
    text drops none); every kept text is a non-empty normalized text, and
    every kept category still has at least [min_samples] examples among the
    kept ones. *)
Theorem usable_examples_classes (w : world sk) (min_samples : nat) :
  usable_examples w min_samples
  = filter (fun tl => valid_label (map snd (training_examples (db w))) min_samples (snd tl))
           (training_examples (db w))
  /\ forall t l,
       In (t, l) (usable_examples w min_samples) ->
       nonempty t = true
       /\ strip t = t
       /\ (exists x, t = preprocess_text x)
       /\ min_samples <= count_occ Z.eq_dec (map snd (usable_examples w min_samples)) l.
Proof.
  split; [apply usable_examples_filter|].
  intros t l. rewrite usable_examples_filter. intros Hin.
  apply filter_In in Hin. destruct Hin as [Hin Hv]. cbn [snd] in Hv.
  destruct (training_examples_in _ _ _ Hin) as ((x & E) & Hn).
  split; [exact Hn|]. split.
  - destruct (NormalizerProps.preprocess_text_tokens x) as (ws & Hws & Ex).
    rewrite E, Ex. now apply NormalizerProps.strip_join.
  - split; [now exists x|].
    rewrite (count_occ_filter_label
               (valid_label (map snd (training_examples (db w))) min_samples)
               _ l Hv).
    unfold valid_label in Hv. now apply Nat.leb_le in Hv.
Qed.


End WithSklearn.

Import Examples MoreExamples.

Lemma train_then_restart_witness :
  persisted (self (snd (train sure 2 (market sure new_instance))))
            (files (snd (train sure 2 (market sure new_instance))))
  /\ fst (load_model sure
            (with_self new_instance (restarted (snd (train sure 2 (market sure new_instance))))))
     = Ok true.
Proof.
  destruct (train_then_restart sure (market sure new_instance) 2 1%Q 55 2 tt)
    as (P & L & _).
  - vm_compute. reflexivity.
  - intros ev [].
  - split; [exact P | exact L].
Defined.

Lemma train_label_mapping_witness :
  fst (model_status sure (snd (train sure 2 (market sure new_instance))))
  = Ok (200, {| is_trained := true; num_categories := 2;
                status_categories := map SInt (label_ids (market sure new_instance) 2) |}).
Proof.
  refine (proj2 (proj2 (proj2 (proj2 (proj2 (proj2 (proj2 (proj2
            (train_label_mapping sure (market sure new_instance) 2 1%Q 55 2 tt _ _))))))))).
  - vm_compute. reflexivity.
  - reflexivity.
Defined.


End TrainingProps.

(* ================================================================= *)
(** ** Where the training data comes from *)

Module ProvenanceProps.
Import Text Normalizer State ML.

Section DictEntries.
Context {K V : Type} (eqb : K -> K -> bool).

Lemma get_entry (d : list (K * V)) (k : K) (v : V) :
  Dict.get eqb d k = Some v -> exists k', In (k', v) d /\ eqb k' k = true.
Proof.
  induction d as [|[k0 v0] d IH]; cbn [Dict.get]; [discriminate|].
  destruct (eqb k0 k) eqn:E.
  - intros H. injection H as ->. exists k0. split; [now left | exact E].
  - intros H. destruct (IH H) as (k' & Hin & Ek). exists k'. split; [now right | exact Ek].
Qed.

Lemma set_entry (d : list (K * V)) (k : K) (v : V) (k' : K) (v' : V) :
  In (k', v') (Dict.set eqb d k v) ->
  In (k', v') d \/ (v' = v /\ (k' = k \/ eqb k' k = true)).
Proof.
  induction d as [|[k0 v0] d IH]; cbn [Dict.set].
  - intros [H|[]]. injection H as <- <-. right. split; [reflexivity | now left].
  - destruct (eqb k0 k) eqn:E.
    + intros [H|H].
      * injection H as <- <-. right. split; [reflexivity | now right].
      * left. now right.
    + intros [H|H].
      * left. now left.
      * destruct (IH H) as [H'|H']; [left; now right | now right].
Qed.

Lemma fold_set_entry (kvs d : list (K * V)) (k' : K) (v' : V) :
  In (k', v') (fold_left (fun d kv => Dict.set eqb d (fst kv) (snd kv)) kvs d) ->
  In (k', v') d \/ exists k, In (k, v') kvs /\ (k' = k \/ eqb k' k = true).
Proof.
  revert d. induction kvs as [|[k v] kvs IH]; intros d; cbn [fold_left fst snd].
  - now left.
  - intros H. destruct (IH _ H) as [H'|(k1 & Hin & Hk)].
    + destruct (set_entry _ _ _ _ _ H') as [H2|[-> Hk]].
      * now left.
      * right. exists k. split; [now left | exact Hk].
    + right. exists k1. split; [now right | exact Hk].
Qed.

Lemma of_items_entry (kvs : list (K * V)) (k' : K) (v' : V) :
  In (k', v') (Dict.of_items eqb kvs) ->
  exists k, In (k, v') kvs /\ (k' = k \/ eqb k' k = true).
Proof.
  unfold Dict.of_items. intros H.
  destruct (fold_set_entry _ _ _ _ H) as [[]|H']. exact H'.
Qed.

End DictEntries.

Lemma db_categories_entry (d : database) (name : string) (i : Z) :
  Dict.get String.eqb (db_categories d) name = Some i ->
  exists c, In c (categories d) /\ cat_name c = name /\ cat_id c = i.
Proof.
  intros H. destruct (get_entry _ _ _ _ H) as (k' & Hin & Ek).
  apply String.eqb_eq in Ek. subst k'.
  destruct (of_items_entry _ _ _ _ Hin) as (k & Hin' & Hk).
  assert (E : name = k) by (destruct Hk as [Hk|Hk]; [exact Hk | now apply String.eqb_eq]).
  subst k. apply in_map_iff in Hin'. destruct Hin' as (c & Ec & Hc).
  injection Ec as En Ei. now exists c.
Qed.

Lemma get_cat_id_entry (dc : list (string * Z)) (names : list string) (i : Z) :
  get_cat_id dc names = Some i ->
  exists name, In name names /\ Dict.get String.eqb dc name = Some i.
Proof.
  induction names as [|name rest IH]; cbn [get_cat_id]; [discriminate|].
  destruct (Dict.get String.eqb dc name) as [j|] eqn:E.
  - intros H. injection H as ->. exists name. split; [now left | exact E].
  - intros H. destruct (IH H) as (n & Hin & Hn). exists n. split; [now right | exact Hn].
Qed.

Lemma training_entries_in (d : database) (m : string) (i : Z) :
  In (m, i) (training_entries d) ->
  exists block c,
    In block lexicon /\ In (cat_name c) (fst block) /\ In m (snd block)
    /\ In c (categories d) /\ cat_id c = i /\ i <> 0%Z.
Proof.
  unfold training_entries. intros H. apply in_flat_map in H.
  destruct H as (block & Hb & H).
  destruct (get_cat_id (db_categories d) (fst block)) as [j|] eqn:E; [|destruct H].
  destruct (truthy_id (Some j)) eqn:Et; [|destruct H].
  apply in_map_iff in H. destruct H as (m' & Em & Hm). injection Em as -> ->.
  destruct (get_cat_id_entry _ _ _ E) as (name & Hn & Hg).
  destruct (db_categories_entry _ _ _ Hg) as (c & Hc & En & Ei).
  exists block, c. subst name. repeat split; try assumption.
  intros Z0. subst i. rewrite Z0 in Et. discriminate Et.
Qed.

(** X15: every example of the training data is the normalized, non-empty
    form either of a merchant of the built-in lists, labelled with the
    non-zero id of a category of the database that bears one of the names
    of its list, or of the merchant or the description of a transaction
    that has a category and is not deleted, labelled with that category. *)
Theorem training_examples_provenance (d : database) (t : string) (l : Z) :
  In (t, l) (training_examples d) ->
  nonempty t = true
  /\ ((exists block c m,
          In block lexicon /\ In (cat_name c) (fst block) /\ In m (snd block)
          /\ In c (categories d) /\ cat_id c = l /\ l <> 0%Z
          /\ t = preprocess_text m)
      \/ (exists txn,
             In txn (transactions d)
             /\ txn_category_id txn = Some l
             /\ txn_deleted txn = false
             /\ ((nonempty (txn_description txn) = true
                  /\ t = preprocess_text (txn_description txn))
                 \/ exists m, txn_merchant txn = Some m /\ nonempty m = true
                              /\ t = preprocess_text m))).
Proof.
  unfold training_examples. intros H. apply in_app_or in H. destruct H as [H|H].
  - apply in_flat_map in H. destruct H as ([m i] & Hin & H). cbn [fst snd] in H.
    destruct (TrainingProps.example_of_in _ _ _ _ H) as (-> & Et & Hn).
    split; [exact Hn|]. left.
    destruct (training_entries_in _ _ _ Hin) as (block & c & Hb & Hc & Hm & Hd & Ei & Hz).
    exists block, c, m. now repeat split.
  - apply in_flat_map in H. destruct H as (txn & Hin & H).
    unfold categorized_transactions in Hin. apply filter_In in Hin.
    destruct Hin as [Hin Hc]. unfold transaction_examples in H.
    destruct (txn_category_id txn) as [c|] eqn:Ec; [|destruct H].
    apply negb_true_iff in Hc.
    apply in_app_or in H. destruct H as [H|H].
    + destruct (txn_merchant txn) as [m|] eqn:Em; [|destruct H].
      destruct (nonempty m) eqn:Hm; [|destruct H].
      destruct (TrainingProps.example_of_in _ _ _ _ H) as (-> & Et & Hn).
      split; [exact Hn|]. right. exists txn. repeat split; try assumption.
      right. now exists m.
    + destruct (nonempty (txn_description txn)) eqn:Hd; [|destruct H].
      destruct (TrainingProps.example_of_in _ _ _ _ H) as (-> & Et & Hn).
      split; [exact Hn|]. right. exists txn. repeat split; try assumption.
      left. now split.
Qed.

Import Examples.

Lemma training_examples_provenance_witness :
  nonempty "walmart" = true
  /\ ((exists block c m,
          In block lexicon /\ In (cat_name c) (fst block) /\ In m (snd block)
          /\ In c (categories (db (market sure new_instance))) /\ cat_id c = 7%Z
          /\ 7%Z <> 0%Z /\ "walmart" = preprocess_text m)
      \/ (exists txn,
             In txn (transactions (db (market sure new_instance)))
             /\ txn_category_id txn = Some 7%Z
             /\ txn_deleted txn = false
             /\ ((nonempty (txn_description txn) = true
                  /\ "walmart" = preprocess_text (txn_description txn))
                 \/ exists m, txn_merchant txn = Some m /\ nonempty m = true
                              /\ "walmart" = preprocess_text m))).
Proof.
  apply (training_examples_provenance (db (market sure new_instance)) "walmart" 7%Z).
  vm_compute. now left.
Defined.

End ProvenanceProps.

(* ================================================================= *)
(** ** The endpoints of [api/ml_training.py] and [ml_categorize] *)

Module EndpointProps.
Import Text Normalizer State ML Api TrainApi PredictSpec TrainSpec.
Open Scope outcome_scope.

Section WithSklearn.
Variable sk : sklearn.

Lemma load_model_db (w : world sk) : db (snd (load_model sk w)) = db w.
Proof.
  unfold load_model, try_catch, bind, get_files, lift, assign, ret. cbn [fst snd].
  destruct (vectorizer_pkl (files w)) as [| |v];
    destruct (classifier_pkl (files w)) as [| |c];
    destruct (category_mapping_pkl (files w)) as [| |[m|]]; reflexivity.
Qed.

Lemma get_ml_categorizer_db (w : world sk) : db (snd (get_ml_categorizer sk w)) = db w.
Proof.
  unfold get_ml_categorizer. destruct (created w); [reflexivity|].
  unfold create_instance, bind, ensure_dir, bind_global. cbn [files with_self].
  pose proof (load_model_db (with_self new_instance w)) as E.
  destruct (dir_holds_file sk (files w)).
  - destruct (load_model sk (with_self new_instance w)) as [[b|e] w']; exact E.
  - destruct (makedirs (files w)) as [[]|e]; [|reflexivity].
    destruct (load_model sk (with_self new_instance w)) as [[b|e] w']; exact E.
Qed.

Lemma train_ml_model_ready (w : world sk) :
  created w = true \/ directory_ready (files w) ->
  train_ml_model sk w = train sk 2 (snd (get_ml_categorizer sk w)).
Proof.
  intros Hr. unfold train_ml_model, bind.
  pose proof (TrainProps.get_ml_categorizer_returns sk w Hr) as Eg.
  destruct (get_ml_categorizer sk w) as [[[]|e] w0]; cbn [fst] in Eg; [|discriminate Eg].
  reflexivity.
Qed.

(** X16: the [/train] endpoint never raises.  It answers 200 with a success
    result, 400 with a failure result, and 500 with the exception that
    [train_ml_model] raised, in [train] or while the instance was made.
    When the instance is bound or can be made, [train_ml_model] is [train]
    on the instance [get_ml_categorizer] returns, and with fewer than 10
    usable examples in the database the endpoint answers 400 and leaves the
    instance as [get_ml_categorizer] bound it; when the directory cannot be
    made the endpoint answers 500. *)
Theorem train_model_answers (w : world sk) :
  (exists code body,
      fst (train_model sk w) = Ok (code, body)
      /\ match fst (train_ml_model sk w) with
         | Ok (TrainSuccess acc n k rep) =>
             code = 200 /\ body = TrainResult sk (TrainSuccess acc n k rep)
         | Ok (TrainFailure err) =>
             code = 400 /\ body = TrainResult sk (TrainFailure err)
         | Raise e => code = 500 /\ body = TrainException sk e
         end)
  /\ snd (train_model sk w) = snd (train_ml_model sk w)
  /\ (created w = true \/ directory_ready (files w) ->
      train_ml_model sk w = train sk 2 (snd (get_ml_categorizer sk w))
      /\ (List.length (usable_examples w 2) < 10 ->
          exists err,
            train_model sk w
            = (Ok (400, TrainResult sk (TrainFailure err)),
               snd (get_ml_categorizer sk w))))
  /\ (forall e,
         created w = false ->
         dir_holds_file sk (files w) = false ->
         makedirs (files w) = Raise e ->
         fst (train_model sk w) = Ok (500, TrainException sk e)).
Proof.
  split; [|split; [|split]].
  - unfold train_model, try_catch, bind, ret.
    destruct (train_ml_model sk w) as [[[err|acc n k rep]|e] w1]; cbn [fst snd train_status];
      eexists; eexists; (split; [reflexivity | split; reflexivity]).
  - unfold train_model, try_catch, bind, ret.
    now destruct (train_ml_model sk w) as [[[err|acc n k rep]|e] w1].
  - intros Hr. split; [now apply train_ml_model_ready|].
    intros H.
    assert (H0 : List.length (usable_examples (snd (get_ml_categorizer sk w)) 2) < 10)
      by (unfold usable_examples in *; now rewrite (get_ml_categorizer_db w)).
    destruct (TrainingProps.train_too_few sk _ 2 H0) as [err E].
    exists err. unfold train_model, try_catch, bind, ret.
    now rewrite (train_ml_model_ready w Hr), E.
  - intros e Hc Hf Hm. unfold train_model, try_catch, bind, ret, train_ml_model.
    unfold bind. now rewrite (PersistenceProps.get_ml_categorizer_fails sk w e Hc Hf Hm).
Qed.

(** *** [ml_categorize] *)

Lemma predict_returns (s : MLCategorizer sk) (text : string) (th : Q) :
  classifier_settled s ->
  exists r, predict sk s text th = Ok r /\ (model_absent s -> r = (None, 0%Q)).
Proof.
  intros Hs. destruct (PredictProps.no_model_cases sk s Hs) as [[Hm Ha]|[Hm Ha]].
  - exists (None, 0%Q). split; [|reflexivity]. unfold predict. now rewrite Hm.
  - destruct (nonempty (preprocess_text text)) eqn:Hne.
    + rewrite (PredictProps.predict_unfold sk s text th Hm Hne).
      destruct (top_class s text) as [[i p]|];
        [|eexists; split; [reflexivity | intros H; now contradiction Ha]].
      destruct (Qlt_bool p th);
        [eexists; split; [reflexivity | intros H; now contradiction Ha]|].
      destruct (mapping_lookup (category_mapping s) i);
        eexists; (split; [reflexivity | intros H; now contradiction Ha]).
    + exists (None, 0%Q). split; [|reflexivity].
      unfold predict. rewrite Hm. cbn [obind]. now rewrite Hne.
Qed.

Lemma stage_returns (s : MLCategorizer sk) (b : bool) (text : string) (th : Q) :
  classifier_settled s ->
  exists r, (if b then predict sk s text th else Ok (None, 0%Q)) = Ok r
            /\ (r = (None, 0%Q) \/ predict sk s text th = Ok r)
            /\ (model_absent s -> r = (None, 0%Q)).
Proof.
  intros Hs. destruct b.
  - destruct (predict_returns s text th Hs) as (r & E & Ha).
    exists r. split; [exact E|]. split; [now right | exact Ha].
  - exists (None, 0%Q). split; [reflexivity|]. split; [now left | reflexivity].
Qed.

Lemma ml_categorize_with_shape (s : MLCategorizer sk) (m d : option string) (th : Q) :
  classifier_settled s ->
  exists r,
    ml_categorize_with sk s m d th = Ok r
    /\ (r = (None, 0%Q)
        \/ (truthy_id (fst r) = true
            /\ (predict sk s (or_empty m) th = Ok r
                \/ predict sk s (or_empty d) th = Ok r
                \/ predict sk s (strip (or_empty m ++ " " ++ or_empty d)) th = Ok r)))
    /\ (model_absent s -> r = (None, 0%Q)).
Proof.
  intros Hs. unfold ml_categorize_with.
  destruct (stage_returns s (truthy_str m) (or_empty m) th Hs) as (r1 & E1 & S1 & A1).
  rewrite E1. cbn [obind]. destruct (truthy_id (fst r1)) eqn:T1.
  { exists r1. split; [reflexivity|]. split; [|exact A1].
    destruct S1 as [->|S1]; [now left | right; split; [exact T1 | now left]]. }
  destruct (stage_returns s (truthy_str d) (or_empty d) th Hs) as (r2 & E2 & S2 & A2).
  rewrite E2. cbn [obind]. destruct (truthy_id (fst r2)) eqn:T2.
  { exists r2. split; [reflexivity|]. split; [|exact A2].
    destruct S2 as [->|S2]; [now left | right; split; [exact T2 | right; now left]]. }
  destruct (stage_returns s (nonempty (strip (or_empty m ++ " " ++ or_empty d)))
                          (strip (or_empty m ++ " " ++ or_empty d)) th Hs)
    as (r3 & E3 & S3 & A3).
  rewrite E3. cbn [obind]. destruct (truthy_id (fst r3)) eqn:T3.
  { exists r3. split; [reflexivity|]. split; [|exact A3].
    destruct S3 as [->|S3]; [now left | right; split; [exact T3 | right; now right]]. }
  exists (None, 0%Q). split; [reflexivity|]. split; [now left | reflexivity].
Qed.

Lemma ml_categorize_with_merchant
      (s : MLCategorizer sk) (m : string) (d : option string) (th : Q) (c : Z) (p : Q) :
  nonempty m = true ->
  predict sk s m th = Ok (Some c, p) ->
  c <> 0%Z ->
  ml_categorize_with sk s (Some m) d th = Ok (Some c, p).
Proof.
  intros Hm Hp Hc. unfold ml_categorize_with. cbn [truthy_str or_empty].
  rewrite Hm, Hp. cbn [obind fst truthy_id].
  apply Z.eqb_neq in Hc. now rewrite Hc.
Qed.

(** X17: over an instance whose classifier is fitted or absent,
    [ml_categorize] returns: either [(None, 0)], or a non-zero category
    with the answer of [predict] on the merchant, on the description or on
    the two joined; it is [(None, 0)] when no model is loaded, and the
    answer of [predict] on a non-empty merchant whenever that names a
    non-zero category. *)
Theorem ml_categorize_with_answers
        (s : MLCategorizer sk) (m d : option string) (th : Q) :
  classifier_settled s ->
  exists r,
    ml_categorize_with sk s m d th = Ok r
    /\ (r = (None, 0%Q)
        \/ (truthy_id (fst r) = true
            /\ (predict sk s (or_empty m) th = Ok r
                \/ predict sk s (or_empty d) th = Ok r
                \/ predict sk s (strip (or_empty m ++ " " ++ or_empty d)) th = Ok r)))
    /\ (model_absent s -> r = (None, 0%Q))
    /\ (forall c p,
           truthy_str m = true ->
           predict sk s (or_empty m) th = Ok (Some c, p) ->
           c <> 0%Z ->
           r = (Some c, p)).
Proof.
  intros Hs.
  destruct (ml_categorize_with_shape s m d th Hs) as (r & E & Sh & Ab).
  exists r. split; [exact E|]. split; [exact Sh|]. split; [exact Ab|].
  intros c p Hm Hp Hc. destruct m as [m|]; [|discriminate Hm].
  cbn [truthy_str or_empty] in Hm, Hp.
  pose proof (ml_categorize_with_merchant s m d th c p Hm Hp Hc) as E'.
  rewrite E in E'. now injection E'.
Qed.

(** *** [predict_category] *)

Lemma ml_categorize_with_truthy (s : MLCategorizer sk) (m d : option string) (th : Q)
      (r : option Z * Q) :
  ml_categorize_with sk s m d th = Ok r ->
  r = (None, 0%Q) \/ truthy_id (fst r) = true.
Proof.
  unfold ml_categorize_with.
  destruct (if truthy_str m then _ else _) as [r1|]; cbn [obind]; [|discriminate].
  destruct (truthy_id (fst r1)) eqn:T1; [intros [= <-]; now right|].
  destruct (if truthy_str d then _ else _) as [r2|]; cbn [obind]; [|discriminate].
  destruct (truthy_id (fst r2)) eqn:T2; [intros [= <-]; now right|].
  destruct (if nonempty _ then _ else _) as [r3|]; cbn [obind]; [|discriminate].
  destruct (truthy_id (fst r3)) eqn:T3; [intros [= <-]; now right|].
  intros [= <-]. now left.
Qed.

Lemma ml_categorize_cases (m d : option string) (th : Q) (w : world sk) :
  db (snd (ml_categorize sk m d th w)) = db w
  /\ forall r, fst (ml_categorize sk m d th w) = Ok r ->
               r = (None, 0%Q) \/ truthy_id (fst r) = true.
Proof.
  unfold ml_categorize, bind, get_self, lift.
  pose proof (get_ml_categorizer_db w) as Ed.
  destruct (get_ml_categorizer sk w) as [[[]|e] w0]; cbn [fst snd] in *.
  - split; [exact Ed|]. intros r E. exact (ml_categorize_with_truthy _ _ _ _ _ E).
  - split; [exact Ed|]. intros r E. discriminate E.
Qed.

(** What the handler makes of the outcome of [ml_categorize]. *)
Lemma predict_category_object (q : predict_request) (w : world sk) :
  truthy_str (req_merchant q) = true \/ truthy_str (req_description q) = true ->
  match fst (ml_categorize sk (req_merchant q) (req_description q)
                (match req_confidence_threshold q with
                 | Some t => t
                 | None => 3 # 10
                 end) w) with
  | Raise e => fst (predict_category sk (Object q) w) = Ok (ServerError e)
  | Ok (None, conf) =>
      fst (predict_category sk (Object q) w)
      = Ok (Prediction None None (round4 sk conf))
  | Ok (Some c, conf) =>
      c <> 0%Z
      /\ fst (predict_category sk (Object q) w)
         = Ok (Prediction (Some c) (option_map cat_name (category_by_id (db w) c))
                          (round4 sk conf))
  end.
Proof.
  intros Hq. unfold predict_category.
  assert (G : negb (truthy_str (req_merchant q)) && negb (truthy_str (req_description q))
              = false).
  { destruct Hq as [H|H]; rewrite H; [reflexivity | apply andb_false_r]. }
  rewrite G. unfold try_catch, bind, get_db, ret, endpoint_default_threshold.
  destruct (ml_categorize_cases (req_merchant q) (req_description q)
              (match req_confidence_threshold q with
               | Some t => t
               | None => 3 # 10
               end) w) as [Ed Hr].
  destruct (ml_categorize sk (req_merchant q) (req_description q) _ w)
    as [[[[c|] conf]|e] w1]; cbn [fst snd] in *; try reflexivity.
  destruct (Hr _ eq_refl) as [H|H]; [discriminate H|].
  cbn [fst] in H. rewrite H, Ed. split; [|reflexivity].
  intros ->. cbn in H. discriminate H.
Qed.

(** X19: the [/predict] endpoint raises only for a JSON body that is truthy
    and not an object: [data.get] then raises [AttributeError] before the
    [try] is entered.  For a falsy body, or an object with neither a
    merchant nor a description, it answers 400 and touches nothing; for any
    other object it answers 500 with the exception [ml_categorize] raised,
    or 200 with what [ml_categorize] returned: no category and no name, or a
    non-zero category with the name the table gives for it. *)
Theorem predict_category_answers (w : world sk) :
  predict_category sk NotAnObject w = (Raise AttributeError, w)
  /\ predict_category sk Falsy w = (Ok (BadRequest "No data provided"), w)
  /\ (forall q,
         truthy_str (req_merchant q) = false ->
         truthy_str (req_description q) = false ->
         predict_category sk (Object q) w
         = (Ok (BadRequest "Either merchant or description required"), w))
  /\ (forall q,
         truthy_str (req_merchant q) = true \/ truthy_str (req_description q) = true ->
         match fst (ml_categorize sk (req_merchant q) (req_description q)
                       (match req_confidence_threshold q with
                        | Some t => t
                        | None => 3 # 10
                        end) w) with
         | Raise e => fst (predict_category sk (Object q) w) = Ok (ServerError e)
         | Ok (None, conf) =>
             fst (predict_category sk (Object q) w)
             = Ok (Prediction None None (round4 sk conf))
         | Ok (Some c, conf) =>
             c <> 0%Z
             /\ fst (predict_category sk (Object q) w)
                = Ok (Prediction (Some c) (option_map cat_name (category_by_id (db w) c))
                                 (round4 sk conf))
         end).
Proof.
  split; [reflexivity|]. split; [reflexivity|]. split.
  - intros q Hm Hd. unfold predict_category. now rewrite Hm, Hd.
  - intros q Hq. exact (predict_category_object q w Hq).
Qed.

End WithSklearn.

Import Examples.

Lemma ml_categorize_with_answers_witness :
  exists r,
    ml_categorize_with sure (trained sure tt tt) (Some "walmart") None (3 # 10) = Ok r
    /\ (r = (None, 0%Q)
        \/ (truthy_id (fst r) = true
            /\ (predict sure (trained sure tt tt) (or_empty (Some "walmart")) (3 # 10) = Ok r
                \/ predict sure (trained sure tt tt) (or_empty None) (3 # 10) = Ok r
                \/ predict sure (trained sure tt tt)
                     (strip (or_empty (Some "walmart") ++ " " ++ or_empty None)) (3 # 10)
                   = Ok r))).
Proof.
  destruct (ml_categorize_with_answers sure (trained sure tt tt) (Some "walmart") None (3 # 10))
    as (r & E & Sh & _).
  - discriminate.
  - exists r. split; [exact E | exact Sh].
Defined.

End EndpointProps.

(* ================================================================= *)
(** ** What [predict] answers *)

Module PredictionProps.
Import Text Normalizer State ML PredictSpec TrainSpec TrainingSpec.
Open Scope outcome_scope.

Section WithSklearn.
Variable sk : sklearn.

Lemma train_success_mapping
      (w : world sk) (min_samples : nat) (acc : Q) (n k : nat) (rep : Report sk) :
  fst (train sk min_samples w) = Ok (TrainSuccess acc n k rep) ->
  category_mapping (self (snd (train sk min_samples w)))
  = Some (enumerate (label_ids w min_samples)).
Proof.
  intros Hres.
  destruct (TrainingProps.train_success_run sk w min_samples acc n k rep Hres) as (v & c & E & _).
  destruct (TrainProps.save_model_cases sk
              (before_save w (label_mapping w min_samples) (index_mapping w min_samples) v c))
    as [(e & N & _)|(b & w' & Es & _ & _ & Eself & _)]; [discriminate N|].
  rewrite Es in E. cbn [snd] in E. rewrite E, Eself. reflexivity.
Qed.

Lemma predict_category_source (s : MLCategorizer sk) (text : string) (th : Q)
      (c : Z) (p : Q) :
  predict sk s text th = Ok (Some c, p) ->
  exists m i,
    category_mapping s = Some m
    /\ Dict.get Nat.eqb m i = Some c
    /\ top_class s text = Ok (i, p)
    /\ (th <= p)%Q
    /\ nonempty (preprocess_text text) = true
    /\ no_model sk s = Ok false.
Proof.
  intros H.
  assert (Hm : no_model sk s = Ok false).
  { unfold predict in H. destruct (no_model sk s) as [[|]|e]; cbn [obind] in H;
      [discriminate H | reflexivity | discriminate H]. }
  assert (Hne : nonempty (preprocess_text text) = true).
  { unfold predict in H. rewrite Hm in H. cbn [obind] in H.
    destruct (nonempty (preprocess_text text)); [reflexivity | discriminate H]. }
  rewrite (PredictProps.predict_unfold sk s text th Hm Hne) in H.
  destruct (top_class s text) as [[i q]|]; [|discriminate H].
  destruct (Qlt_bool q th) eqn:Eq; [discriminate H|].
  unfold mapping_lookup in H.
  destruct (category_mapping s) as [m|]; [|discriminate H].
  destruct (Dict.get Nat.eqb m i) as [c'|] eqn:Eg; [|discriminate H].
  injection H as -> ->. exists m, i. repeat split; try assumption; try reflexivity.
  unfold Qlt_bool in Eq. apply negb_false_iff in Eq. now apply Qle_bool_iff.
Qed.
(** X20: [predict] names a category exactly when a model is loaded, the
    text normalizes to something non-empty, the probability of the top class
    is not below the threshold and the label mapping has an entry for that
    class; the category is that entry and the confidence that probability. *)
Theorem predict_names_category (s : MLCategorizer sk) (text : string) (th : Q)
        (c : Z) (p : Q) :
  predict sk s text th = Ok (Some c, p)
  <-> exists m i,
        category_mapping s = Some m
        /\ Dict.get Nat.eqb m i = Some c
        /\ top_class s text = Ok (i, p)
        /\ (th <= p)%Q
        /\ nonempty (preprocess_text text) = true
        /\ no_model sk s = Ok false.
Proof.
  split; [apply predict_category_source|].
  intros (m & i & Em & Eg & Et & Hp & Hne & Hm).
  rewrite (PredictProps.predict_unfold sk s text th Hm Hne), Et.
  rewrite (ApiProps.Qlt_bool_false p th Hp).
  unfold mapping_lookup. now rewrite Em, Eg.
Qed.

Lemma usable_label_count (w : world sk) (min_samples : nat) (c : Z) :
  In c (map snd (usable_examples w min_samples)) ->
  min_samples <= count_occ Z.eq_dec (map snd (usable_examples w min_samples)) c.
Proof.
  rewrite (TrainingProps.usable_examples_filter sk). intros H. apply in_map_iff in H.
  destruct H as ([t l] & El & H). cbn [snd] in El. subst l.
  apply filter_In in H. destruct H as [_ Hv]. cbn [snd] in Hv.
  rewrite (TrainingProps.count_occ_filter_label
             (valid_label (map snd (training_examples (db w))) min_samples) _ c Hv).
  unfold valid_label in Hv. now apply Nat.leb_le in Hv.
Qed.

(** X21: after a run of [train] that returns a success result, every
    category [predict] names is the category of at least [min_samples] of
    the examples the model was trained on, and comes with a confidence that
    is not below the threshold. *)
Theorem predict_after_train
        (w : world sk) (min_samples : nat) (acc : Q) (n k : nat) (rep : Report sk)
        (text : string) (th : Q) (c : Z) (p : Q) :
  fst (train sk min_samples w) = Ok (TrainSuccess acc n k rep) ->
  predict sk (self (snd (train sk min_samples w))) text th = Ok (Some c, p) ->
  In c (map snd (usable_examples w min_samples))
  /\ min_samples <= count_occ Z.eq_dec (map snd (usable_examples w min_samples)) c
  /\ (th <= p)%Q.
Proof.
  intros Hres Hp.
  destruct (predict_category_source _ _ _ _ _ Hp) as (m & i & Em & Eg & _ & Hth & _).
  rewrite (train_success_mapping w min_samples acc n k rep Hres) in Em.
  injection Em as <-.
  destruct (ProvenanceProps.get_entry _ _ _ _ Eg) as (i' & Hin & _).
  assert (Hc : In c (map snd (usable_examples w min_samples))).
  { apply (TrainingProps.sorted_set_in _ c).
    fold (label_ids w min_samples).
    rewrite <- (TrainingProps.enumerate_values (label_ids w min_samples)).
    change c with (snd (i', c)). now apply in_map. }
  split; [exact Hc|]. split; [now apply usable_label_count | exact Hth].
Qed.

End WithSklearn.

Import Examples.

Lemma predict_after_train_witness :
  In 7%Z (map snd (usable_examples (market sure new_instance) 2))
  /\ 2 <= count_occ Z.eq_dec (map snd (usable_examples (market sure new_instance) 2)) 7%Z
  /\ (3 # 10 <= 9 # 10)%Q.
Proof.
  apply (predict_after_train sure (market sure new_instance) 2 1%Q 55 2 tt
                             "walmart" (3 # 10) 7%Z (9 # 10));
    vm_compute; reflexivity.
Defined.

End PredictionProps.
